(** * regclient: descriptors and the manifest-graph rebase engine

    A shallow embedding of [types.Descriptor] (equality, matching and
    filtering of descriptors) and of the [mod] package steps that edit
    annotations and rebase an image onto a new base. *)

From Stdlib Require Import ZArith Lia Permutation Sorted OrdersEx.
From stdpp Require Import base option list gmap strings fin_maps.
From Equations Require Import Equations.

Open Scope string_scope.
Open Scope list_scope.

(** Go's [m[k]] on a [map[string]string]: the zero value for a missing key. *)
Definition go_index (m : gmap string string) (k : string) : string :=
  default "" (m !! k).

(** Go's [len(m)], [m[k]] and [range m] on a possibly nil map read a nil map
    as an empty one. *)
Definition go_map (m : option (gmap string string)) : gmap string string :=
  default ∅ m.

(** ** Package platform *)
Module platform.

(** Modelled from the spec: the struct [platform.Platform] of package
    platform (the spec's optional platform of a descriptor: os, arch,
    variant, osVersion, osFeatures), with the fields the rebase step fills
    in. *)
Record Platform := {
  OS : string;
  Architecture : string;
  Variant : string;
  OSVersion : string;
  OSFeatures : list string;
  Features : list string
}.

(** [platform.Match] and [platform.Compatible] belong to package
    platform; the descriptor code only calls them, and they are taken as
    parameters. *)
Class Ops := {
  Match : Platform -> Platform -> bool;
  Compatible : Platform -> Platform -> bool
}.

(** The strictest reading of both: the same operating system,
    architecture and variant. It serves to run the code on examples. *)
Definition sameTriple (p p2 : Platform) : bool :=
  String.eqb (OS p) (OS p2)
  && String.eqb (Architecture p) (Architecture p2)
  && String.eqb (Variant p) (Variant p2).

Definition tripleOps : Ops := {| Match := sameTriple; Compatible := sameTriple |}.

End platform.

(** ** Package sort (Go's standard library) *)
Module sort.

(** [sort.Slice(x, less)]. The closure of the source reads the two
    elements at the indices it is given; here it is a relation on the
    elements themselves, and the sorted slice is returned. *)
Class Ops := {
  Slice : forall {A : Type}, (A -> A -> bool) -> list A -> list A
}.

(** What the library asks of [less]: a transitive ordering, both for the
    pairs it accepts and for the pairs it rejects. *)
Definition transitiveLess {A : Type} (less : A -> A -> bool) : Prop :=
  (forall a b c, less a b = true -> less b c = true -> less a c = true) /\
  (forall a b c, less a b = false -> less b c = false -> less a c = false).

(** [a] may stand before [b]: [b] need not sort before [a], unless
    [less] also puts [a] before [b]. For an asymmetric [less] this is
    [less b a = false]. *)
Definition mayPrecede {A : Type} (less : A -> A -> bool) (a b : A) : Prop :=
  less b a = true -> less a b = true.

(** What the library promises: the slice is rearranged, and under a
    transitive [less] no element ends up after one it must precede. *)
Class OpsOK (s : Ops) : Prop := {
  Slice_Permutation :
    forall (A : Type) (less : A -> A -> bool) (l : list A), Permutation (Slice less l) l;
  Slice_sorted :
    forall (A : Type) (less : A -> A -> bool) (l : list A),
      transitiveLess less -> StronglySorted (mayPrecede less) (Slice less l)
}.

(** The library's [insertionSortLessFunc], which it runs on short
    slices: each element in turn is swapped towards the front while it
    is less than its left neighbour. [racc] is the part already sorted,
    last element first. *)
Fixpoint sink {A : Type} (less : A -> A -> bool) (x : A) (racc : list A) : list A :=
  match racc with
  | [] => [x]
  | y :: r => if less x y then y :: sink less x r else x :: racc
  end.

Definition insertionSort {A : Type} (less : A -> A -> bool) (l : list A) : list A :=
  rev (fold_left (fun racc x => sink less x racc) l []).

Definition insertionOps : Ops := {| Slice := @insertionSort |}.

End sort.

(** ** Package types *)
Module types.

(** The media type constants that [init] enters in [mtToOCI]. They are
    declared in another file of the package and taken as parameters. *)
Class MediaTypes := {
  MediaTypeDocker2ManifestList : string;
  MediaTypeDocker2Manifest : string;
  MediaTypeDocker2ImageConfig : string;
  MediaTypeDocker2LayerGzip : string;
  MediaTypeOCI1ManifestList : string;
  MediaTypeOCI1Manifest : string;
  MediaTypeOCI1ImageConfig : string;
  MediaTypeOCI1LayerGzip : string
}.

(** The values these constants have in the Docker and OCI image
    specifications. *)
Definition registryMediaTypes : MediaTypes := {|
  MediaTypeDocker2ManifestList := "application/vnd.docker.distribution.manifest.list.v2+json";
  MediaTypeDocker2Manifest := "application/vnd.docker.distribution.manifest.v2+json";
  MediaTypeDocker2ImageConfig := "application/vnd.docker.container.image.v1+json";
  MediaTypeDocker2LayerGzip := "application/vnd.docker.image.rootfs.diff.tar.gzip";
  MediaTypeOCI1ManifestList := "application/vnd.oci.image.index.v1+json";
  MediaTypeOCI1Manifest := "application/vnd.oci.image.manifest.v1+json";
  MediaTypeOCI1ImageConfig := "application/vnd.oci.image.config.v1+json";
  MediaTypeOCI1LayerGzip := "application/vnd.oci.image.layer.v1.tar+gzip"
|}.

(** What Go guarantees of the constants in the map literal: a composite
    literal with a repeated constant key does not compile; and the OCI
    media types are not the empty string. *)
Class MediaTypesOK (mt : MediaTypes) : Prop := {
  mt_keys_distinct :
    NoDup [MediaTypeDocker2ManifestList; MediaTypeDocker2Manifest;
           MediaTypeDocker2ImageConfig; MediaTypeDocker2LayerGzip;
           MediaTypeOCI1ManifestList; MediaTypeOCI1Manifest;
           MediaTypeOCI1ImageConfig; MediaTypeOCI1LayerGzip];
  mt_oci_nonempty :
    Forall (fun s => s ≠ "")
          [MediaTypeOCI1ManifestList; MediaTypeOCI1Manifest;
           MediaTypeOCI1ImageConfig; MediaTypeOCI1LayerGzip]
}.

(** Modelled from the spec: the annotation keys of the base image,
    [types.AnnotationBaseImageName] and [types.AnnotationBaseImageDigest];
    [WithAnnotationOCIBase] spells the same two keys out. *)
Definition AnnotationBaseImageName : string := "org.opencontainers.image.base.name".
Definition AnnotationBaseImageDigest : string := "org.opencontainers.image.base.digest".

(** Modelled from the spec: the sentinel errors of the package, the
    error kinds of the spec's error handling design. *)
Inductive sentinel :=
| ErrMismatch
| ErrMissingAnnotation
| ErrNotFound
| ErrParsingFailed.

#[global] Instance sentinel_eq_dec : EqDecision sentinel.
Proof. solve_decision. Defined.

(** [Descriptor]. A nil slice, map or pointer is [None]. *)
Record Descriptor := {
  MediaType : string;
  Digest : string;
  Size : Z;
  URLs : option (list string);
  Annotations : option (gmap string string);
  Data : option (list Byte.byte);
  Platform : option platform.Platform;
  ArtifactType : string
}.

(** [MatchOpt]. *)
Record MatchOpt := {
  opt_Platform : option platform.Platform;
  opt_ArtifactType : string;
  opt_Annotations : option (gmap string string);
  SortAnnotation : string;
  SortDesc : bool
}.

Section Descriptor.
Context {mt : MediaTypes} {pf : platform.Ops} {so : sort.Ops}.

(** [mtToOCI], as [init] fills it. *)
Definition mtToOCI : gmap string string :=
  <[MediaTypeOCI1LayerGzip := MediaTypeOCI1LayerGzip]>
  (<[MediaTypeOCI1ImageConfig := MediaTypeOCI1ImageConfig]>
  (<[MediaTypeOCI1Manifest := MediaTypeOCI1Manifest]>
  (<[MediaTypeOCI1ManifestList := MediaTypeOCI1ManifestList]>
  (<[MediaTypeDocker2LayerGzip := MediaTypeOCI1LayerGzip]>
  (<[MediaTypeDocker2ImageConfig := MediaTypeOCI1ImageConfig]>
  (<[MediaTypeDocker2Manifest := MediaTypeOCI1Manifest]>
  (<[MediaTypeDocker2ManifestList := MediaTypeOCI1ManifestList]> ∅))))))).

(** [Descriptor.Same]. *)
Definition Same (d d2 : Descriptor) : bool :=
  if negb (String.eqb (Digest d) (Digest d2)) || negb (Z.eqb (Size d) (Size d2))
  then false
  else if negb (String.eqb (MediaType d) (MediaType d2)) then
    match mtToOCI !! MediaType d with
    | None => false
    | Some _ =>
        if negb (String.eqb (go_index mtToOCI (MediaType d))
                            (go_index mtToOCI (MediaType d2)))
        then false else true
    end
  else true.

(** The loop of [Equal] over [d.URLs], both slices of one length. *)
Fixpoint urlsLoop (u u2 : list string) : bool :=
  match u, u2 with
  | x :: u', y :: u2' => if negb (String.eqb x y) then false else urlsLoop u' u2'
  | _, _ => true
  end.

(** The loop of [Equal] over the keys of [d.Annotations]. *)
Definition annotationsLoop (a a2 : gmap string string) : bool :=
  forallb (fun kv => String.eqb (go_index a kv.1) (go_index a2 kv.1))
          (map_to_list a).

(** [Descriptor.Equal]. *)
Definition Equal (d d2 : Descriptor) : bool :=
  if negb (Same d d2) then false
  else if negb (String.eqb (MediaType d) (MediaType d2)) then false
  else if negb (String.eqb (ArtifactType d) (ArtifactType d2)) then false
  else if
    match Platform d, Platform d2 with
    | Some p, Some p2 => negb (platform.Match p p2)
    | None, None => false
    | _, _ => true
    end then false
  else if
    match URLs d, URLs d2 with
    | Some u, Some u2 =>
        if negb (Nat.eqb (length u) (length u2)) then true
        else negb (urlsLoop u u2)
    | None, None => false
    | _, _ => true
    end then false
  else if
    match Annotations d, Annotations d2 with
    | Some a, Some a2 =>
        if negb (Nat.eqb (size a) (size a2)) then true
        else negb (annotationsLoop a a2)
    | None, None => false
    | _, _ => true
    end then false
  else true.

(** [Descriptor.Match]. *)
Definition Match (d : Descriptor) (opt : MatchOpt) : bool :=
  if negb (String.eqb (opt_ArtifactType opt) "")
     && negb (String.eqb (ArtifactType d) (opt_ArtifactType opt))
  then false
  else if
    match opt_Annotations opt with
    | Some oa =>
        if Nat.ltb 0 (size oa) then
          match Annotations d with
          | None => true
          | Some da =>
              negb (forallb
                (fun kv =>
                   match da !! kv.1 with
                   | None => false
                   | Some dv =>
                       negb (negb (String.eqb kv.2 "") && negb (String.eqb kv.2 dv))
                   end)
                (map_to_list oa))
          end
        else false
    | None => false
    end then false
  else
    match opt_Platform opt with
    | Some op =>
        match Platform d with
        | None => false
        | Some dp => if negb (platform.Compatible op dp) then false else true
        end
    | None => true
    end.

(** Whether a descriptor carries the annotation [k]: the map is not nil
    and holds the key. *)
Definition hasAnnotation (k : string) (d : Descriptor) : bool :=
  match Annotations d with
  | None => false
  | Some a => bool_decide (is_Some (a !! k))
  end.

(** The closure handed to [sort.Slice] in [DescriptorListFilter], on the
    elements found at the two indices. [strings.Compare a b < 0] is
    [a < b] in the byte order of strings. *)
Definition sortLess (opt : MatchOpt) (di dj : Descriptor) : bool :=
  match Annotations di with
  | None => false
  | Some ai =>
      match ai !! SortAnnotation opt with
      | None => false
      | Some _ =>
          match Annotations dj with
          | None => true
          | Some aj =>
              match aj !! SortAnnotation opt with
              | None => true
              | Some _ =>
                  if match String.compare (go_index ai (SortAnnotation opt))
                                          (go_index aj (SortAnnotation opt)) with
                     | Lt => true
                     | _ => false
                     end
                  then negb (SortDesc opt)
                  else SortDesc opt
              end
          end
      end
  end.

(** [DescriptorListFilter]. *)
Definition DescriptorListFilter (dl : list Descriptor) (opt : MatchOpt)
  : list Descriptor :=
  let ret := filter (fun d => Match d opt = true) dl in
  if negb (String.eqb (SortAnnotation opt) "")
  then sort.Slice (sortLess opt) ret
  else ret.

End Descriptor.

End types.

(** ** Errors and outcomes *)

(** A Go [error]: a sentinel of package types, an error made by another
    package, or the result of [fmt.Errorf], which may wrap another error
    ([%w] and [%.0w]). *)
Inductive error :=
| Sentinel (s : types.sentinel)
| Foreign (msg : string)
| Errorf (format : string)
| Wrap (format : string) (wrapped : error).

(** [errors.Is(e, s)] for a sentinel [s]. *)
Fixpoint errors_Is (e : error) (s : types.sentinel) : bool :=
  match e with
  | Sentinel s' => bool_decide (s' = s)
  | Foreign _ => false
  | Errorf _ => false
  | Wrap _ e' => errors_Is e' s
  end.

(** The outcome of a call: a value, an error, or a run-time panic (an
    index out of range, a nil pointer dereference). *)
Inductive res (A : Type) :=
| Ret (a : A)
| Raise (e : error)
| Panic.
Arguments Ret {A} a.
Arguments Raise {A} e.
Arguments Panic {A}.

(** Sequencing: the first error or panic ends the call. *)
#[global] Instance res_bind : MBind res := fun A B k x =>
  match x with
  | Ret a => k a
  | Raise e => Raise e
  | Panic => Panic
  end.

(** [l[i]], which panics out of range. *)
Definition go_at {A : Type} (l : list A) (i : nat) : res A :=
  match l !! i with
  | Some x => Ret x
  | None => Panic
  end.

(** [l[n:]], which panics when [n] exceeds the length. *)
Definition go_from {A : Type} (n : nat) (l : list A) : res (list A) :=
  if Nat.leb n (length l) then Ret (drop n l) else Panic.

(** ** Package ref *)
Module ref.

(** Modelled from the spec: the struct [ref.Ref] of package ref, a
    reference identifying an image. The steps read and write its [Digest];
    [Reference] stands for the other fields, which they carry along. *)
Record Ref := {
  Reference : string;
  Digest : string
}.

Definition setDigest (r : Ref) (d : string) : Ref :=
  {| Reference := Reference r; Digest := d |}.

(** [ref.New] belongs to package ref and is taken as a parameter. *)
Class Ops := {
  New : string -> res Ref
}.

End ref.

(** ** Package digest *)
Module digest.

(** [digest.Parse] of the go-digest library, taken as a parameter; a
    digest is its string. *)
Class Ops := {
  Parse : string -> res string
}.

End digest.

(** ** Package oci/v1: the image configuration *)
Module v1.

(** [time.Time], as far as [Equal] reads it: the instant, and the
    location it is shown in. *)
Record Time := {
  instant : Z;
  location : string
}.

(** [Time.Equal]: the same instant, whatever the location. *)
Definition Time_Equal (t u : Time) : bool := Z.eqb (instant t) (instant u).

(** Modelled from the spec: the struct [v1.History], a history entry
    with its author, comment, created timestamp, created-by command and
    empty-layer flag. [Created] is a pointer, which the rebase step
    dereferences. *)
Record History := {
  Created : option Time;
  CreatedBy : string;
  Author : string;
  Comment : string;
  EmptyLayer : bool
}.

(** Modelled from the spec: the struct [v1.Image], the image
    configuration (history, rootfs diff IDs, labels and platform), with
    the fields the steps read. *)
Record Image := {
  OS : string;
  Architecture : string;
  Variant : string;
  OSVersion : string;
  OSFeatures : list string;
  Labels : option (gmap string string);
  Hist : list History;
  DiffIDs : list string
}.

Definition setHistDiffIDs (c : Image) (h : list History) (d : list string) : Image :=
  {| OS := OS c; Architecture := Architecture c; Variant := Variant c;
     OSVersion := OSVersion c; OSFeatures := OSFeatures c; Labels := Labels c;
     Hist := h; DiffIDs := d |}.

(** Modelled from the spec: the structs [v1.Index] and [v1.Manifest],
    with the fields the steps read. *)
Record Index := {
  ix_Manifests : list types.Descriptor;
  ix_Annotations : option (gmap string string)
}.

Record Manifest := {
  mf_Config : types.Descriptor;
  mf_Layers : list types.Descriptor;
  mf_Annotations : option (gmap string string)
}.

End v1.

(** ** Package manifest *)
Module manifest.

(** The [manifest.Manifest] interface with its [Imager] and [Annotator]
    extensions, and the conversions of package manifest, all taken as
    parameters. A method that changes its receiver returns the receiver
    after the call, with the error if any. *)
Class Ops := {
  Manifest : Type;
  Orig : Type;
  IsList : Manifest -> bool;
  GetDescriptor : Manifest -> types.Descriptor;
  GetOrig : Manifest -> Orig;
  SetOrig : Manifest -> Orig -> Manifest * option error;
  (** [m.(manifest.Imager)] *)
  isImager : Manifest -> bool;
  GetLayers : Manifest -> res (list types.Descriptor);
  GetConfig : Manifest -> res types.Descriptor;
  SetLayers : Manifest -> list types.Descriptor -> Manifest * option error;
  (** [m.(manifest.Annotator)] *)
  isAnnotator : Manifest -> bool;
  GetAnnotations : Manifest -> res (option (gmap string string));
  GetPlatformDesc : Manifest -> platform.Platform -> res types.Descriptor;
  OCIIndexFromAny : Orig -> res v1.Index;
  OCIIndexToAny : v1.Index -> Orig -> res Orig;
  OCIManifestFromAny : Orig -> res v1.Manifest;
  OCIManifestToAny : v1.Manifest -> Orig -> res Orig
}.

(** A manifest returns the layers it was given. *)
Class OpsOK (o : Ops) : Prop := {
  GetLayers_SetLayers :
    forall (m m' : Manifest) (l : list types.Descriptor),
      SetLayers m l = (m', None) -> GetLayers m' = Ret l
}.

End manifest.

(** ** Package blob *)
Module blob.

(** The [blob.OCIConfig] interface of package blob, taken as a
    parameter. *)
Class Ops := {
  OCIConfig : Type;
  GetConfig : OCIConfig -> v1.Image;
  SetConfig : OCIConfig -> v1.Image -> OCIConfig;
  GetDescriptor : OCIConfig -> types.Descriptor
}.

(** A config blob returns the configuration it was given. *)
Class OpsOK (o : Ops) : Prop := {
  GetConfig_SetConfig :
    forall (oc : OCIConfig) (c : v1.Image), GetConfig (SetConfig oc c) = c
}.

End blob.

(** ** Package regclient *)
Module regclient.

(** The registry calls of the rebase step, methods of
    [regclient.RegClient], taken as parameters. The registry does not
    change while a step reads it; [BlobCopy] is kept for its error
    alone. *)
Class Ops {mo : manifest.Ops} {bo : blob.Ops} := {
  ManifestGet : ref.Ref -> res manifest.Manifest;
  BlobGetOCIConfig : ref.Ref -> types.Descriptor -> res blob.OCIConfig;
  BlobCopy : ref.Ref -> ref.Ref -> types.Descriptor -> option error
}.

End regclient.

(** ** Package mod *)
Module Mod.
Import types.

(** Modelled from the spec: the modification state of a node, the type
    [changes] with its four values. *)
Inductive changes :=
| unchanged
| added
| replaced
| deleted.

#[global] Instance changes_eq_dec : EqDecision changes.
Proof. solve_decision. Defined.

(** The zero value [Descriptor{}]. *)
Definition zeroDescriptor : Descriptor := {|
  MediaType := ""; Digest := ""; Size := 0; URLs := None;
  Annotations := None; Data := None; Platform := None; ArtifactType := ""
|}.

(** Modelled from the spec: the struct [dagLayer], a DAG layer node
    (modification state, uncompressed digest, original descriptor, new
    descriptor). *)
Record dagLayer := {
  l_mod : changes;
  ucDigest : string;
  desc : Descriptor;
  l_newDesc : Descriptor
}.

(** [dm.layers] without its entry [i], as the prune loop of the rebase
    step takes it out: [dm.layers[1:]] at the front, [dm.layers[:i]] at
    the end, [append(dm.layers[:i], dm.layers[i+1:]...)] between. *)
Definition removeAt (i : nat) (dl : list dagLayer) : list dagLayer :=
  if Nat.eqb i 0 then drop 1 dl
  else if Nat.leb (length dl - 1) i then take i dl
  else take i dl ++ drop (S i) dl.

Lemma removeAt_length (i : nat) (dl : list dagLayer) :
  i < length dl -> length (removeAt i dl) = length dl - 1.
Proof.
  intros Hi. unfold removeAt.
  destruct (Nat.eqb_spec i 0) as [->|Hi0].
  - rewrite length_drop. lia.
  - destruct (Nat.leb_spec (length dl - 1) i).
    + rewrite length_take. lia.
    + rewrite length_app, length_take, length_drop. lia.
Qed.

(** A value together with the equation that names it. *)
Definition inspect {A : Type} (a : A) : {b : A | a = b} := exist _ a eq_refl.

(** The prune loop of the rebase step:
    [for pruneNum > 0 { if dm.layers[i].mod == added { i++; continue }; ...; pruneNum-- }]. *)
Equations? pruneLoop (dl : list dagLayer) (i pruneNum : nat) : res (list dagLayer)
  by wf (pruneNum + (length dl - i)) lt :=
  pruneLoop dl i 0 := Ret dl;
  pruneLoop dl i (S n) with inspect (dl !! i) := {
    | exist _ None _ := Panic
    | exist _ (Some l) Hl :=
        if bool_decide (l_mod l = added)
        then pruneLoop dl (S i) (S n)
        else pruneLoop (removeAt i dl) i n
  }.
Proof.
  - apply lookup_lt_Some in Hl. lia.
  - apply lookup_lt_Some in Hl. rewrite removeAt_length by done. lia.
Qed.

Section Steps.
Context {mt : MediaTypes} {pf : platform.Ops} {mo : manifest.Ops}
        {bo : blob.Ops} {rc : regclient.Ops} {ro : ref.Ops} {dg : digest.Ops}.

(** Modelled from the spec: the structs [dagOCIConfig] and
    [dagManifest], the DAG config node and the DAG manifest node, with the
    fields the steps use. [config] is a pointer. *)
Record dagOCIConfig := {
  modified : bool;
  c_newDesc : Descriptor;
  oc : blob.OCIConfig
}.

Record dagManifest := {
  dm_mod : changes;
  top : bool;
  newDesc : Descriptor;
  m : manifest.Manifest;
  config : option dagOCIConfig;
  layers : list dagLayer
}.

(** The closures registered in [dc.stepsManifest], with what they
    capture: the annotation step its name and value, the rebase step
    its two references and its two cached base manifests. *)
Inductive step :=
| annotationStep (name value : string)
| rebaseStep (rOld rNew : ref.Ref) (mbOldCache mbNewCache : option manifest.Manifest).

Record dagConfig := {
  stepsManifest : list step
}.

(** *** WithAnnotation *)

(** The edit of the annotation map, the same in both branches of the
    step: a nil map is replaced by an empty one, then the key is
    deleted or set. Returns the map and [changed]. *)
Definition setOrDelete (name value : string) (annotations : option (gmap string string))
  : gmap string string * bool :=
  let a := go_map annotations in
  let cur := go_index a name in
  let ok := bool_decide (is_Some (a !! name)) in
  if String.eqb value "" && ok then (delete name a, true)
  else if negb (String.eqb value "") && negb (String.eqb value cur)
       then (<[name := value]> a, true)
       else (a, false).

(** From [om := dm.m.GetOrig()] to the conversion back into [om]. *)
Definition annotateOrig (name value : string) (mm : manifest.Manifest)
           (om : manifest.Orig) : res (manifest.Orig * bool) :=
  if manifest.IsList mm then
    ociI ← manifest.OCIIndexFromAny om;
    let '(a, changed) := setOrDelete name value (v1.ix_Annotations ociI) in
    om' ← manifest.OCIIndexToAny
            {| v1.ix_Manifests := v1.ix_Manifests ociI; v1.ix_Annotations := Some a |} om;
    Ret (om', changed)
  else
    ociM ← manifest.OCIManifestFromAny om;
    let '(a, changed) := setOrDelete name value (v1.mf_Annotations ociM) in
    om' ← manifest.OCIManifestToAny
            {| v1.mf_Config := v1.mf_Config ociM; v1.mf_Layers := v1.mf_Layers ociM;
               v1.mf_Annotations := Some a |} om;
    Ret (om', changed).

(** The step [WithAnnotation] registers. It returns the node as the
    call leaves it, and the error. *)
Definition runAnnotation (name value : string) (dm : dagManifest)
  : dagManifest * res unit :=
  if bool_decide (dm_mod dm = deleted) || negb (top dm) then (dm, Ret tt)
  else
    let om := manifest.GetOrig (m dm) in
    match annotateOrig name value (m dm) om with
    | Raise e => (dm, Raise e)
    | Panic => (dm, Panic)
    | Ret (om', changed) =>
        if changed then
          let '(m', err) := manifest.SetOrig (m dm) om' in
          match err with
          | Some e =>
              ({| dm_mod := replaced; top := top dm; newDesc := newDesc dm; m := m';
                  config := config dm; layers := layers dm |}, Raise e)
          | None =>
              ({| dm_mod := replaced; top := top dm;
                  newDesc := manifest.GetDescriptor m'; m := m';
                  config := config dm; layers := layers dm |}, Ret tt)
          end
        else (dm, Ret tt)
    end.

(** [WithAnnotation]. *)
Definition WithAnnotation (name value : string) (dc : dagConfig) (dm : dagManifest)
  : dagConfig * res unit :=
  ({| stepsManifest := stepsManifest dc ++ [annotationStep name value] |}, Ret tt).

(** *** The rebase step *)

Definition errMismatch (format : string) : error := Wrap format (Sentinel ErrMismatch).

(** What the step has loaded when it starts to validate. *)
Record bases := {
  layersOld : list Descriptor;
  confOCIOld : v1.Image;
  layersNew : list Descriptor;
  confOCINew : v1.Image;
  imgLayers : list Descriptor;
  conf : blob.OCIConfig;
  confOCI : v1.Image
}.

(** A base manifest, or for a list its entry for the platform. *)
Definition resolve (rBase : ref.Ref) (mb : manifest.Manifest) (p : platform.Platform)
  : res manifest.Manifest :=
  if manifest.IsList mb then
    d ← manifest.GetPlatformDesc mb p;
    regclient.ManifestGet (ref.setDigest rBase (Digest d))
  else Ret mb.

(** From the platform of the config to [confOCI := conf.GetConfig()]. *)
Definition loadImages (rOld rNew : ref.Ref) (mbOldCache mbNewCache : manifest.Manifest)
           (dm : dagManifest) : res bases :=
  dc ← match config dm with Some dc => Ret dc | None => Panic end;
  let oc0 := blob.GetConfig (oc dc) in
  let p := {| platform.OS := v1.OS oc0;
              platform.Architecture := v1.Architecture oc0;
              platform.Variant := v1.Variant oc0;
              platform.OSVersion := v1.OSVersion oc0;
              platform.OSFeatures := v1.OSFeatures oc0;
              platform.Features := v1.OSFeatures oc0 |} in
  mbOld ← resolve rOld mbOldCache p;
  mbNew ← resolve rNew mbNewCache p;
  if negb (manifest.isImager mbOld)
  then Raise (Errorf "base original image is not an image")
  else
    lOld ← manifest.GetLayers mbOld;
    cdOld ← manifest.GetConfig mbOld;
    confOld ← regclient.BlobGetOCIConfig rOld cdOld;
    if negb (manifest.isImager mbNew)
    then Raise (Errorf "base new image is not an image")
    else
      lNew ← manifest.GetLayers mbNew;
      cdNew ← manifest.GetConfig mbNew;
      confNew ← regclient.BlobGetOCIConfig rNew cdNew;
      if negb (manifest.isImager (m dm))
      then Raise (Errorf "manifest is not an image")
      else
        l ← manifest.GetLayers (m dm);
        Ret {| layersOld := lOld; confOCIOld := blob.GetConfig confOld;
               layersNew := lNew; confOCINew := blob.GetConfig confNew;
               imgLayers := l; conf := oc dc; confOCI := blob.GetConfig (oc dc) |}.

(** [for i := range layersOld]: [rest] is [layersOld[i:]]. *)
Fixpoint layersLoop (imgL : list Descriptor) (i : nat) (rest : list Descriptor)
  : res unit :=
  match rest with
  | [] => Ret tt
  | lo :: rest' =>
      l ← go_at imgL i;
      if negb (Same l lo)
      then Raise (errMismatch "old base image does not match image layers, layer %d, base %v, image %v%.0w")
      else layersLoop imgL (S i) rest'
  end.

(** [for i := range confOCIOld.History]: [rest] is the old history from
    [i] on. The conditions are tried in order, and the two [Created]
    pointers are dereferenced when author and comment agree. *)
Fixpoint historyLoop (hist : list v1.History) (i : nat) (rest : list v1.History)
         (historyLayers : nat) : res nat :=
  match rest with
  | [] => Ret historyLayers
  | ho :: rest' =>
      h ← go_at hist i;
      let mismatch := Raise (errMismatch "old base image does not match image history, entry %d, base %v, image %v%.0w") in
      if negb (String.eqb (v1.Author h) (v1.Author ho)) then mismatch
      else if negb (String.eqb (v1.Comment h) (v1.Comment ho)) then mismatch
      else
        match v1.Created h, v1.Created ho with
        | Some t, Some t_o =>
            if negb (v1.Time_Equal t t_o) then mismatch
            else if negb (String.eqb (v1.CreatedBy h) (v1.CreatedBy ho)) then mismatch
            else if negb (Bool.eqb (v1.EmptyLayer h) (v1.EmptyLayer ho)) then mismatch
            else historyLoop hist (S i) rest'
                   (if negb (v1.EmptyLayer ho) then S historyLayers else historyLayers)
        | _, _ => Panic
        end
  end.

(** [for i := range confOCIOld.RootFS.DiffIDs]. *)
Fixpoint diffIDsLoop (diffIDs : list string) (i : nat) (rest : list string) : res unit :=
  match rest with
  | [] => Ret tt
  | d_o :: rest' =>
      d ← go_at diffIDs i;
      if negb (String.eqb d d_o)
      then Raise (errMismatch "old base image does not match image rootfs, entry %d, base %s, image %s%.0w")
      else diffIDsLoop diffIDs (S i) rest'
  end.

(** "validate current base". *)
Definition validateOld (b : bases) : res unit :=
  if Nat.ltb (length (imgLayers b)) (length (layersOld b))
  then Raise (errMismatch "base image has more layers than modified image%.0w")
  else
    layersLoop (imgLayers b) 0 (layersOld b);;
    if Nat.ltb (length (v1.Hist (confOCI b))) (length (v1.Hist (confOCIOld b)))
    then Raise (errMismatch "base image has more history entries than modified image%.0w")
    else
      historyLayers ← historyLoop (v1.Hist (confOCI b)) 0 (v1.Hist (confOCIOld b)) 0;
      if negb (Nat.eqb (length (layersOld b)) historyLayers)
         || negb (Nat.eqb (length (layersOld b)) (length (v1.DiffIDs (confOCIOld b))))
      then Raise (errMismatch "old base image layer count doesn't match history%.0w")
      else if Nat.ltb (length (v1.DiffIDs (confOCI b))) (length (v1.DiffIDs (confOCIOld b)))
      then Raise (errMismatch "base image has more rootfs entries than modified image%.0w")
      else diffIDsLoop (v1.DiffIDs (confOCI b)) 0 (v1.DiffIDs (confOCIOld b)).

(** The counting loop over a history. *)
Definition countLayers (hist : list v1.History) : nat :=
  fold_left (fun n h => if negb (v1.EmptyLayer h) then S n else n) hist 0.

(** "validate new base". *)
Definition validateNew (b : bases) : res unit :=
  let historyLayers := countLayers (v1.Hist (confOCINew b)) in
  if negb (Nat.eqb (length (layersNew b)) historyLayers)
     || negb (Nat.eqb (length (v1.DiffIDs (confOCINew b))) historyLayers)
  then Raise (Errorf "new base image config history doesn't match layer count")
  else Ret tt.

(** "copy blobs from new base to repo". *)
Fixpoint copyBlobs (rNew r : ref.Ref) (lNew : list Descriptor) : res unit :=
  match lNew with
  | [] => Ret tt
  | d :: rest =>
      match regclient.BlobCopy rNew r d with
      | Some err => Raise (Wrap "failed copying blobs for rebase: %w" err)
      | None => copyBlobs rNew r rest
      end
  end.

(** [for i, l := range layersNew { dagAdd = append(dagAdd, ...) }]:
    [rest] is [layersNew[i:]]. *)
Fixpoint dagAddLoop (diffIDsNew : list string) (i : nat) (rest : list Descriptor)
  : res (list dagLayer) :=
  match rest with
  | [] => Ret []
  | l :: rest' =>
      d ← go_at diffIDsNew i;
      dagAdd ← dagAddLoop diffIDsNew (S i) rest';
      Ret ({| l_mod := unchanged; ucDigest := d; desc := l;
              l_newDesc := zeroDescriptor |} :: dagAdd)
  end.

Definition withLayers (dm : dagManifest) (dl : list dagLayer) : dagManifest :=
  {| dm_mod := dm_mod dm; top := top dm; newDesc := newDesc dm; m := m dm;
     config := config dm; layers := dl |}.

(** From "delete the old layers and config entries" to the end of the
    step. *)
Definition splice (b : bases) (dm : dagManifest) : dagManifest * res unit :=
  match pruneLoop (layers dm) 0 (length (layersOld b)) with
  | Raise e => (dm, Raise e)
  | Panic => (dm, Panic)
  | Ret pruned =>
      match
        (l ← go_from (length (layersOld b)) (imgLayers b);
         h ← go_from (length (v1.Hist (confOCIOld b))) (v1.Hist (confOCI b));
         d ← go_from (length (v1.DiffIDs (confOCIOld b))) (v1.DiffIDs (confOCI b));
         dagAdd ← dagAddLoop (v1.DiffIDs (confOCINew b)) 0 (layersNew b);
         Ret (l, h, d, dagAdd))
      with
      | Raise e => (withLayers dm pruned, Raise e)
      | Panic => (withLayers dm pruned, Panic)
      | Ret (l, h, d, dagAdd) =>
          let '(m', err) := manifest.SetLayers (m dm) (layersNew b ++ l) in
          match err with
          | Some e =>
              ({| dm_mod := dm_mod dm; top := top dm; newDesc := newDesc dm; m := m';
                  config := config dm; layers := dagAdd ++ pruned |}, Raise e)
          | None =>
              let oc' := blob.SetConfig (conf b)
                           (v1.setHistDiffIDs (confOCI b)
                              (v1.Hist (confOCINew b) ++ h)
                              (v1.DiffIDs (confOCINew b) ++ d)) in
              ({| dm_mod := replaced; top := top dm; newDesc := newDesc dm; m := m';
                  config := Some {| modified := true;
                                    c_newDesc := blob.GetDescriptor oc';
                                    oc := oc' |};
                  layers := dagAdd ++ pruned |}, Ret tt)
          end
      end
  end.

(** From "get the platform from the config" to the end of the step. *)
Definition rebase (rOld rNew : ref.Ref) (mbOldCache mbNewCache : manifest.Manifest)
           (r : ref.Ref) (dm : dagManifest) : dagManifest * res unit :=
  match
    (b ← loadImages rOld rNew mbOldCache mbNewCache dm;
     validateOld b;;
     validateNew b;;
     copyBlobs rNew r (layersNew b);;
     Ret b)
  with
  | Raise e => (dm, Raise e)
  | Panic => (dm, Panic)
  | Ret b => splice b dm
  end.

(** A cached base manifest, or the one the registry returns. *)
Definition cached (cache : option manifest.Manifest) (rBase : ref.Ref)
  : res manifest.Manifest :=
  match cache with
  | Some mb => Ret mb
  | None => regclient.ManifestGet rBase
  end.

(** The closure [rebaseAddStep] registers. It returns the two caches
    and the node as the call leaves them, and the error. *)
Definition runRebase (rOld rNew : ref.Ref) (mbOldCache mbNewCache : option manifest.Manifest)
           (r : ref.Ref) (dm : dagManifest)
  : option manifest.Manifest * option manifest.Manifest * dagManifest * res unit :=
  if manifest.IsList (m dm) || bool_decide (dm_mod dm = deleted)
  then (mbOldCache, mbNewCache, dm, Ret tt)
  else
    match cached mbOldCache rOld with
    | Raise e => (mbOldCache, mbNewCache, dm, Raise e)
    | Panic => (mbOldCache, mbNewCache, dm, Panic)
    | Ret mbO =>
        match cached mbNewCache rNew with
        | Raise e => (Some mbO, mbNewCache, dm, Raise e)
        | Panic => (Some mbO, mbNewCache, dm, Panic)
        | Ret mbN =>
            if Equal (manifest.GetDescriptor mbO) (manifest.GetDescriptor mbN)
            then (Some mbO, Some mbN, dm, Ret tt)
            else
              let '(dm', e) := rebase rOld rNew mbO mbN r dm in
              (Some mbO, Some mbN, dm', e)
        end
    end.

(** One call of a registered step on a node. *)
Definition runStep (s : step) (r : ref.Ref) (dm : dagManifest)
  : step * dagManifest * res unit :=
  match s with
  | annotationStep name value =>
      let '(dm', e) := runAnnotation name value dm in (s, dm', e)
  | rebaseStep rOld rNew mbOldCache mbNewCache =>
      let '(cO, cN, dm', e) := runRebase rOld rNew mbOldCache mbNewCache r dm in
      (rebaseStep rOld rNew cO cN, dm', e)
  end.

(** [rebaseAddStep]: both caches start nil. *)
Definition rebaseAddStep (dc : dagConfig) (rOld rNew : ref.Ref) : dagConfig * res unit :=
  ({| stepsManifest := stepsManifest dc ++ [rebaseStep rOld rNew None None] |}, Ret tt).

(** [WithRebaseRefs]. *)
Definition WithRebaseRefs (rOld rNew : ref.Ref) (dc : dagConfig) (dm : dagManifest)
  : dagConfig * res unit :=
  rebaseAddStep dc rOld rNew.

(** [WithRebase]. *)
Definition WithRebase (dc : dagConfig) (dm : dagManifest) : dagConfig * res unit :=
  if negb (manifest.isAnnotator (m dm))
  then (dc, Raise (Errorf "rebased failed, manifest does not support annotations"))
  else
    match manifest.GetAnnotations (m dm) with
    | Raise err => (dc, Raise (Wrap "failed getting annotations: %w" err))
    | Panic => (dc, Panic)
    | Ret annot =>
        match go_map annot !! AnnotationBaseImageName with
        | None =>
            (dc, Raise (Wrap "annotation for base image is missing (%s or %s)%.0w"
                             (Sentinel ErrMissingAnnotation)))
        | Some baseName =>
            match go_map annot !! AnnotationBaseImageDigest with
            | None =>
                (dc, Raise (Wrap "annotation for base image is missing (%s or %s)%.0w"
                                 (Sentinel ErrMissingAnnotation)))
            | Some baseDigest =>
                match ref.New baseName with
                | Raise err => (dc, Raise (Wrap "failed to parse base name: %w" err))
                | Panic => (dc, Panic)
                | Ret rNew =>
                    match digest.Parse baseDigest with
                    | Raise err => (dc, Raise (Wrap "failed to parse base digest: %w" err))
                    | Panic => (dc, Panic)
                    | Ret dig =>
                        let rOld := ref.setDigest rNew dig in
                        rebaseAddStep dc rOld rNew
                    end
                end
            end
        end
    end.

End Steps.

End Mod.

(** * Concrete descriptors and options, to run the code on *)
Module examples.
Import types.

Definition annotated (k v : string) : Descriptor := {|
  MediaType := "application/vnd.oci.image.manifest.v1+json";
  Digest := String.append "sha256:" v; Size := 7; URLs := None;
  Annotations := Some {[ k := v ]};
  Data := None; Platform := None; ArtifactType := ""
|}.

Definition bare (dig : string) : Descriptor := {|
  MediaType := "application/vnd.oci.image.manifest.v1+json";
  Digest := dig; Size := 7; URLs := None; Annotations := None;
  Data := None; Platform := None; ArtifactType := ""
|}.

Definition sortBy (k : string) (desc : bool) : MatchOpt := {|
  opt_Platform := None; opt_ArtifactType := ""; opt_Annotations := None;
  SortAnnotation := k; SortDesc := desc
|}.

(** The descriptor of the empty JSON object, with and without its bytes
    inlined. *)
Definition emptyJSON (data : option (list Byte.byte)) : Descriptor := {|
  MediaType := "application/vnd.oci.empty.v1+json";
  Digest := "sha256:44136fa355b3678a1146ad16f7e8649e94fb4fc21fe77e8310c060f61caaff8a";
  Size := 2; URLs := None; Annotations := None;
  Data := data; Platform := None; ArtifactType := ""
|}.

(** A layer of a given media type. *)
Definition layer (mediaType dig : string) : Descriptor := {|
  MediaType := mediaType; Digest := dig; Size := 1024; URLs := None;
  Annotations := None; Data := None; Platform := None; ArtifactType := ""
|}.

(** ** A small registry *)

(** A manifest of the small registry: an image, an index or a manifest
    of a legacy format without annotations. For an index, [t_layers]
    holds the descriptors of its entries. *)
Inductive kind := Image | List | Legacy.

#[global] Instance kind_eq_dec : EqDecision kind.
Proof. solve_decision. Defined.

Record tManifest := {
  t_kind : kind;
  t_desc : Descriptor;
  t_config : Descriptor;
  t_layers : list Descriptor;
  t_annotations : option (gmap string string)
}.

(** A stand-in for the digest of a manifest: its layer digests in a
    row. *)
Definition describe (mediaType : string) (ls : list Descriptor) : Descriptor := {|
  MediaType := mediaType;
  Digest := String.append "sha256:" (String.concat "+" (map Digest ls));
  Size := Z.of_nat (length ls); URLs := None; Annotations := None;
  Data := None; Platform := None; ArtifactType := ""
|}.

Definition tSet (mm : tManifest) (ls : list Descriptor)
           (a : option (gmap string string)) : tManifest :=
  {| t_kind := t_kind mm; t_desc := describe (MediaType (t_desc mm)) ls;
     t_config := t_config mm; t_layers := ls; t_annotations := a |}.

Definition tManifestOps {pf : platform.Ops} : manifest.Ops := {|
  manifest.Manifest := tManifest;
  manifest.Orig := tManifest;
  manifest.IsList mm := bool_decide (t_kind mm = List);
  manifest.GetDescriptor mm := t_desc mm;
  manifest.GetOrig mm := mm;
  manifest.SetOrig mm om := (tSet om (t_layers om) (t_annotations om), None);
  manifest.isImager mm := bool_decide (t_kind mm = Image);
  manifest.GetLayers mm :=
    if bool_decide (t_kind mm = Image) then Ret (t_layers mm)
    else Raise (Errorf "not an image");
  manifest.GetConfig mm :=
    if bool_decide (t_kind mm = Image) then Ret (t_config mm)
    else Raise (Errorf "not an image");
  manifest.SetLayers mm ls :=
    if bool_decide (t_kind mm = Image) then (tSet mm ls (t_annotations mm), None)
    else (mm, Some (Errorf "not an image"));
  manifest.isAnnotator mm := negb (bool_decide (t_kind mm = Legacy));
  manifest.GetAnnotations mm := Ret (t_annotations mm);
  manifest.GetPlatformDesc mm p :=
    match List.find (fun d => match Platform d with
                              | Some dp => platform.Match p dp
                              | None => false
                              end) (t_layers mm) with
    | Some d => Ret d
    | None => Raise (Sentinel ErrNotFound)
    end;
  manifest.OCIIndexFromAny om :=
    if bool_decide (t_kind om = List)
    then Ret {| v1.ix_Manifests := t_layers om; v1.ix_Annotations := t_annotations om |}
    else Raise (Errorf "not an index");
  manifest.OCIIndexToAny ix om :=
    Ret (tSet om (v1.ix_Manifests ix) (v1.ix_Annotations ix));
  manifest.OCIManifestFromAny om :=
    if bool_decide (t_kind om = Image)
    then Ret {| v1.mf_Config := t_config om; v1.mf_Layers := t_layers om;
                v1.mf_Annotations := t_annotations om |}
    else Raise (Errorf "not an image");
  manifest.OCIManifestToAny mf om :=
    Ret (tSet om (v1.mf_Layers mf) (v1.mf_Annotations mf))
|}.

(** A config blob of the small registry. *)
Record tConfig := {
  t_image : v1.Image;
  t_cdesc : Descriptor
}.

Definition tBlobOps : blob.Ops := {|
  blob.OCIConfig := tConfig;
  blob.GetConfig c := t_image c;
  blob.SetConfig c img :=
    {| t_image := img;
       t_cdesc := {| MediaType := MediaType (t_cdesc c);
                     Digest := String.append "sha256:" (String.concat "+" (v1.DiffIDs img));
                     Size := Z.of_nat (length (v1.Hist img)); URLs := None;
                     Annotations := None; Data := None; Platform := None;
                     ArtifactType := "" |} |};
  blob.GetDescriptor c := t_cdesc c
|}.

(** The registry: manifests by reference name, config blobs by digest.
    A reference with a digest must name a manifest of that digest. *)
Definition tRegistry {pf : platform.Ops}
           (manifests : list (string * tManifest)) (configs : list tConfig)
  : @regclient.Ops (@tManifestOps pf) tBlobOps := {|
  regclient.ManifestGet r :=
    match List.find (fun e => String.eqb e.1 (ref.Reference r)
                              && (String.eqb (ref.Digest r) ""
                                  || String.eqb (ref.Digest r) (Digest (t_desc e.2))))
                    manifests with
    | Some e => Ret (e.2 : @manifest.Manifest (@tManifestOps pf))
    | None => Raise (Sentinel ErrNotFound)
    end;
  regclient.BlobGetOCIConfig r d :=
    match List.find (fun c => String.eqb (Digest (t_cdesc c)) (Digest d)) configs with
    | Some c => Ret (c : @blob.OCIConfig tBlobOps)
    | None => Raise (Sentinel ErrNotFound)
    end;
  regclient.BlobCopy rSrc rTgt d := None
|}.

Definition tRefOps : ref.Ops := {|
  ref.New s :=
    if String.eqb s "" then Raise (Foreign "invalid reference")
    else Ret {| ref.Reference := s; ref.Digest := "" |}
|}.

Definition tDigestOps : digest.Ops := {|
  digest.Parse s :=
    if String.prefix "sha256:" s then Ret s
    else Raise (Foreign "invalid checksum digest format")
|}.

(** *** Two bases and an image built on the first *)

Definition ociManifest : string := "application/vnd.oci.image.manifest.v1+json".
Definition dockerManifest : string := "application/vnd.docker.distribution.manifest.v2+json".
Definition ociConfig : string := "application/vnd.oci.image.config.v1+json".
Definition ociLayer : string := "application/vnd.oci.image.layer.v1.tar+gzip".

Definition entry (by_ : string) (empty : bool) : v1.History := {|
  v1.Created := Some {| v1.instant := 1700000000; v1.location := "UTC" |};
  v1.CreatedBy := by_; v1.Author := ""; v1.Comment := ""; v1.EmptyLayer := empty
|}.

Definition image (h : list v1.History) (d : list string) : v1.Image := {|
  v1.OS := "linux"; v1.Architecture := "amd64"; v1.Variant := ""; v1.OSVersion := "";
  v1.OSFeatures := []; v1.Labels := None; v1.Hist := h; v1.DiffIDs := d
|}.

Definition configBlob (dig : string) (h : list v1.History) (d : list string) : tConfig := {|
  t_image := image h d;
  t_cdesc := {| MediaType := ociConfig; Digest := dig; Size := 100; URLs := None;
                Annotations := None; Data := None; Platform := None; ArtifactType := "" |}
|}.

Definition imageManifest (mediaType : string) (cfg : tConfig) (ls : list Descriptor)
           (a : option (gmap string string)) : tManifest := {|
  t_kind := Image; t_desc := describe mediaType ls; t_config := t_cdesc cfg;
  t_layers := ls; t_annotations := a
|}.

Definition cfgBase1 : tConfig :=
  configBlob "sha256:c1" [entry "ADD rootfs" false] ["sha256:u1"].
Definition cfgBase2 : tConfig :=
  configBlob "sha256:c2"
    [entry "ADD rootfs" false; entry "ENV A=1" true; entry "RUN update" false]
    ["sha256:u2"; "sha256:u3"].
Definition cfgApp : tConfig :=
  configBlob "sha256:c9"
    [entry "ADD rootfs" false; entry "COPY app" false] ["sha256:u1"; "sha256:u9"].

Definition base1 : tManifest := imageManifest ociManifest cfgBase1 [layer ociLayer "sha256:l1"] None.
Definition base2 : tManifest :=
  imageManifest ociManifest cfgBase2
    [layer ociLayer "sha256:l2"; layer ociLayer "sha256:l3"] None.
(** The first base again, as a mirror serves it under the Docker media
    type: the same digest and size. *)
Definition base1Mirror : tManifest :=
  imageManifest dockerManifest cfgBase1 [layer ociLayer "sha256:l1"] None.

Definition app : tManifest :=
  imageManifest ociManifest cfgApp
    [layer ociLayer "sha256:l1"; layer ociLayer "sha256:l9"]
    (Some {[ AnnotationBaseImageName := "base:v1";
             AnnotationBaseImageDigest := "sha256:sha256:l1" ]}).

(** The same image in a legacy format, which carries no annotations. *)
Definition appLegacy : tManifest := {|
  t_kind := Legacy; t_desc := t_desc app; t_config := t_config app;
  t_layers := t_layers app; t_annotations := None
|}.

Definition registry : @regclient.Ops (@tManifestOps platform.tripleOps) tBlobOps :=
  @tRegistry platform.tripleOps
    [("base:v1", base1); ("base:v2", base2); ("mirror:v1", base1Mirror)]
    [cfgBase1; cfgBase2; cfgApp].

Definition named (s : string) : ref.Ref := {| ref.Reference := s; ref.Digest := "" |}.

Definition dagLayerOf (d : Descriptor) (uc : string) : Mod.dagLayer := {|
  Mod.l_mod := Mod.unchanged; Mod.ucDigest := uc; Mod.desc := d;
  Mod.l_newDesc := Mod.zeroDescriptor
|}.

(** The node of the image, in a given state. *)
Definition appNode (state : Mod.changes)
  : @Mod.dagManifest (@tManifestOps platform.tripleOps) tBlobOps := {|
  Mod.dm_mod := state; Mod.top := true; Mod.newDesc := Mod.zeroDescriptor;
  Mod.m := (app : @manifest.Manifest (@tManifestOps platform.tripleOps));
  Mod.config := Some {| Mod.modified := false; Mod.c_newDesc := Mod.zeroDescriptor;
                        Mod.oc := (cfgApp : @blob.OCIConfig tBlobOps) |};
  Mod.layers := [dagLayerOf (layer ociLayer "sha256:l1") "sha256:u1";
                 dagLayerOf (layer ociLayer "sha256:l9") "sha256:u9"]
|}.

(** What the rebase step loads for the image, from the first base to
    the second and back. *)
Definition bases12 : @Mod.bases tBlobOps := {|
  Mod.layersOld := t_layers base1; Mod.confOCIOld := t_image cfgBase1;
  Mod.layersNew := t_layers base2; Mod.confOCINew := t_image cfgBase2;
  Mod.imgLayers := t_layers app; Mod.conf := (cfgApp : @blob.OCIConfig tBlobOps);
  Mod.confOCI := t_image cfgApp
|}.

Definition bases21 : @Mod.bases tBlobOps := {|
  Mod.layersOld := t_layers base2; Mod.confOCIOld := t_image cfgBase2;
  Mod.layersNew := t_layers base1; Mod.confOCINew := t_image cfgBase1;
  Mod.imgLayers := t_layers app; Mod.conf := (cfgApp : @blob.OCIConfig tBlobOps);
  Mod.confOCI := t_image cfgApp
|}.

(** A layer sequence with entries added by earlier steps. *)
Definition mixedLayers : list Mod.dagLayer :=
  map (fun sd => {| Mod.l_mod := sd.1; Mod.ucDigest := sd.2;
                    Mod.desc := layer ociLayer sd.2;
                    Mod.l_newDesc := Mod.zeroDescriptor |})
      [(Mod.added, "sha256:a1"); (Mod.unchanged, "sha256:u1"); (Mod.added, "sha256:a2");
       (Mod.replaced, "sha256:u2"); (Mod.unchanged, "sha256:u9")].

End examples.

(** ** Package types, continued: inline data and search *)
Module descriptor.
Import types.

(** [digest.FromBytes] of the go-digest library, taken as a parameter. *)
Class HashOps := {
  FromBytes : list Byte.byte -> string
}.

(** Go's [len(b)] and [digest.FromBytes(b)] read a nil slice as an empty
    one. *)
Definition go_bytes (b : option (list Byte.byte)) : list Byte.byte := default [] b.

Section Data.
Context {h : HashOps}.

(** [emptyDigest], the digest of no bytes. *)
Definition emptyDigest : string := FromBytes [].

(** [Descriptor.GetData]. *)
Definition GetData (d : Descriptor) : res (option (list Byte.byte)) :=
  if Nat.eqb (length (go_bytes (Data d))) 0 && negb (String.eqb (Digest d) emptyDigest)
  then Raise (Sentinel ErrParsingFailed)
  else if negb (Z.eqb (Z.of_nat (length (go_bytes (Data d)))) (Size d))
  then Raise (Sentinel ErrParsingFailed)
  else if negb (String.eqb (Digest d) (FromBytes (go_bytes (Data d))))
  then Raise (Sentinel ErrParsingFailed)
  else Ret (Data d).

End Data.

Section Search.
Context {mt : MediaTypes} {pf : platform.Ops} {so : sort.Ops}.

(** The loop of [DescriptorListSearch] for an exact platform match; it
    dereferences the platform of each descriptor. *)
Fixpoint searchLoop (op : platform.Platform) (l : list Descriptor)
  : res (option Descriptor) :=
  match l with
  | [] => Ret None
  | d :: l' =>
      match Platform d with
      | None => Panic
      | Some dp => if platform.Match op dp then Ret (Some d) else searchLoop op l'
      end
  end.

(** [DescriptorListSearch]. *)
Definition DescriptorListSearch (dl : list Descriptor) (opt : MatchOpt) : res Descriptor :=
  let filter := DescriptorListFilter dl opt in
  if Nat.ltb (length filter) 1 then Raise (Sentinel ErrNotFound)
  else
    match opt_Platform opt with
    | Some op =>
        found ← searchLoop op filter;
        match found with
        | Some d => Ret d
        | None => go_at filter 0
        end
    | None => go_at filter 0
    end.

End Search.

End descriptor.

(** ** Package mod, continued: the other steps *)
Module ModSteps.
Import types Mod.

(** The layer media types that [WithExternalURLsRm] names, besides the two
    gzip layer types of [MediaTypes]. They are declared in another file
    of package types and taken as parameters. *)
Class LayerMediaTypes := {
  MediaTypeDocker2ForeignLayer : string;
  MediaTypeOCI1ForeignLayer : string;
  MediaTypeOCI1ForeignLayerGzip : string;
  MediaTypeOCI1ForeignLayerZstd : string;
  MediaTypeOCI1Layer : string;
  MediaTypeOCI1LayerZstd : string
}.

(** What Go guarantees of the four cases of the [switch]: a switch with a
    repeated constant case does not compile. *)
Class LayerMediaTypesOK (l : LayerMediaTypes) : Prop := {
  foreign_distinct :
    NoDup [MediaTypeDocker2ForeignLayer; MediaTypeOCI1ForeignLayer;
           MediaTypeOCI1ForeignLayerGzip; MediaTypeOCI1ForeignLayerZstd]
}.

(** The values these constants have in the Docker and OCI image
    specifications. *)
Definition registryLayerMediaTypes : LayerMediaTypes := {|
  MediaTypeDocker2ForeignLayer := "application/vnd.docker.image.rootfs.foreign.diff.tar.gzip";
  MediaTypeOCI1ForeignLayer := "application/vnd.oci.image.layer.nondistributable.v1.tar";
  MediaTypeOCI1ForeignLayerGzip := "application/vnd.oci.image.layer.nondistributable.v1.tar+gzip";
  MediaTypeOCI1ForeignLayerZstd := "application/vnd.oci.image.layer.nondistributable.v1.tar+zstd";
  MediaTypeOCI1Layer := "application/vnd.oci.image.layer.v1.tar";
  MediaTypeOCI1LayerZstd := "application/vnd.oci.image.layer.v1.tar+zstd"
|}.

(** [Ref.CommonName] of package ref, taken as a parameter. *)
Class NameOps := {
  CommonName : ref.Ref -> string
}.

(** Go's [len(s)] reads a nil slice as an empty one. *)
Definition go_strings (l : option (list string)) : list string := default [] l.

Section Steps.
Context {mt : MediaTypes} {lmt : LayerMediaTypes} {mo : manifest.Ops}
        {bo : blob.Ops} {no : NameOps}.

(** The tail shared by the annotation steps: [if changed { dm.mod =
    replaced; err = dm.m.SetOrig(om); ...; dm.newDesc =
    dm.m.GetDescriptor() }]. *)
Definition replaceOrig (dm : dagManifest) (om' : manifest.Orig) (changed : bool)
  : dagManifest * res unit :=
  if changed then
    let '(m', err) := manifest.SetOrig (m dm) om' in
    match err with
    | Some e =>
        ({| dm_mod := replaced; top := top dm; newDesc := newDesc dm; m := m';
            config := config dm; layers := layers dm |}, Raise e)
    | None =>
        ({| dm_mod := replaced; top := top dm;
            newDesc := manifest.GetDescriptor m'; m := m';
            config := config dm; layers := layers dm |}, Ret tt)
    end
  else (dm, Ret tt).

(** *** WithAnnotationOCIBase *)

Definition annoBaseDig : string := "org.opencontainers.image.base.digest".
Definition annoBaseName : string := "org.opencontainers.image.base.name".

(** The edit of the annotation map, the same in both branches of the
    step: a nil map is replaced by an empty one, then each of the two
    keys is set when it does not read as the value wanted. Returns the
    map and [changed]. *)
Definition setBase (baseName baseDig : string) (annotations : option (gmap string string))
  : gmap string string * bool :=
  let a := go_map annotations in
  let '(a1, c1) :=
    if negb (String.eqb (go_index a annoBaseName) baseName)
    then (<[annoBaseName := baseName]> a, true) else (a, false) in
  if negb (String.eqb (go_index a1 annoBaseDig) baseDig)
  then (<[annoBaseDig := baseDig]> a1, true) else (a1, c1).

(** The step [WithAnnotationOCIBase] registers. *)
Definition runAnnotationOCIBase (rBase : ref.Ref) (dBase : string) (dm : dagManifest)
  : dagManifest * res unit :=
  if bool_decide (dm_mod dm = deleted) || negb (top dm) then (dm, Ret tt)
  else
    let om := manifest.GetOrig (m dm) in
    match
      (if manifest.IsList (m dm) then
         ociI ← manifest.OCIIndexFromAny om;
         let '(a, changed) := setBase (CommonName rBase) dBase (v1.ix_Annotations ociI) in
         om' ← manifest.OCIIndexToAny
                 {| v1.ix_Manifests := v1.ix_Manifests ociI; v1.ix_Annotations := Some a |} om;
         Ret (om', changed)
       else
         ociM ← manifest.OCIManifestFromAny om;
         let '(a, changed) := setBase (CommonName rBase) dBase (v1.mf_Annotations ociM) in
         om' ← manifest.OCIManifestToAny
                 {| v1.mf_Config := v1.mf_Config ociM; v1.mf_Layers := v1.mf_Layers ociM;
                    v1.mf_Annotations := Some a |} om;
         Ret (om', changed))
    with
    | Raise e => (dm, Raise e)
    | Panic => (dm, Panic)
    | Ret (om', changed) => replaceOrig dm om' changed
    end.

(** *** WithLabelToAnnotation *)

(** [for name, value := range oc.Config.Labels]: each label that the
    annotations lack, or hold with another value, is set. Returns the map
    and [changed]. *)
Definition copyLabels (labels annotations : gmap string string)
  : gmap string string * bool :=
  map_fold (fun name value (acc : gmap string string * bool) =>
              match acc.1 !! name with
              | Some cur =>
                  if negb (String.eqb cur value)
                  then (<[name := value]> acc.1, true) else acc
              | None => (<[name := value]> acc.1, true)
              end)
           (annotations, false) labels.

(** The step [WithLabelToAnnotation] registers. The state is set to
    [replaced] after [SetOrig] has succeeded. (A config node always
    carries its blob here; the source also skips a node whose blob is
    nil.) *)
Definition runLabelToAnnotation (dm : dagManifest) : dagManifest * res unit :=
  if bool_decide (dm_mod dm = deleted) then (dm, Ret tt)
  else if manifest.IsList (m dm) then (dm, Ret tt)
  else
    let om := manifest.GetOrig (m dm) in
    match manifest.OCIManifestFromAny om with
    | Raise e => (dm, Raise e)
    | Panic => (dm, Panic)
    | Ret ociOM =>
        match config dm with
        | None => (dm, Ret tt)
        | Some dc =>
            match v1.Labels (blob.GetConfig (oc dc)) with
            | None => (dm, Ret tt)
            | Some labels =>
                let '(a, changed) := copyLabels labels (go_map (v1.mf_Annotations ociOM)) in
                if negb changed then (dm, Ret tt)
                else
                  match manifest.OCIManifestToAny
                          {| v1.mf_Config := v1.mf_Config ociOM;
                             v1.mf_Layers := v1.mf_Layers ociOM;
                             v1.mf_Annotations := Some a |} om with
                  | Raise e => (dm, Raise e)
                  | Panic => (dm, Panic)
                  | Ret om' =>
                      let '(m', err) := manifest.SetOrig (m dm) om' in
                      match err with
                      | Some e =>
                          ({| dm_mod := dm_mod dm; top := top dm; newDesc := newDesc dm;
                              m := m'; config := config dm; layers := layers dm |},
                           Raise e)
                      | None =>
                          ({| dm_mod := replaced; top := top dm;
                              newDesc := manifest.GetDescriptor m'; m := m';
                              config := config dm; layers := layers dm |}, Ret tt)
                      end
                  end
            end
        end
    end.

(** *** WithExternalURLsRm *)

(** The [switch] on the media type of a layer. *)
Definition stripMediaType (mediaType : string) : string :=
  if String.eqb mediaType MediaTypeDocker2ForeignLayer then MediaTypeDocker2LayerGzip
  else if String.eqb mediaType MediaTypeOCI1ForeignLayer then MediaTypeOCI1Layer
  else if String.eqb mediaType MediaTypeOCI1ForeignLayerGzip then MediaTypeOCI1LayerGzip
  else if String.eqb mediaType MediaTypeOCI1ForeignLayerZstd then MediaTypeOCI1LayerZstd
  else mediaType.

Definition withURLs (d : Descriptor) (urls : option (list string)) : Descriptor :=
  {| MediaType := MediaType d; Digest := Digest d; Size := Size d; URLs := urls;
     Annotations := Annotations d; Data := Data d; Platform := Platform d;
     ArtifactType := ArtifactType d |}.

Definition withMediaType (d : Descriptor) (mediaType : string) : Descriptor :=
  {| MediaType := mediaType; Digest := Digest d; Size := Size d; URLs := URLs d;
     Annotations := Annotations d; Data := Data d; Platform := Platform d;
     ArtifactType := ArtifactType d |}.

(** The body of "strip layers from image" for one layer: the layer after
    it, and whether it was changed. *)
Definition stripLayer (l : Descriptor) : Descriptor * bool :=
  if Nat.ltb 0 (length (go_strings (URLs l)))
  then (withMediaType (withURLs l (Some [])) (stripMediaType (MediaType l)), true)
  else (l, false).

(** [for i := range ociOM.Layers]. *)
Fixpoint stripLayers (ls : list Descriptor) : list Descriptor * bool :=
  match ls with
  | [] => ([], false)
  | l :: ls' =>
      let '(l', c) := stripLayer l in
      let '(ls'', c') := stripLayers ls' in
      (l' :: ls'', c || c')
  end.

Definition withNewDesc (dl : dagLayer) (nd : Descriptor) : dagLayer :=
  {| l_mod := l_mod dl; ucDigest := ucDigest dl; desc := desc dl; l_newDesc := nd |}.

(** The body of "also strip from dag" for one layer node. *)
Definition stripDagLayer (dl : dagLayer) : dagLayer :=
  if bool_decide (l_mod dl = deleted) then dl
  else
    let dl1 :=
      if String.eqb (Digest (l_newDesc dl)) ""
         && Nat.ltb 0 (length (go_strings (URLs (desc dl))))
      then withNewDesc dl (desc dl) else dl in
    if Nat.ltb 0 (length (go_strings (URLs (l_newDesc dl1))))
    then withNewDesc dl1 (withURLs (l_newDesc dl1) (Some []))
    else dl1.

(** The step [WithExternalURLsRm] registers. *)
Definition runExternalURLsRm (dm : dagManifest) : dagManifest * res unit :=
  if bool_decide (dm_mod dm = deleted) then (dm, Ret tt)
  else if manifest.IsList (m dm) then (dm, Ret tt)
  else
    let om := manifest.GetOrig (m dm) in
    match manifest.OCIManifestFromAny om with
    | Raise e => (dm, Raise e)
    | Panic => (dm, Panic)
    | Ret ociOM =>
        let '(ls, changed) := stripLayers (v1.mf_Layers ociOM) in
        let dm1 := withLayers dm (map stripDagLayer (layers dm)) in
        if negb changed then (dm1, Ret tt)
        else
          match manifest.OCIManifestToAny
                  {| v1.mf_Config := v1.mf_Config ociOM; v1.mf_Layers := ls;
                     v1.mf_Annotations := v1.mf_Annotations ociOM |} om with
          | Raise e => (dm1, Raise e)
          | Panic => (dm1, Panic)
          | Ret om' =>
              let '(m', err) := manifest.SetOrig (m dm) om' in
              match err with
              | Some e =>
                  ({| dm_mod := dm_mod dm; top := top dm; newDesc := newDesc dm;
                      m := m'; config := config dm; layers := layers dm1 |}, Raise e)
              | None =>
                  ({| dm_mod := replaced; top := top dm;
                      newDesc := manifest.GetDescriptor m'; m := m';
                      config := config dm; layers := layers dm1 |}, Ret tt)
              end
          end
    end.

End Steps.

End ModSteps.

(** * Facts about package sort *)
Module sortFacts.
Import sort.

Lemma sink_Permutation {A : Type} (less : A -> A -> bool) (x : A) (racc : list A) :
  Permutation (sink less x racc) (x :: racc).
Proof.
  induction racc as [|y r IH]; simpl; [reflexivity|].
  destruct (less x y); [|reflexivity].
  rewrite IH. apply perm_swap.
Qed.

Lemma fold_sink_Permutation {A : Type} (less : A -> A -> bool) (l racc : list A) :
  Permutation (fold_left (fun racc x => sink less x racc) l racc) (l ++ racc).
Proof.
  revert racc. induction l as [|x l IH]; intros racc; simpl; [reflexivity|].
  rewrite IH, sink_Permutation. symmetry. apply Permutation_middle.
Qed.

Lemma insertionSort_Permutation {A : Type} (less : A -> A -> bool) (l : list A) :
  Permutation (insertionSort less l) l.
Proof.
  unfold insertionSort. rewrite <- Permutation_rev, fold_sink_Permutation.
  by rewrite app_nil_r.
Qed.

(** One insertion keeps the sorted part sorted; only the transitivity of
    the rejected pairs is used. *)
Lemma sink_sorted {A : Type} (less : A -> A -> bool) (x : A) (racc : list A) :
  (forall a b c, less a b = false -> less b c = false -> less a c = false) ->
  StronglySorted (fun a b => mayPrecede less b a) racc ->
  StronglySorted (fun a b => mayPrecede less b a) (sink less x racc).
Proof.
  intros Hneg. induction racc as [|y r IH]; intros Hs; simpl.
  - repeat constructor.
  - apply StronglySorted_inv in Hs as [Hr Hy].
    destruct (less x y) eqn:Hxy.
    + constructor; [by apply IH|].
      apply Forall_forall. intros z Hz.
      rewrite sink_Permutation in Hz.
      apply elem_of_cons in Hz as [->|Hz].
      * intros _. exact Hxy.
      * rewrite Forall_forall in Hy. by apply Hy.
    + constructor; [by constructor|].
      constructor.
      * intros Hc. congruence.
      * apply Forall_forall. intros z Hz Hxz.
        rewrite Forall_forall in Hy. specialize (Hy z Hz).
        unfold mayPrecede in Hy.
        destruct (less y z) eqn:Hyz.
        -- specialize (Hy eq_refl).
           destruct (less z x) eqn:Hzx; [done|].
           by rewrite (Hneg z x y Hzx Hxy) in Hy.
        -- by rewrite (Hneg x y z Hxy Hyz) in Hxz.
Qed.

Lemma fold_sink_sorted {A : Type} (less : A -> A -> bool) (l racc : list A) :
  (forall a b c, less a b = false -> less b c = false -> less a c = false) ->
  StronglySorted (fun a b => mayPrecede less b a) racc ->
  StronglySorted (fun a b => mayPrecede less b a)
                 (fold_left (fun racc x => sink less x racc) l racc).
Proof.
  intros Hneg. revert racc.
  induction l as [|x l IH]; intros racc Hs; simpl; [done|].
  apply IH. by apply sink_sorted.
Qed.

Lemma StronglySorted_snoc {A : Type} (R : A -> A -> Prop) (l : list A) (a : A) :
  StronglySorted R l -> Forall (fun z => R z a) l -> StronglySorted R (l ++ [a]).
Proof.
  induction l as [|x l IH]; intros Hs Hf; simpl.
  - repeat constructor.
  - apply StronglySorted_inv in Hs as [Hl Hx].
    apply Forall_cons in Hf as [Hxa Hf].
    constructor; [by apply IH|].
    apply Forall_app. split; [done|]. by constructor.
Qed.

Lemma StronglySorted_rev {A : Type} (R : A -> A -> Prop) (l : list A) :
  StronglySorted (fun a b => R b a) l -> StronglySorted R (rev l).
Proof.
  induction l as [|x l IH]; intros Hs; simpl; [constructor|].
  apply StronglySorted_inv in Hs as [Hl Hx].
  apply StronglySorted_snoc; [by apply IH|].
  apply Forall_forall. intros z Hz.
  rewrite Forall_forall in Hx. apply Hx.
  apply list_elem_of_In. apply list_elem_of_In in Hz.
  by apply in_rev.
Qed.

Lemma StronglySorted_lookup {A : Type} (R : A -> A -> Prop) (l : list A)
      (i j : nat) (x y : A) :
  StronglySorted R l -> i < j -> l !! i = Some x -> l !! j = Some y -> R x y.
Proof.
  intros Hs. revert i j.
  induction Hs as [|a l Hs IH Ha]; intros i j Hij Hi Hj; [done|].
  destruct j as [|j]; [lia|].
  destruct i as [|i]; simpl in *.
  - inversion Hi; subst. rewrite Forall_forall in Ha. apply Ha.
    apply list_elem_of_lookup. eauto.
  - apply (IH i j); [lia|done|done].
Qed.

(** The insertion sort keeps the library's promise. *)
Lemma insertionOps_OK : OpsOK insertionOps.
Proof.
  split; simpl.
  - intros. apply insertionSort_Permutation.
  - intros A less l [_ Hneg]. unfold insertionSort.
    apply StronglySorted_rev, fold_sink_sorted; [done|constructor].
Qed.

End sortFacts.

(** * Facts about package types *)
Module typesFacts.
Import types.

(** ** The byte order of strings *)

Lemma compare_as_OT (a b : string) : String.compare a b = String_as_OT.compare a b.
Proof.
  revert b. induction a as [|x a IH]; intros [|y b]; simpl; reflexivity.
Qed.

Definition strLt (a b : string) : bool :=
  match String.compare a b with Lt => true | _ => false end.

Lemma strLt_lt (a b : string) : strLt a b = true <-> String_as_OT.lt a b.
Proof.
  unfold strLt, String_as_OT.lt. rewrite compare_as_OT.
  destruct (String_as_OT.compare a b); split; congruence.
Qed.

Lemma strLt_trans (a b c : string) :
  strLt a b = true -> strLt b c = true -> strLt a c = true.
Proof.
  rewrite !strLt_lt. apply String_as_OT.lt_strorder.
Qed.

Lemma strLt_false (a b : string) :
  strLt a b = false <-> a = b \/ String_as_OT.lt b a.
Proof.
  rewrite <- not_true_iff_false, strLt_lt.
  destruct (String_as_OT.compare_spec a b) as [H|H|H].
  - split; [by left|]. intros _ Hlt. rewrite H in Hlt.
    by apply (StrictOrder_Irreflexive (R := String_as_OT.lt)) in Hlt.
  - split; [done|]. intros [->|Hba] _.
    + by apply (StrictOrder_Irreflexive (R := String_as_OT.lt)) in H.
    + apply (StrictOrder_Irreflexive (R := String_as_OT.lt) a).
      by apply (StrictOrder_Transitive (R := String_as_OT.lt) a b a).
  - split; [by right|]. intros _ Hab.
    apply (StrictOrder_Irreflexive (R := String_as_OT.lt) a).
    by apply (StrictOrder_Transitive (R := String_as_OT.lt) a b a).
Qed.

Lemma strLt_false_trans (a b c : string) :
  strLt a b = false -> strLt b c = false -> strLt a c = false.
Proof.
  rewrite !strLt_false. intros [->|Hba] [->|Hcb]; auto.
  right. by apply (StrictOrder_Transitive (R := String_as_OT.lt) c b a).
Qed.

Section Descriptor.
Context {mt : MediaTypes} {pf : platform.Ops} {so : sort.Ops}.

(** ** The media type table *)

Lemma mtToOCI_value (k v : string) :
  mtToOCI !! k = Some v ->
  v ∈ [MediaTypeOCI1ManifestList; MediaTypeOCI1Manifest;
       MediaTypeOCI1ImageConfig; MediaTypeOCI1LayerGzip].
Proof.
  unfold mtToOCI. rewrite !lookup_insert_Some, lookup_empty.
  intros H. repeat (destruct H as [[_ H]|[_ H]]; [subst; set_solver|]).
  done.
Qed.

Lemma mtToOCI_nonempty (ok : MediaTypesOK mt) (k v : string) :
  mtToOCI !! k = Some v -> v <> "".
Proof.
  intros H%mtToOCI_value.
  pose proof (@mt_oci_nonempty mt ok) as Hne.
  rewrite Forall_forall in Hne. by apply Hne.
Qed.

(** Each row of the table, read back. *)
Lemma mtToOCI_rows (ok : MediaTypesOK mt) :
  mtToOCI !! MediaTypeDocker2ManifestList = Some MediaTypeOCI1ManifestList
  /\ mtToOCI !! MediaTypeDocker2Manifest = Some MediaTypeOCI1Manifest
  /\ mtToOCI !! MediaTypeDocker2ImageConfig = Some MediaTypeOCI1ImageConfig
  /\ mtToOCI !! MediaTypeDocker2LayerGzip = Some MediaTypeOCI1LayerGzip
  /\ mtToOCI !! MediaTypeOCI1ManifestList = Some MediaTypeOCI1ManifestList
  /\ mtToOCI !! MediaTypeOCI1Manifest = Some MediaTypeOCI1Manifest
  /\ mtToOCI !! MediaTypeOCI1ImageConfig = Some MediaTypeOCI1ImageConfig
  /\ mtToOCI !! MediaTypeOCI1LayerGzip = Some MediaTypeOCI1LayerGzip.
Proof.
  pose proof (@mt_keys_distinct mt ok) as Hd.
  repeat (apply NoDup_cons in Hd as [? Hd]).
  repeat match goal with
         | H : _ ∉ _ :: _ |- _ => apply not_elem_of_cons in H as [? ?]
         end.
  unfold mtToOCI. repeat split; by simplify_map_eq.
Qed.

(** [Same] once digest and size agree: the media types are equal, or
    the table sends both to one OCI media type. *)
Lemma Same_spec (ok : MediaTypesOK mt) (d d2 : Descriptor) :
  Same d d2 = true <->
  Digest d = Digest d2 /\ Size d = Size d2 /\
  (MediaType d = MediaType d2 \/
   exists c, mtToOCI !! MediaType d = Some c /\ mtToOCI !! MediaType d2 = Some c).
Proof.
  unfold Same.
  destruct (String.eqb_spec (Digest d) (Digest d2)) as [Hd|Hd]; simpl;
    [|split; [done|by intros [? _]]].
  destruct (Z.eqb_spec (Size d) (Size d2)) as [Hs|Hs]; simpl;
    [|split; [done|by intros (_ & ? & _)]].
  destruct (String.eqb_spec (MediaType d) (MediaType d2)) as [Hm|Hm]; simpl;
    [by intuition|].
  destruct (mtToOCI !! MediaType d) as [c|] eqn:Hc.
  - unfold go_index. rewrite Hc. simpl.
    destruct (mtToOCI !! MediaType d2) as [c2|] eqn:Hc2; simpl.
    + destruct (String.eqb_spec c c2) as [->|Hcc]; simpl.
      * split; [|done]. intros _. repeat split; try done. right. eauto.
      * split; [done|]. intros (_ & _ & [?|(c' & ? & ?)]); congruence.
    + destruct (String.eqb_spec c "") as [->|Hcc]; simpl.
      * by apply mtToOCI_nonempty in Hc.
      * split; [done|]. intros (_ & _ & [?|(c' & ? & ?)]); congruence.
  - split; [done|]. intros (_ & _ & [?|(c' & ? & ?)]); congruence.
Qed.

(** C7. For descriptors of one digest and one size, [Same] holds
    exactly when the media types are equal or the table sends both to
    the same OCI media type; so it holds between the Docker and the OCI
    spelling of a manifest list, a manifest, an image config and a
    gzip layer. *)
Theorem Same_media_type (ok : MediaTypesOK mt) (d d2 : Descriptor) :
  Digest d = Digest d2 -> Size d = Size d2 ->
  (Same d d2 = true <->
     MediaType d = MediaType d2 \/
     exists c, mtToOCI !! MediaType d = Some c /\ mtToOCI !! MediaType d2 = Some c)
  /\ (forall docker oci,
        (docker, oci) ∈ [(MediaTypeDocker2ManifestList, MediaTypeOCI1ManifestList);
                         (MediaTypeDocker2Manifest, MediaTypeOCI1Manifest);
                         (MediaTypeDocker2ImageConfig, MediaTypeOCI1ImageConfig);
                         (MediaTypeDocker2LayerGzip, MediaTypeOCI1LayerGzip)] ->
        MediaType d ∈ [docker; oci] -> MediaType d2 ∈ [docker; oci] ->
        Same d d2 = true).
Proof.
  intros Hd Hs. split.
  - rewrite Same_spec by done. intuition.
  - intros docker oci Hrow H1 H2. apply Same_spec; [done|].
    repeat split; try done. right. exists oci.
    destruct (mtToOCI_rows ok) as (R1 & R2 & R3 & R4 & R5 & R6 & R7 & R8).
    repeat (apply elem_of_cons in Hrow as [Hrow|Hrow];
            [inversion Hrow; subst; clear Hrow|]);
      [..|by apply elem_of_nil in Hrow];
      (apply elem_of_cons in H1 as [H1|H1%list_elem_of_singleton]);
      (apply elem_of_cons in H2 as [H2|H2%list_elem_of_singleton]);
      rewrite H1, H2; done.
Qed.

(** ** Equal *)

(** C6. [Equal] accepts descriptors that are not identical: it never
    reads the inline data, and it compares annotation maps of one size
    through the keys of the first alone, a missing key reading as the
    empty string. *)
Theorem Equal_not_structural :
  (Equal (examples.emptyJSON (Some [Byte.x7b; Byte.x7d])) (examples.emptyJSON None) = true
   /\ examples.emptyJSON (Some [Byte.x7b; Byte.x7d]) <> examples.emptyJSON None)
  /\ (Equal (examples.annotated "a" "") (examples.annotated "b" "") = true
      /\ examples.annotated "a" "" <> examples.annotated "b" "").
Proof.
  repeat split; try discriminate; reflexivity.
Qed.

(** ** The sorting closure *)

(** The value the closure compares. *)
Definition sortKey (opt : MatchOpt) (d : Descriptor) : string :=
  go_index (go_map (Annotations d)) (SortAnnotation opt).

Lemma sortLess_spec (opt : MatchOpt) (di dj : Descriptor) :
  sortLess opt di dj =
    hasAnnotation (SortAnnotation opt) di
    && (negb (hasAnnotation (SortAnnotation opt) dj)
        || (if strLt (sortKey opt di) (sortKey opt dj)
            then negb (SortDesc opt) else SortDesc opt)).
Proof.
  unfold sortLess, hasAnnotation, sortKey, strLt, go_map, go_index.
  destruct (Annotations di) as [ai|]; simpl; [|done].
  destruct (ai !! SortAnnotation opt) eqn:Hi; simpl; [|done].
  destruct (Annotations dj) as [aj|]; simpl; [|done].
  destruct (aj !! SortAnnotation opt) eqn:Hj; simpl; done.
Qed.

(** The closure is a transitive ordering in the library's sense, in
    both directions of the sort. *)
Lemma sortLess_transitive (opt : MatchOpt) : sort.transitiveLess (sortLess opt).
Proof.
  split; intros a b c; rewrite !sortLess_spec;
    destruct (hasAnnotation _ a), (hasAnnotation _ b), (hasAnnotation _ c);
    simpl; try done;
    destruct (SortDesc opt); simpl;
    destruct (strLt (sortKey opt a) (sortKey opt b)) eqn:Hab;
    destruct (strLt (sortKey opt b) (sortKey opt c)) eqn:Hbc;
    simpl; try done; intros _ _.
  - by rewrite (strLt_false_trans _ _ _ Hab Hbc).
  - by rewrite (strLt_trans _ _ _ Hab Hbc).
  - by rewrite (strLt_trans _ _ _ Hab Hbc).
  - by rewrite (strLt_false_trans _ _ _ Hab Hbc).
Qed.

(** C8. With a sort annotation requested, in either direction, every
    returned descriptor that carries the annotation stands at a
    strictly smaller index than every returned descriptor that lacks it
    (a nil annotation map included). *)
Theorem DescriptorListFilter_annotated_first
  (ok : sort.OpsOK so) (dl : list Descriptor) (opt : MatchOpt)
  (i j : nat) (di dj : Descriptor) :
  SortAnnotation opt <> "" ->
  DescriptorListFilter dl opt !! i = Some di ->
  DescriptorListFilter dl opt !! j = Some dj ->
  hasAnnotation (SortAnnotation opt) di = true ->
  hasAnnotation (SortAnnotation opt) dj = false ->
  i < j.
Proof.
  intros Hs Hi Hj Hdi Hdj. unfold DescriptorListFilter in *.
  apply String.eqb_neq in Hs. rewrite Hs in *. simpl in *.
  pose proof (sort.Slice_sorted _ _
    (filter (fun d => Match d opt = true) dl) (sortLess_transitive opt)) as Hsorted.
  destruct (decide (i < j)) as [|Hge]; [done|exfalso].
  assert (j < i) as Hlt.
  { destruct (decide (i = j)) as [->|]; [|lia]. congruence. }
  pose proof (sortFacts.StronglySorted_lookup _ _ _ _ _ _ Hsorted Hlt Hj Hi) as Hp.
  unfold sort.mayPrecede in Hp. rewrite !sortLess_spec, Hdi, Hdj in Hp.
  simpl in Hp. by specialize (Hp eq_refl).
Qed.

End Descriptor.

(** ** Examples *)
Import examples.

Lemma registryMediaTypes_OK : MediaTypesOK registryMediaTypes.
Proof.
  split.
  - apply (bool_decide_unpack _). vm_compute. exact I.
  - repeat constructor; discriminate.
Qed.

Lemma Same_media_type_witness :
  @Same registryMediaTypes
    (layer "application/vnd.docker.image.rootfs.diff.tar.gzip" "sha256:1f")
    (layer "application/vnd.oci.image.layer.v1.tar+gzip" "sha256:1f") = true.
Proof.
  apply (proj2 (@Same_media_type registryMediaTypes registryMediaTypes_OK
                 (layer "application/vnd.docker.image.rootfs.diff.tar.gzip" "sha256:1f")
                 (layer "application/vnd.oci.image.layer.v1.tar+gzip" "sha256:1f")
                 eq_refl eq_refl)
               "application/vnd.docker.image.rootfs.diff.tar.gzip"
               "application/vnd.oci.image.layer.v1.tar+gzip");
    simpl; set_solver.
Defined.

Lemma DescriptorListFilter_annotated_first_witness :
  @DescriptorListFilter platform.tripleOps sort.insertionOps
    [bare "sha256:0"; annotated "v" "1"; annotated "v" "2"; annotated "w" "3"]
    (sortBy "v" true)
  = [annotated "v" "2"; annotated "v" "1"; bare "sha256:0"; annotated "w" "3"]
  /\ 1 < 2.
Proof.
  split; [vm_compute; reflexivity|].
  apply (@DescriptorListFilter_annotated_first platform.tripleOps sort.insertionOps
           sortFacts.insertionOps_OK
           [bare "sha256:0"; annotated "v" "1"; annotated "v" "2"; annotated "w" "3"]
           (sortBy "v" true) 1 2 (annotated "v" "1") (bare "sha256:0"));
    vm_compute; (reflexivity || discriminate).
Defined.

End typesFacts.

(** * Facts about package mod *)
Module ModFacts.
Import types Mod.

(** ** The prune loop *)

(** What the loop is meant to compute: the sequence without its first
    [n] entries that are not marked [added]. *)
Fixpoint pruneSpec (n : nat) (dl : list dagLayer) : list dagLayer :=
  match dl with
  | [] => []
  | l :: dl' =>
      match n with
      | 0 => dl
      | S n' =>
          if bool_decide (l_mod l = added)
          then l :: pruneSpec n dl'
          else pruneSpec n' dl'
      end
  end.

Definition isAdded (l : dagLayer) : Prop := l_mod l = added.

Lemma pruneSpec_0 (dl : list dagLayer) : pruneSpec 0 dl = dl.
Proof. by destruct dl. Qed.

Lemma removeAt_delete (i : nat) (dl : list dagLayer) :
  i < length dl -> removeAt i dl = take i dl ++ drop (S i) dl.
Proof.
  intros Hi. unfold removeAt.
  destruct (Nat.eqb_spec i 0) as [->|Hi0]; [done|].
  destruct (Nat.leb_spec (length dl - 1) i) as [Hle|]; [|done].
  rewrite (drop_ge dl (S i)) by lia. by rewrite app_nil_r.
Qed.

(** The loop at index [i], all entries before [i] being kept. *)
Lemma pruneLoop_spec (dl : list dagLayer) (i n : nat) :
  n <= length (filter (fun l => ~ isAdded l) (drop i dl)) ->
  pruneLoop dl i n = Ret (take i dl ++ pruneSpec n (drop i dl)).
Proof.
  funelim (pruneLoop dl i n); intros Hn.
  - by rewrite pruneSpec_0, take_drop.
  - clear Heqcall.
    pose proof (lookup_lt_Some _ _ _ Hl) as Hi.
    rewrite (drop_S _ _ _ Hl) in Hn |- *.
    rewrite filter_cons in Hn. simpl.
    unfold isAdded in *.
    destruct (decide (l_mod l = added)) as [Ha|Ha].
    + rewrite bool_decide_eq_true_2 by done.
      rewrite decide_False in Hn by tauto.
      rewrite H by done.
      rewrite (take_S_r _ _ _ Hl), <- app_assoc. done.
    + rewrite bool_decide_eq_false_2 by done.
      rewrite decide_True in Hn by done. simpl in Hn.
      rewrite removeAt_delete in * by done.
      assert (length (take i dl) = i) as Hlen by (rewrite length_take; lia).
      rewrite H0.
      * rewrite take_app_length' by done. rewrite drop_app_length' by done. done.
      * rewrite drop_app_length' by done. lia.
  - pose proof (proj1 (lookup_ge_None _ _) e) as Hge.
    rewrite drop_ge in Hn by done. simpl in Hn. lia.
Qed.

Lemma pruneSpec_added (n : nat) (dl : list dagLayer) :
  filter isAdded (pruneSpec n dl) = filter isAdded dl.
Proof.
  revert n. induction dl as [|l dl IH]; intros n; simpl; [done|].
  destruct n as [|n]; [done|].
  rewrite !filter_cons. unfold isAdded at 2 4.
  destruct (decide (l_mod l = added)) as [Ha|Ha].
  - rewrite bool_decide_eq_true_2 by done. rewrite filter_cons.
    unfold isAdded at 1. rewrite decide_True by done. by rewrite IH.
  - rewrite bool_decide_eq_false_2 by done. apply IH.
Qed.

Lemma pruneSpec_others (n : nat) (dl : list dagLayer) :
  filter (fun l => ~ isAdded l) (pruneSpec n dl)
  = drop n (filter (fun l => ~ isAdded l) dl).
Proof.
  revert n. induction dl as [|l dl IH]; intros n; simpl.
  - by rewrite filter_nil, drop_nil.
  - destruct n as [|n]; [done|].
    rewrite !filter_cons. unfold isAdded at 2 4.
    destruct (decide (l_mod l = added)) as [Ha|Ha].
    + rewrite bool_decide_eq_true_2 by done. rewrite filter_cons.
      unfold isAdded at 1. rewrite !decide_False by tauto. apply IH.
    + rewrite bool_decide_eq_false_2 by done.
      rewrite decide_True by done. simpl. apply IH.
Qed.

Lemma pruneSpec_sublist (n : nat) (dl : list dagLayer) : pruneSpec n dl `sublist_of` dl.
Proof.
  revert n. induction dl as [|l dl IH]; intros n; simpl; [done|].
  destruct n as [|n]; [done|].
  destruct (bool_decide (l_mod l = added)).
  - by apply sublist_skip.
  - by apply sublist_cons.
Qed.

Lemma pruneSpec_length (n : nat) (dl : list dagLayer) :
  n <= length (filter (fun l => ~ isAdded l) dl) ->
  length (pruneSpec n dl) + n = length dl.
Proof.
  revert n. induction dl as [|l dl IH]; intros n; simpl.
  - lia.
  - destruct n as [|n]; [simpl; lia|].
    rewrite filter_cons. unfold isAdded at 1.
    destruct (decide (l_mod l = added)) as [Ha|Ha].
    + rewrite bool_decide_eq_true_2 by done. rewrite decide_False by tauto.
      intros Hn. simpl. specialize (IH (S n) Hn). lia.
    + rewrite bool_decide_eq_false_2 by done. rewrite decide_True by done.
      simpl. intros Hn. specialize (IH n ltac:(lia)). lia.
Qed.

(** C5. On a layer sequence with at least [n] entries not marked
    [added], the prune loop ends without an index out of range; it
    returns the sequence without its first [n] such entries: every
    [added] entry is kept, the other entries lose exactly their first
    [n], and what is left stands in its former order. *)
Theorem pruneLoop_removes_first_non_added (dl : list dagLayer) (n : nat) :
  n <= length (filter (fun l => ~ isAdded l) dl) ->
  exists out,
    pruneLoop dl 0 n = Ret out
    /\ out = pruneSpec n dl
    /\ filter isAdded out = filter isAdded dl
    /\ filter (fun l => ~ isAdded l) out = drop n (filter (fun l => ~ isAdded l) dl)
    /\ out `sublist_of` dl
    /\ length out + n = length dl.
Proof.
  intros Hn. exists (pruneSpec n dl).
  split; [by rewrite pruneLoop_spec|].
  split; [done|].
  split; [apply pruneSpec_added|].
  split; [apply pruneSpec_others|].
  split; [apply pruneSpec_sublist|by apply pruneSpec_length].
Qed.

(** ** The validation of the old base *)

(** An outcome of the validation is an error only of the mismatch kind. *)
Definition mismatchOnly {A : Type} (x : res A) : Prop :=
  forall e, x = Raise e -> errors_Is e ErrMismatch = true.

(** The number of history entries that stand for a layer. *)
Definition histLayers (hist : list v1.History) : nat :=
  length (filter (fun h => v1.EmptyLayer h = false) hist).

(** Two history entries that the validation takes for the same. *)
Definition historyMatches (h ho : v1.History) : Prop :=
  v1.Author h = v1.Author ho
  /\ v1.Comment h = v1.Comment ho
  /\ (exists t t_o, v1.Created h = Some t /\ v1.Created ho = Some t_o
                    /\ v1.Time_Equal t t_o = true)
  /\ v1.CreatedBy h = v1.CreatedBy ho
  /\ v1.EmptyLayer h = v1.EmptyLayer ho.

(** Two history entries, both with a creation time, that differ in a
    field the validation reads. *)
Definition historyDiffers (h ho : v1.History) : Prop :=
  v1.Author h <> v1.Author ho
  \/ v1.Comment h <> v1.Comment ho
  \/ (exists t t_o, v1.Created h = Some t /\ v1.Created ho = Some t_o
                    /\ v1.Time_Equal t t_o = false)
  \/ v1.CreatedBy h <> v1.CreatedBy ho
  \/ v1.EmptyLayer h <> v1.EmptyLayer ho.

Lemma historyDiffers_not_matches (h ho : v1.History) :
  historyDiffers h ho -> ~ historyMatches h ho.
Proof.
  intros Hd (Ha & Hc & (t & t_o & Ht & Hto & Heq) & Hb & He).
  destruct Hd as [?|[?|[(t' & t_o' & Ht' & Hto' & Hne)|[?|?]]]]; try done.
  congruence.
Qed.

Lemma go_at_Ret {A : Type} (l : list A) (i : nat) (x : A) :
  go_at l i = Ret x <-> l !! i = Some x.
Proof. unfold go_at. destruct (l !! i); split; congruence. Qed.

Lemma countLayers_from (hist : list v1.History) (n : nat) :
  fold_left (fun n h => if negb (v1.EmptyLayer h) then S n else n) hist n
  = n + histLayers hist.
Proof.
  unfold histLayers. revert n.
  induction hist as [|h hist IH]; intros n; simpl; [lia|].
  rewrite IH, filter_cons.
  destruct (v1.EmptyLayer h); simpl; lia.
Qed.

Lemma countLayers_spec (hist : list v1.History) : countLayers hist = histLayers hist.
Proof. unfold countLayers. by rewrite countLayers_from. Qed.

Lemma histLayers_app (h1 h2 : list v1.History) :
  histLayers (h1 ++ h2) = histLayers h1 + histLayers h2.
Proof. unfold histLayers. by rewrite filter_app, length_app. Qed.

Lemma histLayers_matches (hs hos : list v1.History) :
  Forall2 historyMatches hs hos -> histLayers hs = histLayers hos.
Proof.
  unfold histLayers.
  induction 1 as [|h ho hs hos (_ & _ & _ & _ & He) _ IH]; [done|].
  rewrite !filter_cons, He.
  destruct (decide (v1.EmptyLayer ho = false)); simpl; by rewrite IH.
Qed.

Section Rebase.
Context {mt : MediaTypes} {pf : platform.Ops} {mo : manifest.Ops}
        {bo : blob.Ops} {rc : regclient.Ops} {ro : ref.Ops} {dg : digest.Ops}.

Lemma layersLoop_Ret (imgL : list Descriptor) (i : nat) (rest : list Descriptor) :
  layersLoop imgL i rest = Ret tt ->
  Forall2 (fun l lo => Same l lo = true) (take (length rest) (drop i imgL)) rest.
Proof.
  revert i. induction rest as [|lo rest IH]; intros i H; simpl in *.
  - constructor.
  - unfold go_at in H. destruct (imgL !! i) as [l|] eqn:Hl; simpl in H; [|done].
    destruct (Same l lo) eqn:Hs; simpl in H; [|done].
    rewrite (drop_S _ _ _ Hl). simpl. constructor; [done|]. by apply IH.
Qed.

Lemma layersLoop_mismatchOnly (imgL : list Descriptor) (i : nat) (rest : list Descriptor) :
  mismatchOnly (layersLoop imgL i rest).
Proof.
  revert i. induction rest as [|lo rest IH]; intros i e H; simpl in *; [done|].
  unfold go_at in H. destruct (imgL !! i) as [l|]; simpl in H; [|done].
  destruct (Same l lo); simpl in H; [by eapply IH|].
  by inversion H.
Qed.

Lemma layersLoop_no_panic (imgL : list Descriptor) (i : nat) (rest : list Descriptor) :
  i + length rest <= length imgL -> layersLoop imgL i rest <> Panic.
Proof.
  revert i. induction rest as [|lo rest IH]; intros i Hlen; simpl in *; [done|].
  destruct (lookup_lt_is_Some_2 imgL i ltac:(lia)) as [l Hl].
  unfold go_at. rewrite Hl. simpl.
  destruct (Same l lo); simpl; [|done].
  apply IH. lia.
Qed.

Lemma historyLoop_Ret (hist : list v1.History) (i : nat) (rest : list v1.History)
      (acc n : nat) :
  historyLoop hist i rest acc = Ret n ->
  Forall2 historyMatches (take (length rest) (drop i hist)) rest
  /\ n = acc + histLayers rest.
Proof.
  revert i acc. induction rest as [|ho rest IH]; intros i acc H; simpl in *.
  - inversion H. split; [constructor|]. unfold histLayers. simpl. lia.
  - unfold go_at in H. destruct (hist !! i) as [h|] eqn:Hh; simpl in H; [|done].
    destruct (String.eqb_spec (v1.Author h) (v1.Author ho)) as [Ha|]; simpl in H; [|done].
    destruct (String.eqb_spec (v1.Comment h) (v1.Comment ho)) as [Hc|]; simpl in H; [|done].
    destruct (v1.Created h) as [t|] eqn:Ht; [|done].
    destruct (v1.Created ho) as [t_o|] eqn:Hto; [|done].
    destruct (v1.Time_Equal t t_o) eqn:Heq; simpl in H; [|done].
    destruct (String.eqb_spec (v1.CreatedBy h) (v1.CreatedBy ho)) as [Hb|]; simpl in H; [|done].
    destruct (Bool.eqb_spec (v1.EmptyLayer h) (v1.EmptyLayer ho)) as [He|]; simpl in H; [|done].
    destruct (IH _ _ H) as [Hf Hn].
    rewrite (drop_S _ _ _ Hh). simpl. split.
    + constructor; [|done]. unfold historyMatches. rewrite Ht, Hto.
      repeat split; try done. by exists t, t_o.
    + rewrite Hn. unfold histLayers. rewrite filter_cons.
      destruct (v1.EmptyLayer ho); simpl; lia.
Qed.

Lemma historyLoop_mismatchOnly (hist : list v1.History) (i : nat)
      (rest : list v1.History) (acc : nat) :
  mismatchOnly (historyLoop hist i rest acc).
Proof.
  revert i acc. induction rest as [|ho rest IH]; intros i acc e H; simpl in *; [done|].
  unfold go_at in H. destruct (hist !! i) as [h|]; simpl in H; [|done].
  repeat match type of H with
         | (if negb ?c then _ else _) = _ =>
             destruct c; simpl in H; [|by inversion H]
         | match ?c with Some _ => _ | None => _ end = _ => destruct c; [|done]
         end.
  by eapply IH.
Qed.

Lemma historyLoop_no_panic (hist : list v1.History) (i : nat)
      (rest : list v1.History) (acc : nat) :
  i + length rest <= length hist ->
  Forall (fun h => is_Some (v1.Created h)) hist ->
  Forall (fun h => is_Some (v1.Created h)) rest ->
  historyLoop hist i rest acc <> Panic.
Proof.
  revert i acc. induction rest as [|ho rest IH]; intros i acc Hlen Hh Hr; simpl in *; [done|].
  destruct (lookup_lt_is_Some_2 hist i ltac:(lia)) as [h Hl].
  unfold go_at. rewrite Hl. simpl.
  apply Forall_cons in Hr as [[t_o Hto] Hr].
  destruct (proj1 (Forall_lookup _ _) Hh _ _ Hl) as [t Ht].
  rewrite Ht, Hto.
  repeat match goal with
         | |- (if negb ?c then _ else _) <> _ => destruct c; simpl; [|done]
         end.
  apply IH; [lia|done|done].
Qed.

Lemma diffIDsLoop_Ret (diffIDs : list string) (i : nat) (rest : list string) :
  diffIDsLoop diffIDs i rest = Ret tt ->
  take (length rest) (drop i diffIDs) = rest.
Proof.
  revert i. induction rest as [|d_o rest IH]; intros i H; simpl in *; [done|].
  unfold go_at in H. destruct (diffIDs !! i) as [d|] eqn:Hd; simpl in H; [|done].
  destruct (String.eqb_spec d d_o) as [->|]; simpl in H; [|done].
  rewrite (drop_S _ _ _ Hd). simpl. f_equal. by apply IH.
Qed.

Lemma diffIDsLoop_mismatchOnly (diffIDs : list string) (i : nat) (rest : list string) :
  mismatchOnly (diffIDsLoop diffIDs i rest).
Proof.
  revert i. induction rest as [|d_o rest IH]; intros i e H; simpl in *; [done|].
  unfold go_at in H. destruct (diffIDs !! i) as [d|]; simpl in H; [|done].
  destruct (String.eqb d d_o); simpl in H; [by eapply IH|].
  by inversion H.
Qed.

Lemma diffIDsLoop_no_panic (diffIDs : list string) (i : nat) (rest : list string) :
  i + length rest <= length diffIDs -> diffIDsLoop diffIDs i rest <> Panic.
Proof.
  revert i. induction rest as [|d_o rest IH]; intros i Hlen; simpl in *; [done|].
  destruct (lookup_lt_is_Some_2 diffIDs i ltac:(lia)) as [d Hd].
  unfold go_at. rewrite Hd. simpl.
  destruct (String.eqb d d_o); simpl; [|done].
  apply IH. lia.
Qed.

(** What the validation of the old base accepts. *)
Definition accepted (b : bases) : Prop :=
  length (layersOld b) <= length (imgLayers b)
  /\ Forall2 (fun l lo => Same l lo = true)
             (take (length (layersOld b)) (imgLayers b)) (layersOld b)
  /\ length (v1.Hist (confOCIOld b)) <= length (v1.Hist (confOCI b))
  /\ Forall2 historyMatches
             (take (length (v1.Hist (confOCIOld b))) (v1.Hist (confOCI b)))
             (v1.Hist (confOCIOld b))
  /\ length (layersOld b) = histLayers (v1.Hist (confOCIOld b))
  /\ length (layersOld b) = length (v1.DiffIDs (confOCIOld b))
  /\ length (v1.DiffIDs (confOCIOld b)) <= length (v1.DiffIDs (confOCI b))
  /\ take (length (v1.DiffIDs (confOCIOld b))) (v1.DiffIDs (confOCI b))
     = v1.DiffIDs (confOCIOld b).

Lemma validateOld_Ret (b : bases) : validateOld b = Ret tt -> accepted b.
Proof.
  unfold validateOld, accepted. intros H.
  destruct (Nat.ltb_spec (length (imgLayers b)) (length (layersOld b))); [done|].
  destruct (layersLoop (imgLayers b) 0 (layersOld b)) as [[]| |] eqn:HL; simpl in H;
    [|done|done].
  destruct (Nat.ltb_spec (length (v1.Hist (confOCI b)))
                         (length (v1.Hist (confOCIOld b)))); [done|].
  destruct (historyLoop _ 0 _ 0) as [n| |] eqn:HH; simpl in H; [|done|done].
  destruct (Nat.eqb_spec (length (layersOld b)) n) as [Hn|]; simpl in H; [|done].
  destruct (Nat.eqb_spec (length (layersOld b))
                         (length (v1.DiffIDs (confOCIOld b)))); simpl in H; [|done].
  destruct (Nat.ltb_spec (length (v1.DiffIDs (confOCI b)))
                         (length (v1.DiffIDs (confOCIOld b)))); [done|].
  apply layersLoop_Ret in HL. apply historyLoop_Ret in HH as [HH Hc].
  apply diffIDsLoop_Ret in H. rewrite drop_0 in *. simpl in Hc.
  repeat split; try done; lia.
Qed.

Lemma validateOld_mismatchOnly (b : bases) : mismatchOnly (validateOld b).
Proof.
  unfold validateOld. intros e H.
  destruct (Nat.ltb _ _); [by inversion H|].
  destruct (layersLoop (imgLayers b) 0 (layersOld b)) as [[]| |] eqn:HL; simpl in H;
    [|inversion H; subst; by eapply layersLoop_mismatchOnly|done].
  destruct (Nat.ltb _ _); [by inversion H|].
  destruct (historyLoop _ 0 _ 0) as [n| |] eqn:HH; simpl in H;
    [|inversion H; subst; by eapply historyLoop_mismatchOnly|done].
  destruct (negb _ || negb _); [by inversion H|].
  destruct (Nat.ltb _ _); [by inversion H|].
  by eapply diffIDsLoop_mismatchOnly.
Qed.

Lemma validateOld_no_panic (b : bases) :
  Forall (fun h => is_Some (v1.Created h)) (v1.Hist (confOCI b)) ->
  Forall (fun h => is_Some (v1.Created h)) (v1.Hist (confOCIOld b)) ->
  validateOld b <> Panic.
Proof.
  unfold validateOld. intros Hh Ho.
  destruct (Nat.ltb_spec (length (imgLayers b)) (length (layersOld b))); [done|].
  pose proof (layersLoop_no_panic (imgLayers b) 0 (layersOld b) ltac:(simpl; lia)).
  destruct (layersLoop (imgLayers b) 0 (layersOld b)) as [[]| |]; simpl; [|done|done].
  destruct (Nat.ltb_spec (length (v1.Hist (confOCI b)))
                         (length (v1.Hist (confOCIOld b)))); [done|].
  pose proof (historyLoop_no_panic (v1.Hist (confOCI b)) 0 (v1.Hist (confOCIOld b)) 0
                ltac:(simpl; lia) Hh Ho).
  destruct (historyLoop _ 0 _ 0) as [n| |]; simpl; [|done|done].
  destruct (negb _ || negb _); [done|].
  destruct (Nat.ltb_spec (length (v1.DiffIDs (confOCI b)))
                         (length (v1.DiffIDs (confOCIOld b)))); [done|].
  apply diffIDsLoop_no_panic. simpl. lia.
Qed.

(** What makes the derived image disagree with the old base it
    claims. *)
Definition baseMismatch (b : bases) : Prop :=
  length (imgLayers b) < length (layersOld b)
  \/ length (v1.Hist (confOCI b)) < length (v1.Hist (confOCIOld b))
  \/ length (v1.DiffIDs (confOCI b)) < length (v1.DiffIDs (confOCIOld b))
  \/ (exists i l lo, imgLayers b !! i = Some l /\ layersOld b !! i = Some lo
                     /\ Same l lo = false)
  \/ (exists i h ho, v1.Hist (confOCI b) !! i = Some h
                     /\ v1.Hist (confOCIOld b) !! i = Some ho
                     /\ historyDiffers h ho)
  \/ (exists i d d_o, v1.DiffIDs (confOCI b) !! i = Some d
                      /\ v1.DiffIDs (confOCIOld b) !! i = Some d_o
                      /\ d <> d_o)
  \/ histLayers (v1.Hist (confOCIOld b)) <> length (layersOld b)
  \/ length (v1.DiffIDs (confOCIOld b)) <> length (layersOld b).

Lemma baseMismatch_not_accepted (b : bases) : baseMismatch b -> ~ accepted b.
Proof.
  intros Hm (HlL & HlS & HhL & HhS & Hc & Hd & HdL & HdS).
  destruct Hm as [?|[?|[?|[(i & l & lo & Hl & Hlo & Hs)
                 |[(i & h & ho & Hh & Hho & Hdiff)
                 |[(i & d & d_o & Hdi & Hdo & Hne)|[?|?]]]]]]]; try lia.
  - pose proof (lookup_lt_Some _ _ _ Hlo) as Hi.
    assert (take (length (layersOld b)) (imgLayers b) !! i = Some l) as Ht
      by (by rewrite lookup_take_lt).
    pose proof (Forall2_lookup_lr _ _ _ _ _ _ HlS Ht Hlo). simpl in *. congruence.
  - pose proof (lookup_lt_Some _ _ _ Hho) as Hi.
    assert (take (length (v1.Hist (confOCIOld b))) (v1.Hist (confOCI b)) !! i = Some h)
      as Ht by (by rewrite lookup_take_lt).
    pose proof (Forall2_lookup_lr _ _ _ _ _ _ HhS Ht Hho) as Hmatch.
    by apply historyDiffers_not_matches in Hdiff.
  - pose proof (lookup_lt_Some _ _ _ Hdo) as Hi.
    rewrite <- HdS in Hdo. rewrite lookup_take_lt in Hdo by done. congruence.
Qed.

(** The validation comes to dereference a creation time that is nil:
    the layers of the image start with the old base's, the image has at
    least the old base's history entries, the entries before [k] agree,
    and at [k] the two entries agree in author and comment while one of
    them has no creation time. *)
Definition reachesUndated (b : bases) : Prop :=
  length (layersOld b) <= length (imgLayers b)
  /\ Forall2 (fun l lo => Same l lo = true)
             (take (length (layersOld b)) (imgLayers b)) (layersOld b)
  /\ length (v1.Hist (confOCIOld b)) <= length (v1.Hist (confOCI b))
  /\ exists k h ho,
       Forall2 historyMatches (take k (v1.Hist (confOCI b)))
                              (take k (v1.Hist (confOCIOld b)))
       /\ v1.Hist (confOCI b) !! k = Some h
       /\ v1.Hist (confOCIOld b) !! k = Some ho
       /\ v1.Author h = v1.Author ho
       /\ v1.Comment h = v1.Comment ho
       /\ (v1.Created h = None \/ v1.Created ho = None).

Lemma historyLoop_Panic (hist : list v1.History) (i : nat) (rest : list v1.History)
      (acc : nat) :
  i + length rest <= length hist ->
  historyLoop hist i rest acc = Panic ->
  exists k h ho,
    Forall2 historyMatches (take k (drop i hist)) (take k rest)
    /\ hist !! (i + k) = Some h
    /\ rest !! k = Some ho
    /\ v1.Author h = v1.Author ho
    /\ v1.Comment h = v1.Comment ho
    /\ (v1.Created h = None \/ v1.Created ho = None).
Proof.
  revert i acc. induction rest as [|ho rest IH]; intros i acc Hlen H; simpl in *; [done|].
  destruct (lookup_lt_is_Some_2 hist i ltac:(lia)) as [h Hh].
  unfold go_at in H. rewrite Hh in H. simpl in H.
  destruct (String.eqb_spec (v1.Author h) (v1.Author ho)) as [Ha|]; simpl in H; [|done].
  destruct (String.eqb_spec (v1.Comment h) (v1.Comment ho)) as [Hc|]; simpl in H; [|done].
  destruct (v1.Created h) as [t|] eqn:Ht.
  2:{ exists 0, h, ho. rewrite Nat.add_0_r. simpl.
      repeat split; try done; first [by constructor|by left]. }
  destruct (v1.Created ho) as [t_o|] eqn:Hto.
  2:{ exists 0, h, ho. rewrite Nat.add_0_r. simpl.
      repeat split; try done; first [by constructor|by right]. }
  destruct (v1.Time_Equal t t_o) eqn:Heq; simpl in H; [|done].
  destruct (String.eqb_spec (v1.CreatedBy h) (v1.CreatedBy ho)) as [Hb|]; simpl in H; [|done].
  destruct (Bool.eqb_spec (v1.EmptyLayer h) (v1.EmptyLayer ho)) as [He|]; simpl in H; [|done].
  destruct (IH (S i) _ ltac:(lia) H) as (k & h' & ho' & Hm & Hh' & Hho' & Ha' & Hc' & Hn).
  exists (S k), h', ho'. rewrite (drop_S _ _ _ Hh). simpl. repeat split; try done.
  - constructor; [|done]. unfold historyMatches. rewrite Ht, Hto.
    repeat split; try done. by exists t, t_o.
  - by replace (i + S k) with (S i + k) by lia.
Qed.

(** The validation of the old base panics only on a creation time that
    is nil. *)
Lemma validateOld_Panic (b : bases) : validateOld b = Panic -> reachesUndated b.
Proof.
  unfold validateOld, reachesUndated. intros H.
  destruct (Nat.ltb_spec (length (imgLayers b)) (length (layersOld b))); [done|].
  pose proof (layersLoop_no_panic (imgLayers b) 0 (layersOld b) ltac:(simpl; lia)).
  destruct (layersLoop (imgLayers b) 0 (layersOld b)) as [[]| |] eqn:HL; simpl in H;
    [|done|done].
  apply layersLoop_Ret in HL. rewrite drop_0 in HL.
  destruct (Nat.ltb_spec (length (v1.Hist (confOCI b)))
                         (length (v1.Hist (confOCIOld b)))); [done|].
  split; [done|]. split; [done|]. split; [done|].
  destruct (historyLoop _ 0 _ 0) as [n| |] eqn:HH; simpl in H.
  - destruct (negb _ || negb _); [done|].
    destruct (Nat.ltb_spec (length (v1.DiffIDs (confOCI b)))
                           (length (v1.DiffIDs (confOCIOld b)))); [done|].
    by apply diffIDsLoop_no_panic in H; [|simpl; lia].
  - done.
  - apply historyLoop_Panic in HH as (k & h & ho & Hm & Hh & Hho & Hrest); [|simpl; lia].
    rewrite drop_0 in Hm. by exists k, h, ho.
Qed.

(** With a creation time in every history entry of the old base and in
    the entries of the image that stand against them, no nil creation
    time is reached. *)
Lemma dated_not_reachesUndated (b : bases) :
  Forall (fun h => is_Some (v1.Created h))
         (take (length (v1.Hist (confOCIOld b))) (v1.Hist (confOCI b))) ->
  Forall (fun h => is_Some (v1.Created h)) (v1.Hist (confOCIOld b)) ->
  ~ reachesUndated b.
Proof.
  intros Hh Ho (_ & _ & _ & k & h & ho & _ & Hk & Hko & _ & _ & Hn).
  pose proof (lookup_lt_Some _ _ _ Hko) as Hlt.
  assert (take (length (v1.Hist (confOCIOld b))) (v1.Hist (confOCI b)) !! k = Some h)
    as Hk' by (by rewrite lookup_take_lt).
  destruct (proj1 (Forall_lookup _ _) Hh _ _ Hk') as [t Ht].
  destruct (proj1 (Forall_lookup _ _) Ho _ _ Hko) as [t_o Hto].
  destruct Hn; congruence.
Qed.

(** A mismatch with the old base is reported as one, unless the
    validation comes to dereference a creation time that is nil. *)
Lemma validateOld_mismatch (b : bases) :
  ~ reachesUndated b ->
  baseMismatch b ->
  exists e, validateOld b = Raise e /\ errors_Is e ErrMismatch = true.
Proof.
  intros Hu Hm.
  pose proof (validateOld_Panic b) as Hp.
  pose proof (validateOld_mismatchOnly b) as Hr.
  pose proof (validateOld_Ret b) as Ha.
  destruct (validateOld b) as [[]|e|]; [|by eauto|by destruct Hu; apply Hp].
  apply baseMismatch_not_accepted in Hm. destruct Hm. by apply Ha.
Qed.

Lemma validateNew_Ret (b : bases) :
  validateNew b = Ret tt ->
  length (layersNew b) = histLayers (v1.Hist (confOCINew b))
  /\ length (v1.DiffIDs (confOCINew b)) = histLayers (v1.Hist (confOCINew b)).
Proof.
  unfold validateNew. rewrite countLayers_spec.
  destruct (Nat.eqb_spec (length (layersNew b)) (histLayers (v1.Hist (confOCINew b))));
    simpl; [|done].
  by destruct (Nat.eqb_spec (length (v1.DiffIDs (confOCINew b)))
                            (histLayers (v1.Hist (confOCINew b)))).
Qed.

(** ** The splice *)

Lemma pruneLoop_length (dl : list dagLayer) (i n : nat) (out : list dagLayer) :
  pruneLoop dl i n = Ret out -> length out + n = length dl.
Proof.
  funelim (pruneLoop dl i n); intros Hout.
  - inversion Hout. lia.
  - clear Heqcall. pose proof (lookup_lt_Some _ _ _ Hl) as Hi.
    destruct (bool_decide (l_mod l = added)).
    + by apply H.
    + apply H0 in Hout. rewrite removeAt_length in Hout by done. lia.
  - done.
Qed.

Definition newLayer (l : Descriptor) (d : string) : dagLayer :=
  {| l_mod := unchanged; ucDigest := d; desc := l; l_newDesc := zeroDescriptor |}.

Lemma dagAddLoop_Ret (diffs : list string) (i : nat) (rest : list Descriptor)
      (out : list dagLayer) :
  dagAddLoop diffs i rest = Ret out ->
  length out = length rest
  /\ forall k l, rest !! k = Some l ->
                 exists d, diffs !! (i + k) = Some d /\ out !! k = Some (newLayer l d).
Proof.
  revert i out. induction rest as [|l rest IH]; intros i out H; simpl in *.
  - inversion H. split; [done|]. intros k l Hk. by rewrite lookup_nil in Hk.
  - unfold go_at in H. destruct (diffs !! i) as [d|] eqn:Hd; simpl in H; [|done].
    destruct (dagAddLoop diffs (S i) rest) as [tl| |] eqn:Htl; simpl in H; [|done|done].
    inversion H; subst. destruct (IH _ _ Htl) as [Hlen Hk]. split; [simpl; lia|].
    intros [|k] l' Hl'; simpl in *.
    + inversion Hl'; subst. exists d. by rewrite Nat.add_0_r.
    + destruct (Hk _ _ Hl') as (d' & Hd' & Ho). exists d'.
      by replace (i + S k) with (S i + k) by lia.
Qed.

(** The node a completed splice leaves. *)
Definition spliced (b : bases) (dm : dagManifest) (pruned dagAdd : list dagLayer)
           (m' : manifest.Manifest) : dagManifest :=
  let oc' := blob.SetConfig (conf b)
               (v1.setHistDiffIDs (confOCI b)
                  (v1.Hist (confOCINew b)
                   ++ drop (length (v1.Hist (confOCIOld b))) (v1.Hist (confOCI b)))
                  (v1.DiffIDs (confOCINew b)
                   ++ drop (length (v1.DiffIDs (confOCIOld b))) (v1.DiffIDs (confOCI b)))) in
  {| dm_mod := replaced; top := top dm; newDesc := newDesc dm; m := m';
     config := Some {| modified := true; c_newDesc := blob.GetDescriptor oc'; oc := oc' |};
     layers := dagAdd ++ pruned |}.

Lemma splice_Ret (b : bases) (dm dm' : dagManifest) :
  splice b dm = (dm', Ret tt) ->
  exists pruned dagAdd m',
    pruneLoop (layers dm) 0 (length (layersOld b)) = Ret pruned
    /\ dagAddLoop (v1.DiffIDs (confOCINew b)) 0 (layersNew b) = Ret dagAdd
    /\ manifest.SetLayers (m dm)
         (layersNew b ++ drop (length (layersOld b)) (imgLayers b)) = (m', None)
    /\ dm' = spliced b dm pruned dagAdd m'.
Proof.
  unfold splice, go_from. intros H.
  destruct (pruneLoop _ 0 _) as [pruned| |] eqn:Hp; [|done|done].
  destruct (Nat.leb _ (length (imgLayers b))); simpl in H; [|done].
  destruct (Nat.leb _ (length (v1.Hist (confOCI b)))); simpl in H; [|done].
  destruct (Nat.leb _ (length (v1.DiffIDs (confOCI b)))); simpl in H; [|done].
  destruct (dagAddLoop _ 0 _) as [dagAdd| |] eqn:Ha; simpl in H; [|done|done].
  destruct (manifest.SetLayers _ _) as [m' [e|]] eqn:Hs; [done|].
  inversion H. by exists pruned, dagAdd, m'.
Qed.

Lemma rebase_Ret (rOld rNew : ref.Ref) (mbO mbN : manifest.Manifest) (r : ref.Ref)
      (dm dm' : dagManifest) :
  rebase rOld rNew mbO mbN r dm = (dm', Ret tt) ->
  exists b, loadImages rOld rNew mbO mbN dm = Ret b
            /\ validateOld b = Ret tt
            /\ validateNew b = Ret tt
            /\ splice b dm = (dm', Ret tt).
Proof.
  unfold rebase. intros H.
  destruct (loadImages rOld rNew mbO mbN dm) as [b| |]; simpl in H; [|done|done].
  destruct (validateOld b) as [[]| |] eqn:Ho; simpl in H; [|done|done].
  destruct (validateNew b) as [[]| |] eqn:Hn; simpl in H; [|done|done].
  destruct (copyBlobs rNew r (layersNew b)) as [[]| |]; simpl in H; [|done|done].
  by exists b.
Qed.

Lemma loadImages_Ret (rOld rNew : ref.Ref) (mbO mbN : manifest.Manifest)
      (dm : dagManifest) (b : bases) :
  loadImages rOld rNew mbO mbN dm = Ret b ->
  exists dc, config dm = Some dc
             /\ conf b = oc dc
             /\ confOCI b = blob.GetConfig (oc dc)
             /\ manifest.GetLayers (m dm) = Ret (imgLayers b).
Proof.
  unfold loadImages. intros H.
  destruct (config dm) as [dc|]; simpl in H; [|done].
  repeat match type of H with
         | mbind _ ?x = _ => destruct x; simpl in H; [|done|done]
         | (if ?c then _ else _) = _ => destruct c; simpl in H; [done|]
         end.
  inversion H; subst; simpl. by exists dc.
Qed.

(** The ways the step ends without an error: it skips a list or a
    deleted node, it skips two equal bases, or it splices. *)
Lemma runRebase_Ret (rOld rNew : ref.Ref) (cO cN cO' cN' : option manifest.Manifest)
      (r : ref.Ref) (dm dm' : dagManifest) :
  runRebase rOld rNew cO cN r dm = (cO', cN', dm', Ret tt) ->
  ((manifest.IsList (m dm) = true \/ dm_mod dm = deleted) /\ dm' = dm)
  \/ exists mbO mbN,
       cached cO rOld = Ret mbO /\ cached cN rNew = Ret mbN
       /\ ((Equal (manifest.GetDescriptor mbO) (manifest.GetDescriptor mbN) = true
            /\ dm' = dm)
           \/ (Equal (manifest.GetDescriptor mbO) (manifest.GetDescriptor mbN) = false
               /\ rebase rOld rNew mbO mbN r dm = (dm', Ret tt))).
Proof.
  unfold runRebase. intros H.
  destruct (manifest.IsList (m dm)) eqn:Hl; simpl in H.
  { inversion H; subst. left. split; [by left|done]. }
  destruct (decide (dm_mod dm = deleted)) as [Hd|Hd].
  { rewrite bool_decide_eq_true_2 in H by done. inversion H; subst.
    left. split; [by right|done]. }
  rewrite bool_decide_eq_false_2 in H by done.
  destruct (cached cO rOld) as [mbO| |] eqn:HO; [|done|done].
  destruct (cached cN rNew) as [mbN| |] eqn:HN; [|done|done].
  right. exists mbO, mbN. split; [done|]. split; [done|].
  destruct (Equal _ _).
  - inversion H; subst. by left.
  - destruct (rebase rOld rNew mbO mbN r dm) as [dm1 e] eqn:Hr.
    inversion H; subst. by right.
Qed.

(** ** The rebase step *)

(** C3, amended. When the two base references resolve (from the cache
    or from the registry) to manifests whose descriptors [Equal]
    accepts as equal, the step returns no error and leaves the node
    as it found it. *)
Theorem runRebase_equal_bases_noop
  (rOld rNew : ref.Ref) (cO cN : option manifest.Manifest) (r : ref.Ref)
  (dm : dagManifest) (mbO mbN : manifest.Manifest) :
  cached cO rOld = Ret mbO ->
  cached cN rNew = Ret mbN ->
  Equal (manifest.GetDescriptor mbO) (manifest.GetDescriptor mbN) = true ->
  runRebase rOld rNew cO cN r dm
  = (if manifest.IsList (m dm) || bool_decide (dm_mod dm = deleted)
     then (cO, cN, dm, Ret tt)
     else (Some mbO, Some mbN, dm, Ret tt))
  /\ (runRebase rOld rNew cO cN r dm).1.2 = dm
  /\ (runRebase rOld rNew cO cN r dm).2 = Ret tt.
Proof.
  intros HO HN HE. unfold runRebase. rewrite HO, HN, HE.
  by destruct (manifest.IsList (m dm) || bool_decide (dm_mod dm = deleted)).
Qed.

(** C2, amended. On a node that is neither a list nor deleted, with
    two bases that resolve to manifests of unequal descriptors and
    whose images and configurations load: when the image disagrees
    with the old base (in a length, a layer, a history entry, a diff
    ID, or the old base's counts), the step returns an error of kind
    [ErrMismatch] and leaves the node as it found it, unless the
    validation comes, before any disagreement, to a pair of history
    entries that agree in author and comment and one of which has no
    creation time, where it dereferences a nil pointer. History
    entries of the image beyond those of the old base are not read. *)
Theorem runRebase_mismatch
  (rOld rNew : ref.Ref) (cO cN : option manifest.Manifest) (r : ref.Ref)
  (dm : dagManifest) (mbO mbN : manifest.Manifest) (b : bases) :
  manifest.IsList (m dm) = false ->
  dm_mod dm <> deleted ->
  cached cO rOld = Ret mbO ->
  cached cN rNew = Ret mbN ->
  Equal (manifest.GetDescriptor mbO) (manifest.GetDescriptor mbN) = false ->
  loadImages rOld rNew mbO mbN dm = Ret b ->
  ~ reachesUndated b ->
  baseMismatch b ->
  exists e,
    runRebase rOld rNew cO cN r dm = (Some mbO, Some mbN, dm, Raise e)
    /\ errors_Is e ErrMismatch = true.
Proof.
  intros Hl Hd HO HN HE Hb Hu Hm.
  destruct (validateOld_mismatch b Hu Hm) as (e & Hv & He).
  exists e. split; [|done].
  unfold runRebase, rebase. rewrite Hl, HO, HN, HE, Hb. simpl.
  rewrite bool_decide_eq_false_2 by done. by rewrite Hv.
Qed.

(** C1, amended. On a node that is neither a list nor deleted, with
    two bases of unequal descriptors: if the image's layers, history
    and diff IDs are those of the old base followed by its own, a
    step that returns no error leaves the manifest with the new
    base's layers followed by the image's own, the configuration with
    the new base's history and diff IDs followed by the image's own,
    and at the front of the node's layer sequence one [unchanged]
    entry per layer of the new base, with the new base's diff ID of
    the same index. *)
Theorem runRebase_splices_new_base
  (mok : manifest.OpsOK mo) (bok : blob.OpsOK bo)
  (rOld rNew : ref.Ref) (cO cN cO' cN' : option manifest.Manifest) (r : ref.Ref)
  (dm dm' : dagManifest) (mbO mbN : manifest.Manifest) (b : bases)
  (extraLayers : list Descriptor) (extraHist : list v1.History)
  (extraDiffIDs : list string) :
  manifest.IsList (m dm) = false ->
  dm_mod dm <> deleted ->
  cached cO rOld = Ret mbO ->
  cached cN rNew = Ret mbN ->
  Equal (manifest.GetDescriptor mbO) (manifest.GetDescriptor mbN) = false ->
  loadImages rOld rNew mbO mbN dm = Ret b ->
  imgLayers b = layersOld b ++ extraLayers ->
  v1.Hist (confOCI b) = v1.Hist (confOCIOld b) ++ extraHist ->
  v1.DiffIDs (confOCI b) = v1.DiffIDs (confOCIOld b) ++ extraDiffIDs ->
  runRebase rOld rNew cO cN r dm = (cO', cN', dm', Ret tt) ->
  manifest.GetLayers (m dm') = Ret (layersNew b ++ extraLayers)
  /\ (exists dc', config dm' = Some dc'
                  /\ v1.Hist (blob.GetConfig (oc dc'))
                     = v1.Hist (confOCINew b) ++ extraHist
                  /\ v1.DiffIDs (blob.GetConfig (oc dc'))
                     = v1.DiffIDs (confOCINew b) ++ extraDiffIDs)
  /\ (forall i l, layersNew b !! i = Some l ->
                  exists d, v1.DiffIDs (confOCINew b) !! i = Some d
                            /\ layers dm' !! i = Some (newLayer l d)).
Proof.
  intros Hl Hd HO HN HE Hb HL HH HD Hrun.
  apply runRebase_Ret in Hrun as [[[?|?] _]|(mbO' & mbN' & HO' & HN' & Hrun)];
    [congruence|done|].
  rewrite HO in HO'. rewrite HN in HN'. inversion HO'; inversion HN'; subst mbO' mbN'.
  destruct Hrun as [[HE' _]|[_ Hr]]; [congruence|].
  apply rebase_Ret in Hr as (b' & Hb' & _ & _ & Hs).
  rewrite Hb in Hb'. inversion Hb'; subst b'.
  apply splice_Ret in Hs as (pruned & dagAdd & m' & Hp & Ha & HS & ->).
  unfold spliced. simpl. repeat split.
  - rewrite HL, drop_app_length in HS. by eapply manifest.GetLayers_SetLayers.
  - eexists. split; [done|]. simpl.
    rewrite blob.GetConfig_SetConfig. simpl.
    by rewrite HH, HD, !drop_app_length.
  - intros i l Hi. apply dagAddLoop_Ret in Ha as [Hlen Ha].
    destruct (Ha _ _ Hi) as (d & Hd' & Hout). exists d. split; [done|].
    by rewrite lookup_app_l by (rewrite Hlen; by eapply lookup_lt_Some).
Qed.

(** The alignment of a node: as many layers in the manifest as history
    entries that stand for a layer, and as diff IDs. *)
Definition aligned (dm : dagManifest) : Prop :=
  exists l dc,
    manifest.GetLayers (m dm) = Ret l
    /\ config dm = Some dc
    /\ length l = histLayers (v1.Hist (blob.GetConfig (oc dc)))
    /\ length l = length (v1.DiffIDs (blob.GetConfig (oc dc))).

(** The same alignment, counted on the layer sequence of the node. *)
Definition alignedDag (dm : dagManifest) : Prop :=
  exists dc,
    config dm = Some dc
    /\ length (layers dm) = histLayers (v1.Hist (blob.GetConfig (oc dc)))
    /\ length (layers dm) = length (v1.DiffIDs (blob.GetConfig (oc dc))).

Lemma accepted_histLayers (b : bases) :
  accepted b ->
  histLayers (v1.Hist (confOCI b))
  = length (layersOld b)
    + histLayers (drop (length (v1.Hist (confOCIOld b))) (v1.Hist (confOCI b))).
Proof.
  intros (_ & _ & _ & Hm & Hc & _).
  rewrite <- (take_drop (length (v1.Hist (confOCIOld b))) (v1.Hist (confOCI b))) at 1.
  rewrite histLayers_app, (histLayers_matches _ _ Hm). lia.
Qed.

(** C4. A step that returns no error keeps the alignment of the node:
    the number of layers, the number of history entries that stand
    for a layer and the number of diff IDs are equal after it if they
    were before, whether the layers are counted in the manifest or in
    the layer sequence of the node. *)
Theorem runRebase_keeps_alignment
  (mok : manifest.OpsOK mo) (bok : blob.OpsOK bo)
  (rOld rNew : ref.Ref) (cO cN cO' cN' : option manifest.Manifest) (r : ref.Ref)
  (dm dm' : dagManifest) :
  runRebase rOld rNew cO cN r dm = (cO', cN', dm', Ret tt) ->
  (aligned dm -> aligned dm') /\ (alignedDag dm -> alignedDag dm').
Proof.
  intros Hrun.
  apply runRebase_Ret in Hrun
    as [[_ ->]|(mbO & mbN & _ & _ & [[_ ->]|[_ Hr]])]; [done|done|].
  apply rebase_Ret in Hr as (b & Hb & Ho & Hn & Hs).
  apply validateOld_Ret in Ho. apply validateNew_Ret in Hn as [HnL HnD].
  pose proof (accepted_histLayers b Ho) as Hcount.
  destruct Ho as (HlL & _ & HhL & _ & Hc & HdO & HdL & _).
  apply loadImages_Ret in Hb as (dc & Hdc & Hconf & HconfOCI & Hget).
  apply splice_Ret in Hs as (pruned & dagAdd & m' & Hp & Ha & HS & ->).
  apply pruneLoop_length in Hp. apply dagAddLoop_Ret in Ha as [Hlen _].
  apply manifest.GetLayers_SetLayers in HS.
  split.
  - intros (l & dc0 & Hl & Hdc0 & H1 & H2).
    rewrite Hget in Hl. inversion Hl; subst l.
    rewrite Hdc in Hdc0. inversion Hdc0; subst dc0.
    rewrite <- HconfOCI in H1, H2.
    eexists _, _. split; [exact HS|]. split; [done|]. simpl.
    rewrite blob.GetConfig_SetConfig. simpl.
    rewrite histLayers_app, !length_app, !length_drop. lia.
  - intros (dc0 & Hdc0 & H1 & H2).
    rewrite Hdc in Hdc0. inversion Hdc0; subst dc0.
    rewrite <- HconfOCI in H1, H2.
    eexists. split; [done|]. simpl.
    rewrite blob.GetConfig_SetConfig. simpl.
    rewrite histLayers_app, !length_app, !length_drop. lia.
Qed.

End Rebase.

(** ** The annotation step and the inferred rebase *)

Section Annotations.
Context {mt : MediaTypes} {pf : platform.Ops} {mo : manifest.Ops}
        {bo : blob.Ops} {rc : regclient.Ops} {ro : ref.Ops} {dg : digest.Ops}.

(** The annotations the step finds in a manifest. *)
Definition annotationsOf (mm : manifest.Manifest) : res (option (gmap string string)) :=
  if manifest.IsList mm
  then ociI ← manifest.OCIIndexFromAny (manifest.GetOrig mm); Ret (v1.ix_Annotations ociI)
  else ociM ← manifest.OCIManifestFromAny (manifest.GetOrig mm); Ret (v1.mf_Annotations ociM).

(** The manifest converted back with the annotations [a]. *)
Definition origWith (mm : manifest.Manifest) (a : gmap string string) : res manifest.Orig :=
  if manifest.IsList mm
  then ociI ← manifest.OCIIndexFromAny (manifest.GetOrig mm);
       manifest.OCIIndexToAny
         {| v1.ix_Manifests := v1.ix_Manifests ociI; v1.ix_Annotations := Some a |}
         (manifest.GetOrig mm)
  else ociM ← manifest.OCIManifestFromAny (manifest.GetOrig mm);
       manifest.OCIManifestToAny
         {| v1.mf_Config := v1.mf_Config ociM; v1.mf_Layers := v1.mf_Layers ociM;
            v1.mf_Annotations := Some a |}
         (manifest.GetOrig mm).

Lemma annotateOrig_spec (name value : string) (mm : manifest.Manifest)
      (a : option (gmap string string)) :
  annotationsOf mm = Ret a ->
  annotateOrig name value mm (manifest.GetOrig mm)
  = (om' ← origWith mm (setOrDelete name value a).1;
     Ret (om', (setOrDelete name value a).2)).
Proof.
  unfold annotationsOf, annotateOrig, origWith.
  destruct (manifest.IsList mm).
  - destruct (manifest.OCIIndexFromAny _) as [ociI| |]; simpl; [|done|done].
    intros [= <-]. by destruct (setOrDelete name value (v1.ix_Annotations ociI)).
  - destruct (manifest.OCIManifestFromAny _) as [ociM| |]; simpl; [|done|done].
    intros [= <-]. by destruct (setOrDelete name value (v1.mf_Annotations ociM)).
Qed.

Lemma setOrDelete_delete (name : string) (a : option (gmap string string)) :
  is_Some (go_map a !! name) ->
  setOrDelete name "" a = (delete name (go_map a), true).
Proof.
  intros Hs. unfold setOrDelete. simpl. by rewrite bool_decide_eq_true_2.
Qed.

Lemma setOrDelete_same (name value : string) (a : option (gmap string string)) :
  (value = "" /\ go_map a !! name = None) \/ (value <> "" /\ go_map a !! name = Some value) ->
  setOrDelete name value a = (go_map a, false).
Proof.
  intros [[-> Hn]|[Hv Hs]]; unfold setOrDelete, go_index.
  - simpl. rewrite bool_decide_eq_false_2; [done|]. rewrite Hn. by intros [? ?].
  - rewrite Hs. simpl. apply String.eqb_neq in Hv. rewrite Hv. simpl.
    by rewrite String.eqb_refl.
Qed.

(** A step that finds nothing to change leaves the node as it is,
    whatever the node. *)
Lemma runAnnotation_same (name value : string) (dm : dagManifest)
      (a : option (gmap string string)) :
  annotationsOf (m dm) = Ret a ->
  (value = "" /\ go_map a !! name = None) \/ (value <> "" /\ go_map a !! name = Some value) ->
  (runAnnotation name value dm).1 = dm.
Proof.
  intros Ha Hsame. unfold runAnnotation.
  destruct (bool_decide (dm_mod dm = deleted) || negb (top dm)); [done|].
  rewrite (annotateOrig_spec _ _ _ _ Ha), (setOrDelete_same _ _ _ Hsame). simpl.
  by destruct (origWith (m dm) (go_map a)).
Qed.

(** C9, amended. On the top-level node, not marked deleted: a step
    with the empty value that finds the key and returns no error has
    handed the manifest its annotations without the key, set the
    state to [replaced] and taken the descriptor of the manifest anew;
    a step that finds the key absent (or, for a value that is not
    empty, already set to that value) leaves the node as it is. *)
Theorem runAnnotation_top
  (name value : string) (dm : dagManifest) (a : option (gmap string string)) :
  top dm = true ->
  dm_mod dm <> deleted ->
  annotationsOf (m dm) = Ret a ->
  (is_Some (go_map a !! name) ->
   (runAnnotation name "" dm).2 = Ret tt ->
   exists om' m',
     origWith (m dm) (delete name (go_map a)) = Ret om'
     /\ manifest.SetOrig (m dm) om' = (m', None)
     /\ (runAnnotation name "" dm).1
        = {| dm_mod := replaced; top := top dm;
             newDesc := manifest.GetDescriptor m'; m := m';
             config := config dm; layers := layers dm |})
  /\ ((value = "" /\ go_map a !! name = None)
      \/ (value <> "" /\ go_map a !! name = Some value) ->
      (runAnnotation name value dm).1 = dm).
Proof.
  intros Ht Hd Ha. split; [|by apply runAnnotation_same].
  intros Hs. unfold runAnnotation.
  rewrite Ht, bool_decide_eq_false_2 by done. simpl.
  rewrite (annotateOrig_spec _ _ _ _ Ha), (setOrDelete_delete _ _ Hs). simpl.
  destruct (origWith (m dm) (delete name (go_map a))) as [om'| |]; simpl; [|done|done].
  destruct (manifest.SetOrig (m dm) om') as [m' [e|]] eqn:Hset; simpl; [done|].
  intros _. by exists om', m'.
Qed.

(** C10, amended. For a top manifest that supports annotations and
    returns them, and with [ref.New] and [digest.Parse] failing with
    errors of their own: [WithRebase] fails with an error of kind
    [ErrMissingAnnotation] exactly when the base name or the base
    digest annotation is missing; when both are present and parse, it
    registers a rebase step from the parsed base name with its digest
    set to the recorded one, to the parsed base name as it is. *)
Theorem WithRebase_annotations
  (dc : dagConfig) (dm : dagManifest) (annot : option (gmap string string)) :
  manifest.isAnnotator (m dm) = true ->
  manifest.GetAnnotations (m dm) = Ret annot ->
  (forall s e, ref.New s = Raise e -> errors_Is e ErrMissingAnnotation = false) ->
  (forall s e, digest.Parse s = Raise e -> errors_Is e ErrMissingAnnotation = false) ->
  ((exists e, (WithRebase dc dm).2 = Raise e /\ errors_Is e ErrMissingAnnotation = true)
   <-> (go_map annot !! AnnotationBaseImageName = None
        \/ go_map annot !! AnnotationBaseImageDigest = None))
  /\ (forall baseName baseDigest rNew dig,
        go_map annot !! AnnotationBaseImageName = Some baseName ->
        go_map annot !! AnnotationBaseImageDigest = Some baseDigest ->
        ref.New baseName = Ret rNew ->
        digest.Parse baseDigest = Ret dig ->
        WithRebase dc dm
        = ({| stepsManifest :=
                stepsManifest dc ++ [rebaseStep (ref.setDigest rNew dig) rNew None None] |},
           Ret tt)).
Proof.
  intros Hann Hget Hnew Hparse. unfold WithRebase. rewrite Hann, Hget. simpl.
  split.
  - destruct (go_map annot !! AnnotationBaseImageName) as [baseName|].
    2:{ split; [by left|]. intros _. by eexists. }
    destruct (go_map annot !! AnnotationBaseImageDigest) as [baseDigest|].
    2:{ split; [by right|]. intros _. by eexists. }
    split; [|by intros [?|?]].
    intros (e & He & His).
    destruct (ref.New baseName) as [rNew|e1|] eqn:H1; simpl in He.
    + destruct (digest.Parse baseDigest) as [dig|e2|] eqn:H2; simpl in He; [done| |done].
      inversion He; subst. simpl in His. by rewrite (Hparse _ _ H2) in His.
    + inversion He; subst. simpl in His. by rewrite (Hnew _ _ H1) in His.
    + done.
  - intros baseName baseDigest rNew dig -> -> -> ->. done.
Qed.

End Annotations.

End ModFacts.

(** * The steps on the small registry *)
Module ModExamples.
Import types Mod ModFacts examples.

#[local] Existing Instance registryMediaTypes.
#[local] Existing Instance platform.tripleOps.
#[local] Existing Instance tManifestOps.
#[local] Existing Instance tBlobOps.
#[local] Existing Instance registry.
#[local] Existing Instance tRefOps.
#[local] Existing Instance tDigestOps.

Lemma tManifestOps_OK : manifest.OpsOK tManifestOps.
Proof.
  split. intros mm mm' l. simpl.
  destruct (decide (t_kind mm = Image)) as [Hk|Hk].
  - rewrite bool_decide_eq_true_2 by done. intros [= <-]. simpl.
    by rewrite bool_decide_eq_true_2.
  - by rewrite bool_decide_eq_false_2.
Qed.

Lemma tBlobOps_OK : blob.OpsOK tBlobOps.
Proof. by split. Qed.

Definition target : ref.Ref := named "app:latest".

Lemma pruneLoop_removes_first_non_added_witness :
  exists out,
    pruneLoop mixedLayers 0 2 = Ret out
    /\ out = pruneSpec 2 mixedLayers
    /\ filter isAdded out = filter isAdded mixedLayers
    /\ filter (fun l => ~ isAdded l) out
       = drop 2 (filter (fun l => ~ isAdded l) mixedLayers)
    /\ out `sublist_of` mixedLayers
    /\ length out + 2 = length mixedLayers.
Proof.
  apply (pruneLoop_removes_first_non_added mixedLayers 2). vm_compute. lia.
Defined.

(** The claim of C1 fails on a deleted node: the image is built on the
    first base, the two bases differ, the step returns no error, and the
    manifest keeps the layers of the first base. *)
Lemma runRebase_deleted_node_keeps_layers :
  let out := runRebase (named "base:v1") (named "base:v2") None None target
                       (appNode deleted) in
  t_layers app = t_layers base1 ++ [layer ociLayer "sha256:l9"]
  /\ Equal (t_desc base1) (t_desc base2) = false
  /\ out.2 = Ret tt
  /\ manifest.GetLayers (m out.1.2)
     = Ret (t_layers base1 ++ [layer ociLayer "sha256:l9"])
  /\ manifest.GetLayers (m out.1.2)
     <> Ret (t_layers base2 ++ [layer ociLayer "sha256:l9"]).
Proof. vm_compute. repeat split; discriminate. Qed.

(** The image rebased from the first base to the second. *)
Definition rebased12 : dagManifest :=
  (runRebase (named "base:v1") (named "base:v2") None None target (appNode unchanged)).1.2.

Lemma runRebase_splices_new_base_witness :
  manifest.GetLayers (m rebased12)
  = Ret (layersNew bases12 ++ [layer ociLayer "sha256:l9"])
  /\ (exists dc', config rebased12 = Some dc'
                  /\ v1.Hist (blob.GetConfig (oc dc'))
                     = v1.Hist (confOCINew bases12) ++ [entry "COPY app" false]
                  /\ v1.DiffIDs (blob.GetConfig (oc dc'))
                     = v1.DiffIDs (confOCINew bases12) ++ ["sha256:u9"])
  /\ (forall i l, layersNew bases12 !! i = Some l ->
                  exists d, v1.DiffIDs (confOCINew bases12) !! i = Some d
                            /\ layers rebased12 !! i = Some (newLayer l d)).
Proof.
  apply (runRebase_splices_new_base tManifestOps_OK tBlobOps_OK
           (named "base:v1") (named "base:v2") None None (Some base1) (Some base2)
           target (appNode unchanged) rebased12 base1 base2 bases12
           [layer ociLayer "sha256:l9"] [entry "COPY app" false] ["sha256:u9"]);
    try (vm_compute; reflexivity); discriminate.
Defined.

(** The claim of C2 fails when the two bases are equal: the first layer
    of the image is not that of the claimed base, and the step returns
    no error. *)
Lemma runRebase_same_base_hides_mismatch :
  let out := runRebase (named "base:v2") (named "base:v2") None None target
                       (appNode unchanged) in
  regclient.ManifestGet (named "base:v2") = Ret base2
  /\ t_layers app !! 0 = Some (layer ociLayer "sha256:l1")
  /\ t_layers base2 !! 0 = Some (layer ociLayer "sha256:l2")
  /\ Same (layer ociLayer "sha256:l1") (layer ociLayer "sha256:l2") = false
  /\ out.2 = Ret tt
  /\ (forall e, out.2 <> Raise e).
Proof. vm_compute. repeat split; discriminate. Qed.

(** The image with another first command than the base it claims, and
    with no creation time in the history entry of its own. *)
Definition cfgUndated : tConfig :=
  {| t_image := image [entry "ADD other" false;
                       {| v1.Created := None; v1.CreatedBy := "COPY app";
                          v1.Author := ""; v1.Comment := ""; v1.EmptyLayer := false |}]
                      ["sha256:u1"; "sha256:u9"];
     t_cdesc := t_cdesc cfgApp |}.

Definition undatedNode : @dagManifest (@tManifestOps platform.tripleOps) tBlobOps := {|
  dm_mod := unchanged; top := true; newDesc := zeroDescriptor;
  m := (app : @manifest.Manifest (@tManifestOps platform.tripleOps));
  config := Some {| modified := false; c_newDesc := zeroDescriptor;
                    oc := (cfgUndated : @blob.OCIConfig tBlobOps) |};
  layers := [dagLayerOf (layer ociLayer "sha256:l1") "sha256:u1";
             dagLayerOf (layer ociLayer "sha256:l9") "sha256:u9"]
|}.

Definition basesUndatedOwn : @bases tBlobOps := {|
  layersOld := t_layers base1; confOCIOld := t_image cfgBase1;
  layersNew := t_layers base2; confOCINew := t_image cfgBase2;
  imgLayers := t_layers app; conf := (cfgUndated : @blob.OCIConfig tBlobOps);
  confOCI := t_image cfgUndated
|}.

Lemma runRebase_mismatch_witness :
  exists e,
    runRebase (named "base:v1") (named "base:v2") None None target undatedNode
    = (Some base1, Some base2, undatedNode, Raise e)
    /\ errors_Is e ErrMismatch = true.
Proof.
  apply (runRebase_mismatch (named "base:v1") (named "base:v2") None None target
           undatedNode base1 base2 basesUndatedOwn);
    try (vm_compute; reflexivity); try discriminate.
  - intros (_ & _ & _ & k & h & ho & _ & Hh & Hho & _ & _ & Hn).
    destruct k as [|k]; [|discriminate Hho].
    injection Hh as <-. injection Hho as <-. destruct Hn; discriminate.
  - right. right. right. right. left.
    exists 0, (entry "ADD other" false), (entry "ADD rootfs" false).
    split; [reflexivity|]. split; [reflexivity|].
    right. right. right. left. discriminate.
Defined.

(** The claim of C3 fails for two bases of one digest and two media
    types: the step splices and marks the node replaced. *)
Lemma runRebase_same_digest_not_noop :
  let out := runRebase (named "base:v1") (named "mirror:v1") None None target
                       (appNode unchanged) in
  regclient.ManifestGet (named "base:v1") = Ret base1
  /\ regclient.ManifestGet (named "mirror:v1") = Ret base1Mirror
  /\ Digest (manifest.GetDescriptor base1) = Digest (manifest.GetDescriptor base1Mirror)
  /\ out.2 = Ret tt
  /\ dm_mod (appNode unchanged) = unchanged
  /\ dm_mod out.1.2 = replaced
  /\ (config out.1.2 ≫= fun dc => Some (modified dc)) = Some true.
Proof. vm_compute. repeat split. Qed.

Lemma runRebase_equal_bases_noop_witness :
  runRebase (named "base:v1") (named "base:v1") None None target (appNode unchanged)
  = (Some base1, Some base1, appNode unchanged, Ret tt)
  /\ (runRebase (named "base:v1") (named "base:v1") None None target
                (appNode unchanged)).1.2 = appNode unchanged
  /\ (runRebase (named "base:v1") (named "base:v1") None None target
                (appNode unchanged)).2 = Ret tt.
Proof.
  apply (runRebase_equal_bases_noop (named "base:v1") (named "base:v1") None None target
           (appNode unchanged) base1 base1); vm_compute; reflexivity.
Defined.

Lemma runRebase_keeps_alignment_witness : aligned rebased12.
Proof.
  assert (runRebase (named "base:v1") (named "base:v2") None None target (appNode unchanged)
          = (Some base1, Some base2, rebased12, Ret tt)) as Hrun
    by (vm_compute; reflexivity).
  apply (proj1 (runRebase_keeps_alignment tManifestOps_OK tBlobOps_OK
                  (named "base:v1") (named "base:v2") None None (Some base1) (Some base2)
                  target (appNode unchanged) rebased12 Hrun)).
  exists (t_layers app), {| modified := false; c_newDesc := zeroDescriptor;
                            oc := (cfgApp : @blob.OCIConfig tBlobOps) |}.
  repeat split; vm_compute; reflexivity.
Defined.

(** The claim of C9 fails on a deleted top-level node: the key is
    present, the value is empty, and the step leaves the annotation in
    place. *)
Lemma runAnnotation_deleted_node_keeps_key :
  let out := runAnnotation AnnotationBaseImageName "" (appNode deleted) in
  top (appNode deleted) = true
  /\ annotationsOf (m (appNode deleted)) ≫= (fun a => Ret (go_map a !! AnnotationBaseImageName))
     = Ret (Some "base:v1")
  /\ out.2 = Ret tt
  /\ annotationsOf (m out.1) ≫= (fun a => Ret (go_map a !! AnnotationBaseImageName))
     = Ret (Some "base:v1")
  /\ dm_mod out.1 = deleted.
Proof. vm_compute. repeat split. Qed.

Lemma runAnnotation_top_witness :
  (exists om' m',
      origWith (m (appNode unchanged))
               (delete AnnotationBaseImageName (go_map (t_annotations app))) = Ret om'
      /\ manifest.SetOrig (m (appNode unchanged)) om' = (m', None)
      /\ (runAnnotation AnnotationBaseImageName "" (appNode unchanged)).1
         = {| dm_mod := replaced; top := top (appNode unchanged);
              newDesc := manifest.GetDescriptor m'; m := m';
              config := config (appNode unchanged);
              layers := layers (appNode unchanged) |})
  /\ (runAnnotation "org.opencontainers.image.title" "" (appNode unchanged)).1
     = appNode unchanged.
Proof.
  split.
  - apply (proj1 (runAnnotation_top AnnotationBaseImageName "" (appNode unchanged)
                    (t_annotations app) eq_refl ltac:(discriminate) eq_refl));
      [eexists; vm_compute; reflexivity|vm_compute; reflexivity].
  - apply (proj2 (runAnnotation_top "org.opencontainers.image.title" ""
                    (appNode unchanged) (t_annotations app)
                    eq_refl ltac:(discriminate) eq_refl)).
    left. by vm_compute.
Defined.

(** The node of the image in the legacy format. *)
Definition legacyNode : dagManifest := {|
  dm_mod := unchanged; top := true; newDesc := zeroDescriptor;
  m := (appLegacy : @manifest.Manifest tManifestOps);
  config := config (appNode unchanged); layers := layers (appNode unchanged)
|}.

(** The claim of C10 fails on a manifest that does not support
    annotations: it has neither annotation, and the error is not of
    kind [ErrMissingAnnotation]. *)
Lemma WithRebase_legacy_manifest :
  let out := WithRebase {| stepsManifest := [] |} legacyNode in
  manifest.isAnnotator (m legacyNode) = false
  /\ t_annotations appLegacy = None
  /\ (exists e, out.2 = Raise e /\ errors_Is e ErrMissingAnnotation = false).
Proof. vm_compute. repeat split. by eexists. Qed.

Lemma tRefOps_own_errors (s : string) (e : error) :
  ref.New s = Raise e -> errors_Is e ErrMissingAnnotation = false.
Proof. simpl. destruct (String.eqb s ""); [|done]. by intros [= <-]. Qed.

Lemma tDigestOps_own_errors (s : string) (e : error) :
  digest.Parse s = Raise e -> errors_Is e ErrMissingAnnotation = false.
Proof. simpl. destruct (String.prefix "sha256:" s); [done|]. by intros [= <-]. Qed.

Lemma WithRebase_annotations_witness :
  WithRebase {| stepsManifest := [] |} (appNode unchanged)
  = ({| stepsManifest :=
          [rebaseStep {| ref.Reference := "base:v1"; ref.Digest := "sha256:sha256:l1" |}
                      {| ref.Reference := "base:v1"; ref.Digest := "" |} None None] |},
     Ret tt).
Proof.
  apply (proj2 (WithRebase_annotations {| stepsManifest := [] |} (appNode unchanged)
                  (t_annotations app) eq_refl eq_refl
                  tRefOps_own_errors tDigestOps_own_errors)
               "base:v1" "sha256:sha256:l1"
               {| ref.Reference := "base:v1"; ref.Digest := "" |} "sha256:sha256:l1");
    by vm_compute.
Defined.

End ModExamples.

(** * More facts about package types *)
Module descriptorFacts.
Import types descriptor typesFacts.

Section Data.
Context {h : HashOps}.

(** X1. [GetData] returns the inline data exactly when the size is the
    length of the data and the digest is the digest of the data; in every
    other case it fails with [ErrParsingFailed]. The first test of the
    function, on empty data, rejects nothing the other two accept. *)
Theorem GetData_verifies (d : Descriptor) :
  (GetData d = Ret (Data d)
   <-> Size d = Z.of_nat (length (go_bytes (Data d)))
       /\ Digest d = FromBytes (go_bytes (Data d)))
  /\ (GetData d = Raise (Sentinel ErrParsingFailed)
      <-> ~ (Size d = Z.of_nat (length (go_bytes (Data d)))
             /\ Digest d = FromBytes (go_bytes (Data d)))).
Proof.
  set (P := Size d = Z.of_nat (length (go_bytes (Data d)))
            /\ Digest d = FromBytes (go_bytes (Data d))).
  assert ((P -> GetData d = Ret (Data d))
          /\ (~ P -> GetData d = Raise (Sentinel ErrParsingFailed))) as [Hyes Hno].
  { unfold P, GetData, emptyDigest. split.
    - intros [Hs Hd]. rewrite <- Hs, Z.eqb_refl. rewrite Hd at 2. rewrite String.eqb_refl.
      destruct (Nat.eqb_spec (length (go_bytes (Data d))) 0) as [Hl|Hl]; simpl; [|done].
      apply nil_length_inv in Hl. rewrite Hl in Hd. by rewrite Hd, String.eqb_refl.
    - intros Hn.
      destruct (Nat.eqb _ 0 && negb _); [done|].
      destruct (Z.eqb_spec (Z.of_nat (length (go_bytes (Data d)))) (Size d)) as [Hs|Hs];
        simpl; [|done].
      destruct (String.eqb_spec (Digest d) (FromBytes (go_bytes (Data d)))) as [Hd|Hd];
        simpl; [|done].
      by destruct Hn. }
  destruct (decide (Size d = Z.of_nat (length (go_bytes (Data d))))) as [Hs|Hs];
    [destruct (decide (Digest d = FromBytes (go_bytes (Data d)))) as [Hd|Hd]|].
  - rewrite Hyes by done. split; split; intros H'; try done. by destruct H'.
  - rewrite Hno by (by intros [_ ?]).
    split; split; [done|by intros [_ ?]|by intros _ [_ ?]|done].
  - rewrite Hno by (by intros [? _]).
    split; split; [done|by intros [? _]|by intros _ [? _]|done].
Qed.

End Data.

Section Descriptor.
Context {mt : MediaTypes} {pf : platform.Ops} {so : sort.Ops}.

(** X2. [Same] is an equivalence on descriptors: it holds of a descriptor
    and itself, both ways round, and along a chain. *)
Theorem Same_equivalence (ok : MediaTypesOK mt) :
  (forall d, Same d d = true)
  /\ (forall d d2, Same d d2 = true -> Same d2 d = true)
  /\ (forall d d2 d3, Same d d2 = true -> Same d2 d3 = true -> Same d d3 = true).
Proof.
  repeat split.
  - intros d. apply Same_spec; [done|]. by repeat split; [..|left].
  - intros d d2. rewrite !Same_spec by done.
    intros (Hd & Hs & [Hm|(c & H1 & H2)]); repeat split; try done; [by left|].
    right. by exists c.
  - intros d d2 d3. rewrite !Same_spec by done.
    intros (Hd & Hs & Hm) (Hd' & Hs' & Hm'). repeat split; try congruence.
    destruct Hm as [Hm|(c & H1 & H2)], Hm' as [Hm'|(c' & H1' & H2')].
    + left. congruence.
    + right. exists c'. by rewrite Hm.
    + right. exists c. by rewrite <- Hm'.
    + right. exists c. split; [done|]. congruence.
Qed.

Lemma urlsLoop_eq (u u2 : list string) :
  length u = length u2 -> urlsLoop u u2 = true -> u = u2.
Proof.
  revert u2. induction u as [|x u IH]; intros [|y u2] Hl; simpl in *; try done.
  destruct (String.eqb_spec x y) as [->|]; simpl; [|done].
  intros H. f_equal. apply IH; [lia|done].
Qed.

Lemma urlsLoop_refl (u : list string) : urlsLoop u u = true.
Proof. induction u as [|x u IH]; simpl; [done|]. by rewrite String.eqb_refl. Qed.

Lemma annotationsLoop_spec (a a2 : gmap string string) :
  annotationsLoop a a2 = true <-> forall k v, a !! k = Some v -> go_index a2 k = v.
Proof.
  unfold annotationsLoop. rewrite forallb_forall. split.
  - intros H k v Hk. specialize (H (k, v)). simpl in H.
    unfold go_index in H at 1. rewrite Hk in H. simpl in H.
    symmetry. apply String.eqb_eq, H.
    apply list_elem_of_In. by apply elem_of_map_to_list.
  - intros H [k v] Hin. simpl.
    apply list_elem_of_In, elem_of_map_to_list in Hin.
    unfold go_index at 1. rewrite Hin. simpl.
    apply String.eqb_eq. symmetry. by apply H.
Qed.

(** Two annotation maps that [Equal] takes for the same are the same,
    when no value of the first is the empty string. *)
Lemma annotationsLoop_eq (a a2 : gmap string string) :
  size a = size a2 ->
  (forall k v, a !! k = Some v -> v <> "") ->
  annotationsLoop a a2 = true -> a = a2.
Proof.
  intros Hsz Hne H. rewrite annotationsLoop_spec in H.
  apply map_subseteq_size_eq; [|lia].
  apply map_subseteq_spec. intros k v Hk.
  specialize (H _ _ Hk). unfold go_index in H.
  destruct (a2 !! k) as [v2|]; simpl in H; [by subst|].
  subst. by destruct (Hne _ _ Hk).
Qed.

(** X3. What [Equal] guarantees: the two descriptors are the same
    content, with one media type, one artifact type and one URL list (a
    nil list is not an empty one); both have a platform or neither; both
    have an annotation map or neither, of one size, and every annotation
    of the first reads the same in the second. When no annotation value
    of the first is empty, the annotation maps are equal. *)
Theorem Equal_guarantees (d d2 : Descriptor) :
  Equal d d2 = true ->
  Same d d2 = true
  /\ Digest d = Digest d2 /\ Size d = Size d2
  /\ MediaType d = MediaType d2
  /\ ArtifactType d = ArtifactType d2
  /\ URLs d = URLs d2
  /\ (is_Some (Platform d) <-> is_Some (Platform d2))
  /\ (is_Some (Annotations d) <-> is_Some (Annotations d2))
  /\ size (go_map (Annotations d)) = size (go_map (Annotations d2))
  /\ (forall k v, go_map (Annotations d) !! k = Some v ->
                  go_index (go_map (Annotations d2)) k = v)
  /\ ((forall k v, go_map (Annotations d) !! k = Some v -> v <> "") ->
      Annotations d = Annotations d2).
Proof.
  unfold Equal. intros H.
  destruct (Same d d2) eqn:HS; simpl in H; [|done].
  destruct (String.eqb_spec (MediaType d) (MediaType d2)) as [Hm|]; simpl in H; [|done].
  destruct (String.eqb_spec (ArtifactType d) (ArtifactType d2)) as [Ha|]; simpl in H; [|done].
  assert (Digest d = Digest d2 /\ Size d = Size d2) as [Hdg Hsz].
  { unfold Same in HS.
    destruct (String.eqb_spec (Digest d) (Digest d2)); simpl in HS; [|done].
    by destruct (Z.eqb_spec (Size d) (Size d2)). }
  assert (is_Some (Platform d) <-> is_Some (Platform d2)) as Hp.
  { destruct (Platform d), (Platform d2); try done; split; intros [? ?]; done. }
  assert (match Platform d, Platform d2 with
          | Some p, Some p2 => negb (platform.Match p p2)
          | None, None => false
          | _, _ => true
          end = false) as HP.
  { destruct (Platform d) as [p|], (Platform d2) as [p2|]; try done.
    by destruct (platform.Match p p2). }
  rewrite HP in H. clear HP.
  assert (URLs d = URLs d2) as Hu.
  { destruct (URLs d) as [u|], (URLs d2) as [u2|]; try done.
    destruct (Nat.eqb_spec (length u) (length u2)) as [Hl|]; simpl in H; [|done].
    destruct (urlsLoop u u2) eqn:Hloop; simpl in H; [|done].
    f_equal. by apply urlsLoop_eq. }
  assert (match URLs d, URLs d2 with
          | Some u, Some u2 =>
              if negb (Nat.eqb (length u) (length u2)) then true
              else negb (urlsLoop u u2)
          | None, None => false
          | _, _ => true
          end = false) as HU.
  { destruct (URLs d) as [u|], (URLs d2) as [u2|]; try done.
    destruct (negb (Nat.eqb (length u) (length u2))); [done|].
    by destruct (urlsLoop u u2). }
  rewrite HU in H. clear HU.
  repeat split; try done; try apply Hp.
  - destruct (Annotations d), (Annotations d2); try done; by eauto.
  - destruct (Annotations d), (Annotations d2); try done; by eauto.
  - destruct (Annotations d) as [a|], (Annotations d2) as [a2|]; try done; simpl.
    by destruct (Nat.eqb_spec (size a) (size a2)).
  - destruct (Annotations d) as [a|], (Annotations d2) as [a2|]; try done; simpl.
    destruct (Nat.eqb_spec (size a) (size a2)); simpl in H; [|done].
    destruct (annotationsLoop a a2) eqn:HA; simpl in H; [|done].
    by apply annotationsLoop_spec.
  - intros Hne. destruct (Annotations d) as [a|], (Annotations d2) as [a2|]; try done.
    simpl in Hne.
    destruct (Nat.eqb_spec (size a) (size a2)); simpl in H; [|done].
    destruct (annotationsLoop a a2) eqn:HA; simpl in H; [|done].
    f_equal. by apply annotationsLoop_eq.
Qed.

(** X4. [Equal] holds of a descriptor and itself when the descriptor has
    no platform, or a platform that [platform.Match] accepts against
    itself. *)
Theorem Equal_reflexive (d : Descriptor) :
  (forall p, Platform d = Some p -> platform.Match p p = true) ->
  Equal d d = true.
Proof.
  intros Hp. unfold Equal.
  assert (Same d d = true) as ->.
  { unfold Same. by rewrite String.eqb_refl, Z.eqb_refl, String.eqb_refl. }
  rewrite !String.eqb_refl. simpl.
  destruct (Platform d) as [p|] eqn:HP; [rewrite (Hp p eq_refl); simpl|];
    (destruct (URLs d) as [u|]; [rewrite Nat.eqb_refl, urlsLoop_refl; simpl|]);
    (destruct (Annotations d) as [a|]; [rewrite Nat.eqb_refl; simpl|done]);
    (assert (annotationsLoop a a = true) as -> by (by apply annotationsLoop_spec;
       intros k v Hk; unfold go_index; rewrite Hk)); done.
Qed.

Lemma matchLoop_spec (oa da : gmap string string) :
  forallb (fun kv : string * string =>
             match da !! kv.1 with
             | None => false
             | Some dv => negb (negb (String.eqb kv.2 "") && negb (String.eqb kv.2 dv))
             end) (map_to_list oa) = true
  <-> forall k v, oa !! k = Some v ->
                  exists dv, da !! k = Some dv /\ (v = "" \/ v = dv).
Proof.
  rewrite forallb_forall. split.
  - intros H k v Hk.
    assert (In (k, v) (map_to_list oa)) as Hin
      by (by apply list_elem_of_In, elem_of_map_to_list).
    specialize (H _ Hin). simpl in H.
    destruct (da !! k) as [dv|]; [|done].
    exists dv. split; [done|].
    destruct (String.eqb_spec v ""); [by left|].
    destruct (String.eqb_spec v dv); [by right|done].
  - intros H [k v] Hin. simpl.
    apply list_elem_of_In, elem_of_map_to_list in Hin.
    destruct (H _ _ Hin) as (dv & Hdv & [Hv|Hv]); rewrite Hdv; subst v; [done|].
    rewrite String.eqb_refl. simpl. by rewrite andb_false_r.
Qed.

Lemma Match_iff (d : Descriptor) (opt : MatchOpt) :
  Match d opt = true <->
  (opt_ArtifactType opt = "" \/ ArtifactType d = opt_ArtifactType opt)
  /\ (forall k v, go_map (opt_Annotations opt) !! k = Some v ->
                  exists dv, go_map (Annotations d) !! k = Some dv /\ (v = "" \/ v = dv))
  /\ (forall op, opt_Platform opt = Some op ->
                 exists dp, Platform d = Some dp /\ platform.Compatible op dp = true).
Proof.
  unfold Match.
  assert ((negb (String.eqb (opt_ArtifactType opt) "")
           && negb (String.eqb (ArtifactType d) (opt_ArtifactType opt))) = false
          <-> (opt_ArtifactType opt = "" \/ ArtifactType d = opt_ArtifactType opt)) as HA.
  { destruct (String.eqb_spec (opt_ArtifactType opt) "");
      destruct (String.eqb_spec (ArtifactType d) (opt_ArtifactType opt));
      simpl; intuition congruence. }
  assert (match opt_Annotations opt with
          | Some oa =>
              if Nat.ltb 0 (size oa) then
                match Annotations d with
                | None => true
                | Some da =>
                    negb (forallb
                      (fun kv : string * string =>
                         match da !! kv.1 with
                         | None => false
                         | Some dv =>
                             negb (negb (String.eqb kv.2 "") && negb (String.eqb kv.2 dv))
                         end)
                      (map_to_list oa))
                end
              else false
          | None => false
          end = false
          <-> (forall k v, go_map (opt_Annotations opt) !! k = Some v ->
                 exists dv, go_map (Annotations d) !! k = Some dv /\ (v = "" \/ v = dv)))
    as HN.
  { destruct (opt_Annotations opt) as [oa|]; simpl.
    2:{ split; [|done]. intros _ k v Hk. by rewrite lookup_empty in Hk. }
    destruct (Nat.ltb_spec 0 (size oa)) as [Hsz|Hsz].
    - destruct (Annotations d) as [da|]; simpl.
      + rewrite negb_false_iff. apply matchLoop_spec.
      + split; [done|]. intros H.
        assert (oa <> ∅) as Hne by (intros ->; rewrite map_size_empty in Hsz; lia).
        apply map_choose in Hne as (k & v & Hk).
        destruct (H _ _ Hk) as (dv & Hdv & _). by rewrite lookup_empty in Hdv.
    - split; [|done]. intros _ k v Hk.
      assert (oa = ∅) as -> by (apply map_size_empty_iff; lia).
      by rewrite lookup_empty in Hk. }
  assert (match opt_Platform opt with
          | Some op =>
              match Platform d with
              | None => false
              | Some dp => if negb (platform.Compatible op dp) then false else true
              end
          | None => true
          end = true
          <-> (forall op, opt_Platform opt = Some op ->
                 exists dp, Platform d = Some dp /\ platform.Compatible op dp = true))
    as HP.
  { destruct (opt_Platform opt) as [op|]; [|by split].
    destruct (Platform d) as [dp|].
    - destruct (platform.Compatible op dp) eqn:HC; simpl.
      + split; [|done]. intros _ op' [= <-]. by exists dp.
      + split; [done|]. intros H. destruct (H op eq_refl) as (dp' & [= <-] & ?). congruence.
    - split; [done|]. intros H. by destruct (H op eq_refl) as (dp' & ? & ?). }
  match type of HA with (?a = false <-> _) => destruct a eqn:E1 end.
  { split; [done|]. intros (H1 & _). apply HA in H1. congruence. }
  match type of HN with (?a = false <-> _) => destruct a eqn:E2 end.
  { split; [done|]. intros (_ & H2 & _). apply HN in H2. congruence. }
  split.
  - intros H3. split; [by apply HA|]. split; [by apply HN|by apply HP].
  - intros (_ & _ & H3). by apply HP.
Qed.

(** X5. What [Match] tests: the artifact type, when one is asked for;
    every annotation asked for, by its key alone when the value asked for
    is empty; and the platform, when one is asked for, which the
    descriptor must then carry. *)
Theorem Match_spec (d : Descriptor) (opt : MatchOpt) :
  Match d opt = true <->
  (opt_ArtifactType opt = "" \/ ArtifactType d = opt_ArtifactType opt)
  /\ (forall k v, go_map (opt_Annotations opt) !! k = Some v ->
                  exists dv, go_map (Annotations d) !! k = Some dv /\ (v = "" \/ v = dv))
  /\ (forall op, opt_Platform opt = Some op ->
                 exists dp, Platform d = Some dp /\ platform.Compatible op dp = true).
Proof. exact (Match_iff d opt). Qed.

Lemma DescriptorListFilter_perm
  (ok : sort.OpsOK so) (dl : list Descriptor) (opt : MatchOpt) :
  Permutation (DescriptorListFilter dl opt) (filter (fun d => Match d opt = true) dl)
  /\ (SortAnnotation opt = "" ->
      DescriptorListFilter dl opt = filter (fun d => Match d opt = true) dl
      /\ DescriptorListFilter dl opt `sublist_of` dl)
  /\ (forall d, d ∈ DescriptorListFilter dl opt <-> d ∈ dl /\ Match d opt = true).
Proof.
  assert (Permutation (DescriptorListFilter dl opt)
                      (filter (fun d => Match d opt = true) dl)) as HP.
  { unfold DescriptorListFilter. destruct (negb _); [|done]. apply sort.Slice_Permutation. }
  split; [done|]. split.
  - intros Hs. unfold DescriptorListFilter. rewrite Hs. simpl.
    split; [done|]. apply sublist_filter.
  - intros d. rewrite HP, list_elem_of_filter. tauto.
Qed.

(** X6. [DescriptorListFilter] returns the descriptors of the list that
    match the options, each as often as the list holds it: in the order
    of the list when no sort annotation is asked for, rearranged by the
    sort otherwise. *)
Theorem DescriptorListFilter_matching
  (ok : sort.OpsOK so) (dl : list Descriptor) (opt : MatchOpt) :
  Permutation (DescriptorListFilter dl opt) (filter (fun d => Match d opt = true) dl)
  /\ (SortAnnotation opt = "" ->
      DescriptorListFilter dl opt = filter (fun d => Match d opt = true) dl
      /\ DescriptorListFilter dl opt `sublist_of` dl)
  /\ (forall d, d ∈ DescriptorListFilter dl opt <-> d ∈ dl /\ Match d opt = true).
Proof. exact (DescriptorListFilter_perm ok dl opt). Qed.

(** X7. With no option set, [DescriptorListFilter] returns the list as it
    is. *)
Theorem DescriptorListFilter_identity (dl : list Descriptor) (opt : MatchOpt) :
  opt_ArtifactType opt = "" ->
  go_map (opt_Annotations opt) = ∅ ->
  opt_Platform opt = None ->
  SortAnnotation opt = "" ->
  DescriptorListFilter dl opt = dl.
Proof.
  intros Ha Hn Hp Hs. unfold DescriptorListFilter. rewrite Hs. simpl.
  induction dl as [|d dl IH]; [done|].
  rewrite filter_cons, IH.
  rewrite decide_True; [done|].
  apply Match_iff. rewrite Ha, Hn, Hp. split; [by left|].
  split; [|done]. intros k v Hk. by rewrite lookup_empty in Hk.
Qed.

(** X8. With a sort annotation asked for, the returned descriptors that
    carry it stand in the order of their values: a later one is never
    smaller when the order is ascending, never greater when it is
    descending. *)
Theorem DescriptorListFilter_ordered
  (ok : sort.OpsOK so) (dl : list Descriptor) (opt : MatchOpt)
  (i j : nat) (di dj : Descriptor) :
  SortAnnotation opt <> "" ->
  DescriptorListFilter dl opt !! i = Some di ->
  DescriptorListFilter dl opt !! j = Some dj ->
  i < j ->
  hasAnnotation (SortAnnotation opt) di = true ->
  hasAnnotation (SortAnnotation opt) dj = true ->
  if SortDesc opt
  then String.compare (sortKey opt di) (sortKey opt dj) <> Lt
  else String.compare (sortKey opt dj) (sortKey opt di) <> Lt.
Proof.
  intros Hs Hi Hj Hij Hdi Hdj. unfold DescriptorListFilter in *.
  apply String.eqb_neq in Hs. rewrite Hs in *. simpl in *.
  pose proof (sort.Slice_sorted _ _
    (filter (fun d => Match d opt = true) dl) (sortLess_transitive opt)) as Hsorted.
  pose proof (sortFacts.StronglySorted_lookup _ _ _ _ _ _ Hsorted Hij Hi Hj) as Hp.
  unfold sort.mayPrecede in Hp. rewrite !sortLess_spec, Hdi, Hdj in Hp. simpl in Hp.
  unfold strLt in Hp.
  destruct (SortDesc opt); simpl in Hp.
  - destruct (String.compare (sortKey opt di) (sortKey opt dj)) eqn:Hc; try done.
    rewrite String.compare_antisym, Hc in Hp. simpl in Hp. by specialize (Hp eq_refl).
  - destruct (String.compare (sortKey opt dj) (sortKey opt di)) eqn:Hc; try done.
    rewrite String.compare_antisym, Hc in Hp. simpl in Hp. by specialize (Hp eq_refl).
Qed.

Lemma searchLoop_outcome (op : platform.Platform) (l : list Descriptor) :
  Forall (fun d => is_Some (Platform d)) l ->
  (searchLoop op l = Ret None
   /\ Forall (fun d => forall dp, Platform d = Some dp -> platform.Match op dp = false) l)
  \/ (exists d dp, searchLoop op l = Ret (Some d) /\ d ∈ l
                   /\ Platform d = Some dp /\ platform.Match op dp = true).
Proof.
  induction 1 as [|d l [dp Hdp] _ IH]; simpl; [by left|].
  rewrite Hdp. destruct (platform.Match op dp) eqn:Hm.
  - right. exists d, dp. repeat split; try done. by left.
  - destruct IH as [[-> Hall]|(d' & dp' & -> & Hin & Hdp' & Hm')].
    + left. split; [done|]. constructor; [|done]. intros dp0 Hdp0. congruence.
    + right. exists d', dp'. repeat split; try done. by right.
Qed.

(** X9. [DescriptorListSearch] never dereferences a nil platform. It
    fails, with [ErrNotFound], exactly when no descriptor of the list
    matches the options; otherwise it returns a descriptor of the list
    that matches them, and one whose platform [platform.Match] accepts
    whenever a platform is asked for and some matching descriptor has
    such a platform. *)
Theorem DescriptorListSearch_spec
  (ok : sort.OpsOK so) (dl : list Descriptor) (opt : MatchOpt) :
  DescriptorListSearch dl opt <> Panic
  /\ (forall e, DescriptorListSearch dl opt = Raise e ->
                e = Sentinel ErrNotFound /\ forall d, d ∈ dl -> Match d opt = false)
  /\ (forall d, DescriptorListSearch dl opt = Ret d ->
                d ∈ dl /\ Match d opt = true
                /\ forall op d' dp',
                     opt_Platform opt = Some op -> d' ∈ dl -> Match d' opt = true ->
                     Platform d' = Some dp' -> platform.Match op dp' = true ->
                     exists dp, Platform d = Some dp /\ platform.Match op dp = true)
  /\ ((forall d, d ∈ dl -> Match d opt = false) ->
      DescriptorListSearch dl opt = Raise (Sentinel ErrNotFound)).
Proof.
  destruct (DescriptorListFilter_perm ok dl opt) as (_ & _ & Hin).
  unfold DescriptorListSearch.
  destruct (DescriptorListFilter dl opt) as [|d0 fl] eqn:Hf.
  { simpl. assert (forall d, d ∈ dl -> Match d opt = false) as Hnone.
    { intros d Hd. destruct (Match d opt) eqn:Hm; [|done].
      assert (d ∈ []) as Hbad by (by apply Hin). by apply elem_of_nil in Hbad. }
    repeat split; try done. congruence. }
  replace (Nat.ltb (length (d0 :: fl)) 1) with false by done. cbv iota.
  assert (d0 ∈ dl /\ Match d0 opt = true) as [Hd0 Hm0] by (apply Hin; by left).
  assert (~ (forall d, d ∈ dl -> Match d opt = false)) as Hsome.
  { intros Hnone. by rewrite (Hnone d0 Hd0) in Hm0. }
  destruct (opt_Platform opt) as [op|] eqn:Hop.
  2:{ unfold go_at. simpl. split; [done|]. split; [done|]. split; [|done].
      intros d [= <-]. by repeat split. }
  assert (Forall (fun d => is_Some (Platform d)) (d0 :: fl)) as Hplat.
  { apply Forall_forall. intros d Hd. apply Hin in Hd as [_ Hm].
    apply Match_iff in Hm as (_ & _ & Hp).
    destruct (Hp op Hop) as (dp & -> & _). by eexists. }
  destruct (searchLoop_outcome op (d0 :: fl) Hplat)
    as [[Hs Hall]|(d & dp & Hs & Hd & Hdp & Hm)]; rewrite Hs; cbn [mbind res_bind].
  - unfold go_at. simpl. split; [done|]. split; [done|]. split; [|done].
    intros d [= <-]. split; [done|]. split; [done|].
    intros op' d' dp' [= <-] Hd' Hm' Hdp' Hex.
    assert (d' ∈ d0 :: fl) as Hd'' by (by apply Hin).
    rewrite Forall_forall in Hall. by rewrite (Hall _ Hd'' _ Hdp') in Hex.
  - split; [done|]. split; [done|]. split; [|done].
    intros d1 [= <-]. apply Hin in Hd as [Hd1 Hd2]. split; [done|]. split; [done|].
    intros op' d' dp' [= <-] _ _ _ _. by exists dp.
Qed.

End Descriptor.

End descriptorFacts.

(** * Facts about the other steps of package mod *)
Module ModStepsFacts.
Import types Mod ModSteps ModFacts.

Lemma go_index_insert (a : gmap string string) (k k' v : string) :
  go_index (<[k := v]> a) k' = if decide (k = k') then v else go_index a k'.
Proof. unfold go_index. rewrite lookup_insert. by destruct (decide (k = k')). Qed.

Lemma insert_changes (a : gmap string string) (k v : string) :
  go_index a k <> v -> <[k := v]> a <> a.
Proof.
  intros Hne Heq. apply Hne. rewrite <- Heq, go_index_insert. by rewrite decide_True.
Qed.

Section Steps.
Context {mt : MediaTypes} {lmt : LayerMediaTypes} {mo : manifest.Ops}
        {bo : blob.Ops} {no : NameOps}.

(** X10. The edit of [WithAnnotation]: an empty value deletes the key, any
    other value sets it; [changed] is reported exactly when the map is no
    longer the map it was; and the same edit on the result changes
    nothing. *)
Theorem setOrDelete_effect (name value : string) (a : option (gmap string string)) :
  (setOrDelete name value a).1
  = (if decide (value = "") then delete name (go_map a)
     else <[name := value]> (go_map a))
  /\ ((setOrDelete name value a).2 = true <-> (setOrDelete name value a).1 <> go_map a)
  /\ setOrDelete name value (Some (setOrDelete name value a).1)
     = ((setOrDelete name value a).1, false).
Proof.
  unfold setOrDelete. simpl.
  destruct (String.eqb_spec value "") as [->|Hv]; simpl.
  - unfold go_index. destruct (go_map a !! name) as [cur|] eqn:Hc; simpl.
    + rewrite lookup_delete_eq. simpl.
      repeat split; try done.
      intros _ Heq. apply (f_equal (fun m => m !! name)) in Heq.
      by rewrite lookup_delete_eq, Hc in Heq.
    + rewrite Hc. simpl. rewrite delete_id by done. repeat split; try done.
  - rewrite decide_False by done.
    destruct (String.eqb_spec value (go_index (go_map a) name)) as [He|He]; simpl.
    + rewrite <- He, String.eqb_refl. simpl.
      assert (go_map a !! name = Some value) as Hl.
      { unfold go_index in He. destruct (go_map a !! name); simpl in He; congruence. }
      rewrite insert_id by done. repeat split; try done.
    + rewrite go_index_insert, decide_True by done. rewrite String.eqb_refl. simpl.
      repeat split; try done.
      intros _. apply insert_changes. congruence.
Qed.

Lemma annoBase_distinct : annoBaseName <> annoBaseDig.
Proof. done. Qed.

(** X11. The edit of [WithAnnotationOCIBase]: afterwards the two base
    annotations read as the name and the digest wanted, and every other
    annotation is as before; [changed] is reported exactly when the map is
    no longer the map it was; and the same edit on the result changes
    nothing. *)
Theorem setBase_effect (baseName baseDig : string) (a : option (gmap string string)) :
  go_index (setBase baseName baseDig a).1 annoBaseName = baseName
  /\ go_index (setBase baseName baseDig a).1 annoBaseDig = baseDig
  /\ (forall k, k <> annoBaseName -> k <> annoBaseDig ->
                (setBase baseName baseDig a).1 !! k = go_map a !! k)
  /\ ((setBase baseName baseDig a).2 = true <-> (setBase baseName baseDig a).1 <> go_map a)
  /\ setBase baseName baseDig (Some (setBase baseName baseDig a).1)
     = ((setBase baseName baseDig a).1, false).
Proof.
  pose proof annoBase_distinct as Hnd.
  assert (annoBaseDig <> annoBaseName) as Hnd' by done.
  assert (go_index (setBase baseName baseDig a).1 annoBaseName = baseName
          /\ go_index (setBase baseName baseDig a).1 annoBaseDig = baseDig) as [H1 H2].
  { unfold setBase.
    destruct (String.eqb_spec (go_index (go_map a) annoBaseName) baseName) as [E1|E1]; simpl;
      rewrite ?go_index_insert; repeat case_decide; try done;
      (destruct (String.eqb_spec (go_index (go_map a) annoBaseDig) baseDig) as [E2|E2]; simpl);
      rewrite ?go_index_insert; repeat case_decide; try done. }
  split; [done|]. split; [done|]. split; [|split].
  - intros k Hk1 Hk2. unfold setBase.
    destruct (negb (String.eqb (go_index (go_map a) annoBaseName) baseName)); simpl;
      destruct (negb (String.eqb _ baseDig)); simpl;
      by rewrite ?lookup_insert_ne by done.
  - unfold setBase.
    destruct (String.eqb_spec (go_index (go_map a) annoBaseName) baseName) as [E1|E1]; simpl.
    + destruct (String.eqb_spec (go_index (go_map a) annoBaseDig) baseDig) as [E2|E2]; simpl.
      * split; [done|]. intros Hc. by destruct Hc.
      * split; [|done]. intros _. by apply insert_changes.
    + rewrite (go_index_insert _ annoBaseName annoBaseDig). case_decide; [done|].
      destruct (String.eqb_spec (go_index (go_map a) annoBaseDig) baseDig) as [E2|E2]; simpl.
      * split; [|done]. intros _. by apply insert_changes.
      * split; [|done]. intros _ Heq.
        apply (f_equal (fun m => go_index m annoBaseName)) in Heq.
        rewrite !go_index_insert in Heq. repeat case_decide; try done; congruence.
  - generalize dependent (setBase baseName baseDig a).1. intros a' H1 H2.
    unfold setBase. simpl. rewrite H1, String.eqb_refl. simpl.
    by rewrite H2, String.eqb_refl.
Qed.

Lemma copyLabels_spec (labels a : gmap string string) :
  (copyLabels labels a).1 = labels ∪ a
  /\ ((copyLabels labels a).2 = true <-> ~ labels ⊆ a)
  /\ (forall k v, labels !! k = Some v -> (copyLabels labels a).1 !! k = Some v)
  /\ (forall k, labels !! k = None -> (copyLabels labels a).1 !! k = a !! k)
  /\ copyLabels labels (copyLabels labels a).1 = ((copyLabels labels a).1, false).
Proof.
  assert (forall a0 : gmap string string,
             (copyLabels labels a0).1 = labels ∪ a0
             /\ ((copyLabels labels a0).2 = true <-> ~ labels ⊆ a0)) as Hcore.
  { intros a0. unfold copyLabels.
    apply (map_fold_weak_ind
             (fun (r : gmap string string * bool) (l : gmap string string) =>
                r.1 = l ∪ a0 /\ (r.2 = true <-> ~ l ⊆ a0))).
    - simpl. split; [by rewrite (left_id_L ∅ (∪))|].
      split; [done|]. intros H. destruct H. apply map_empty_subseteq.
    - intros k v l [r c] Hk [Hr Hc]. simpl in *. subst r.
      rewrite lookup_union_r by done.
      assert (a0 !! k = Some v -> (<[k := v]> l ⊆ a0 <-> l ⊆ a0)) as Hsame.
      { intros Ha. split.
        - intros Hs. etrans; [|exact Hs]. by apply insert_subseteq.
        - intros Hs. by apply insert_subseteq_l. }
      assert (a0 !! k <> Some v -> ~ <[k := v]> l ⊆ a0) as Hdiff.
      { intros Ha Hs. apply Ha.
        eapply lookup_weaken; [|exact Hs]. apply lookup_insert_eq. }
      destruct (a0 !! k) as [cur|] eqn:Ha.
      + destruct (String.eqb_spec cur v) as [->|Hne]; simpl.
        * split.
          -- rewrite <- insert_union_l. symmetry. apply insert_id.
             by rewrite lookup_union_r.
          -- rewrite Hc. by rewrite Hsame.
        * split; [by rewrite insert_union_l|].
          split; [|done]. intros _. apply Hdiff. congruence.
      + simpl. split; [by rewrite insert_union_l|].
        split; [|done]. intros _. by apply Hdiff. }
  destruct (Hcore a) as [Hu Hc].
  split; [done|]. split; [done|]. split; [|split].
  - intros k v Hk. rewrite Hu. by apply lookup_union_Some_l.
  - intros k Hk. rewrite Hu. by apply lookup_union_r.
  - destruct (Hcore (copyLabels labels a).1) as [Hu' Hc'].
    destruct (copyLabels labels (copyLabels labels a).1) as [r c] eqn:E. simpl in *.
    f_equal.
    + rewrite Hu', Hu. by rewrite (assoc_L (∪)), (idemp_L (∪)).
    + destruct c; [|done]. exfalso. apply Hc'; [done|].
      rewrite Hu. apply map_union_subseteq_l.
Qed.

(** X12. The loop of [WithLabelToAnnotation] leaves the labels laid over
    the annotations: every label with its value, every other annotation
    as before. [changed] is reported exactly when some label was not
    among the annotations with its value. *)
Theorem copyLabels_union (labels a : gmap string string) :
  (copyLabels labels a).1 = labels ∪ a
  /\ ((copyLabels labels a).2 = true <-> ~ labels ⊆ a)
  /\ (forall k v, labels !! k = Some v -> (copyLabels labels a).1 !! k = Some v)
  /\ (forall k, labels !! k = None -> (copyLabels labels a).1 !! k = a !! k)
  /\ copyLabels labels (copyLabels labels a).1 = ((copyLabels labels a).1, false).
Proof. exact (copyLabels_spec labels a). Qed.

Lemma stripMediaType_rows (ok : LayerMediaTypesOK lmt) :
  stripMediaType MediaTypeDocker2ForeignLayer = MediaTypeDocker2LayerGzip
  /\ stripMediaType MediaTypeOCI1ForeignLayer = MediaTypeOCI1Layer
  /\ stripMediaType MediaTypeOCI1ForeignLayerGzip = MediaTypeOCI1LayerGzip
  /\ stripMediaType MediaTypeOCI1ForeignLayerZstd = MediaTypeOCI1LayerZstd.
Proof.
  pose proof (@foreign_distinct lmt ok) as Hd.
  repeat (apply NoDup_cons in Hd as [? Hd]).
  repeat match goal with
         | H : _ ∉ _ :: _ |- _ => apply not_elem_of_cons in H as [? ?]
         end.
  unfold stripMediaType. repeat split;
    repeat match goal with
           | |- context [String.eqb ?a ?b] => destruct (String.eqb_spec a b); try done
           end; congruence.
Qed.

Lemma stripMediaType_other (mediaType : string) :
  mediaType ∉ [MediaTypeDocker2ForeignLayer; MediaTypeOCI1ForeignLayer;
               MediaTypeOCI1ForeignLayerGzip; MediaTypeOCI1ForeignLayerZstd] ->
  stripMediaType mediaType = mediaType.
Proof.
  intros Hn. unfold stripMediaType.
  repeat match goal with
         | |- context [String.eqb ?a ?b] => destruct (String.eqb_spec a b); try done
         end; subst; destruct Hn; set_solver.
Qed.

(** X13. Stripping one layer of the manifest: a layer without URLs is
    left as it is; a layer with URLs gets an empty URL list and the media
    type the switch gives (each of the four foreign layer types its
    standard layer type, any other type itself), and keeps its digest,
    size, annotations, data, platform and artifact type. Stripping the
    result again changes nothing. *)
Theorem stripLayer_effect (ok : LayerMediaTypesOK lmt) (l : Descriptor) :
  (go_strings (URLs l) = [] -> stripLayer l = (l, false))
  /\ (go_strings (URLs l) <> [] ->
      stripLayer l
      = ({| MediaType := stripMediaType (MediaType l); Digest := Digest l; Size := Size l;
            URLs := Some []; Annotations := Annotations l; Data := Data l;
            Platform := Platform l; ArtifactType := ArtifactType l |}, true))
  /\ (stripMediaType MediaTypeDocker2ForeignLayer = MediaTypeDocker2LayerGzip
      /\ stripMediaType MediaTypeOCI1ForeignLayer = MediaTypeOCI1Layer
      /\ stripMediaType MediaTypeOCI1ForeignLayerGzip = MediaTypeOCI1LayerGzip
      /\ stripMediaType MediaTypeOCI1ForeignLayerZstd = MediaTypeOCI1LayerZstd)
  /\ (forall mediaType,
        mediaType ∉ [MediaTypeDocker2ForeignLayer; MediaTypeOCI1ForeignLayer;
                     MediaTypeOCI1ForeignLayerGzip; MediaTypeOCI1ForeignLayerZstd] ->
        stripMediaType mediaType = mediaType)
  /\ stripLayer (stripLayer l).1 = ((stripLayer l).1, false).
Proof.
  split; [|split; [|split; [by apply stripMediaType_rows|split;
    [apply stripMediaType_other|]]]]; unfold stripLayer.
  - by intros ->.
  - intros Hne. by destruct (go_strings (URLs l)).
  - destruct (go_strings (URLs l)) eqn:E; simpl; [by rewrite E|done].
Qed.

Definition noURLs (l : Descriptor) : Prop := go_strings (URLs l) = [].

#[local] Instance noURLs_dec (l : Descriptor) : Decision (noURLs l).
Proof. unfold noURLs. apply _. Defined.

Lemma stripLayer_noURLs (l : Descriptor) :
  noURLs (stripLayer l).1
  /\ Digest (stripLayer l).1 = Digest l /\ Size (stripLayer l).1 = Size l
  /\ ((stripLayer l).2 = true <-> ~ noURLs l)
  /\ ((stripLayer l).2 = false -> (stripLayer l).1 = l).
Proof.
  unfold stripLayer, noURLs. destruct (go_strings (URLs l)) eqn:E; simpl; by repeat split.
Qed.

Lemma stripLayers_spec (ls : list Descriptor) :
  (stripLayers ls).1 = map (fun l => (stripLayer l).1) ls
  /\ length (stripLayers ls).1 = length ls
  /\ map Digest (stripLayers ls).1 = map Digest ls
  /\ map Size (stripLayers ls).1 = map Size ls
  /\ Forall noURLs (stripLayers ls).1
  /\ ((stripLayers ls).2 = true <-> Exists (fun l => ~ noURLs l) ls)
  /\ ((stripLayers ls).2 = false -> (stripLayers ls).1 = ls).
Proof.
  induction ls as [|l ls (IH1 & IH2 & IH3 & IH4 & IH5 & IH6 & IH7)]; simpl.
  - repeat split; try done. by intros ?%Exists_nil.
  - destruct (stripLayer_noURLs l) as (Hn & Hd & Hs & Hc & Hu).
    destruct (stripLayer l) as [l' c] eqn:El.
    destruct (stripLayers ls) as [ls' c'] eqn:Els. simpl in *.
    repeat split; try (f_equal; done).
    + by constructor.
    + intros Hor. apply orb_true_iff in Hor as [Hor|Hor].
      * apply Exists_cons_hd. by apply Hc.
      * apply Exists_cons_tl. by apply IH6.
    + intros Hex. apply Exists_cons in Hex as [Hex|Hex].
      * apply Hc in Hex. by rewrite Hex.
      * apply IH6 in Hex. rewrite Hex. by rewrite orb_true_r.
    + intros Hor. apply orb_false_iff in Hor as [Hor1 Hor2].
      f_equal; [by apply Hu|by apply IH7].
Qed.

(** X14. Stripping the layers of the manifest keeps their number, digests
    and sizes, and leaves no layer with URLs; [changed] is reported
    exactly when some layer had URLs, and otherwise the layers are as
    before. *)
Theorem stripLayers_effect (ls : list Descriptor) :
  (stripLayers ls).1 = map (fun l => (stripLayer l).1) ls
  /\ length (stripLayers ls).1 = length ls
  /\ map Digest (stripLayers ls).1 = map Digest ls
  /\ map Size (stripLayers ls).1 = map Size ls
  /\ Forall noURLs (stripLayers ls).1
  /\ ((stripLayers ls).2 = true <-> Exists (fun l => ~ noURLs l) ls)
  /\ ((stripLayers ls).2 = false -> (stripLayers ls).1 = ls).
Proof. exact (stripLayers_spec ls). Qed.

(** X15. Stripping one layer node of the DAG never touches its state, its
    uncompressed digest or its original descriptor, and never touches a
    deleted node. On any other node the new descriptor has no URLs
    afterwards; it is the new descriptor the node had, or the original
    one when no new descriptor was set and the original has URLs, with at
    most its URLs changed: its media type is not rewritten. Stripping the
    result again changes nothing. *)
Theorem stripDagLayer_effect (dl : dagLayer) :
  l_mod (stripDagLayer dl) = l_mod dl
  /\ ucDigest (stripDagLayer dl) = ucDigest dl
  /\ desc (stripDagLayer dl) = desc dl
  /\ (l_mod dl = deleted -> stripDagLayer dl = dl)
  /\ (l_mod dl <> deleted ->
      noURLs (l_newDesc (stripDagLayer dl))
      /\ (withURLs (l_newDesc (stripDagLayer dl)) None = withURLs (l_newDesc dl) None
          \/ (Digest (l_newDesc dl) = "" /\ ~ noURLs (desc dl)
              /\ withURLs (l_newDesc (stripDagLayer dl)) None = withURLs (desc dl) None)))
  /\ stripDagLayer (stripDagLayer dl) = stripDagLayer dl.
Proof.
  destruct (decide (l_mod dl = deleted)) as [Hd|Hd].
  { assert (stripDagLayer dl = dl) as Hs
      by (unfold stripDagLayer; by rewrite bool_decide_eq_true_2).
    rewrite !Hs. by repeat split. }
  assert (forall x, l_mod x = l_mod dl ->
            stripDagLayer x
            = let dl1 :=
                if String.eqb (Digest (l_newDesc x)) ""
                   && Nat.ltb 0 (length (go_strings (URLs (desc x))))
                then withNewDesc x (desc x) else x in
              if Nat.ltb 0 (length (go_strings (URLs (l_newDesc dl1))))
              then withNewDesc dl1 (withURLs (l_newDesc dl1) (Some []))
              else dl1) as Hs.
  { intros x Hx. unfold stripDagLayer. rewrite bool_decide_eq_false_2; [done|congruence]. }
  assert (l_mod (stripDagLayer dl) = l_mod dl) as Hm.
  { rewrite (Hs dl eq_refl). cbv zeta.
    repeat match goal with |- context [if ?b then _ else _] => destruct b end; done. }
  rewrite (Hs _ Hm), (Hs dl eq_refl). clear Hs Hm.
  destruct dl as [md uc d nd]. simpl in Hd. destruct d as [? dg1 ? u1 ? ? ? ?].
  destruct nd as [? dg2 ? u2 ? ? ? ?].
  unfold noURLs, withNewDesc, withURLs, go_strings. simpl.
  destruct (String.eqb_spec dg2 "") as [He2|He2];
    destruct (String.eqb_spec dg1 "") as [He1|He1];
    destruct u1 as [[|? ?]|]; destruct u2 as [[|? ?]|]; simpl;
    repeat match goal with
           | |- context [String.eqb ?a ?b] =>
               destruct (String.eqb_spec a b); try done; simpl
           end;
    repeat split; try done; try (intros; contradiction); try (by left);
    right; by repeat split.
Qed.

(** X16. The step of [WithExternalURLsRm] on an image node that is not
    deleted and whose manifest converts: every layer node of the DAG is
    stripped, whatever the outcome; when no layer of the manifest has
    URLs the step returns no error and leaves the manifest, the state and
    the descriptor of the node as they were; when some layer has URLs and
    the step returns no error, the manifest was handed the stripped
    layers, the state is [replaced] and the descriptor is that of the
    manifest. *)
Theorem runExternalURLsRm_effect (dm : dagManifest) (ociOM : v1.Manifest) :
  dm_mod dm <> deleted ->
  manifest.IsList (m dm) = false ->
  manifest.OCIManifestFromAny (manifest.GetOrig (m dm)) = Ret ociOM ->
  layers (runExternalURLsRm dm).1 = map stripDagLayer (layers dm)
  /\ top (runExternalURLsRm dm).1 = top dm
  /\ config (runExternalURLsRm dm).1 = config dm
  /\ (Forall noURLs (v1.mf_Layers ociOM) ->
      runExternalURLsRm dm = (withLayers dm (map stripDagLayer (layers dm)), Ret tt))
  /\ (~ Forall noURLs (v1.mf_Layers ociOM) ->
      (runExternalURLsRm dm).2 = Ret tt ->
      exists om' m',
        manifest.OCIManifestToAny
          {| v1.mf_Config := v1.mf_Config ociOM;
             v1.mf_Layers := map (fun l => (stripLayer l).1) (v1.mf_Layers ociOM);
             v1.mf_Annotations := v1.mf_Annotations ociOM |}
          (manifest.GetOrig (m dm)) = Ret om'
        /\ manifest.SetOrig (m dm) om' = (m', None)
        /\ dm_mod (runExternalURLsRm dm).1 = replaced
        /\ m (runExternalURLsRm dm).1 = m'
        /\ newDesc (runExternalURLsRm dm).1 = manifest.GetDescriptor m').
Proof.
  intros Hd Hl Hf. unfold runExternalURLsRm.
  rewrite bool_decide_eq_false_2, Hl, Hf by done.
  destruct (stripLayers_spec (v1.mf_Layers ociOM)) as (Hmap & _ & _ & _ & _ & Hc & Hu).
  destruct (stripLayers (v1.mf_Layers ociOM)) as [ls c] eqn:Els. simpl in *. subst ls.
  destruct c; simpl.
  - assert (~ Forall noURLs (v1.mf_Layers ociOM)) as Hnot.
    { intros Hall. destruct Hc as [Hc _]. specialize (Hc eq_refl).
      apply Exists_exists in Hc as (l & Hin & Hl'). rewrite Forall_forall in Hall. auto. }
    destruct (manifest.OCIManifestToAny _ _) as [om'| |] eqn:Hto; simpl;
      [|by repeat split..].
    destruct (manifest.SetOrig (m dm) om') as [m' [e|]] eqn:Hset; simpl;
      repeat split; try done.
    intros _ _. by exists om', m'.
  - assert (Forall noURLs (v1.mf_Layers ociOM)) as Hall.
    { apply Forall_forall. intros l Hin.
      destruct (decide (noURLs l)) as [|Hn]; [done|].
      destruct Hc as [_ Hc]. discriminate Hc. apply Exists_exists. eauto. }
    repeat split; try done.
Qed.

(** X17. None of the steps of [WithAnnotation], [WithAnnotationOCIBase],
    [WithLabelToAnnotation] and [WithExternalURLsRm] touches a deleted
    node: it returns nil and leaves the node as it is. None of the three
    annotation steps touches the [top] flag, the config node or the layer
    nodes; [WithExternalURLsRm] keeps the [top] flag and the config node.
    Each of the four leaves the state of the node as it was or sets it to
    [replaced]. *)
Theorem steps_frame (dm : dagManifest) :
  (forall name value,
      (dm_mod dm = deleted -> runAnnotation name value dm = (dm, Ret tt))
      /\ top (runAnnotation name value dm).1 = top dm
      /\ config (runAnnotation name value dm).1 = config dm
      /\ layers (runAnnotation name value dm).1 = layers dm
      /\ (dm_mod (runAnnotation name value dm).1 = dm_mod dm
          \/ dm_mod (runAnnotation name value dm).1 = replaced))
  /\ (forall rBase dBase,
      (dm_mod dm = deleted -> runAnnotationOCIBase rBase dBase dm = (dm, Ret tt))
      /\ top (runAnnotationOCIBase rBase dBase dm).1 = top dm
      /\ config (runAnnotationOCIBase rBase dBase dm).1 = config dm
      /\ layers (runAnnotationOCIBase rBase dBase dm).1 = layers dm
      /\ (dm_mod (runAnnotationOCIBase rBase dBase dm).1 = dm_mod dm
          \/ dm_mod (runAnnotationOCIBase rBase dBase dm).1 = replaced))
  /\ ((dm_mod dm = deleted -> runLabelToAnnotation dm = (dm, Ret tt))
      /\ top (runLabelToAnnotation dm).1 = top dm
      /\ config (runLabelToAnnotation dm).1 = config dm
      /\ layers (runLabelToAnnotation dm).1 = layers dm
      /\ (dm_mod (runLabelToAnnotation dm).1 = dm_mod dm
          \/ dm_mod (runLabelToAnnotation dm).1 = replaced))
  /\ ((dm_mod dm = deleted -> runExternalURLsRm dm = (dm, Ret tt))
      /\ top (runExternalURLsRm dm).1 = top dm
      /\ config (runExternalURLsRm dm).1 = config dm
      /\ (dm_mod (runExternalURLsRm dm).1 = dm_mod dm
          \/ dm_mod (runExternalURLsRm dm).1 = replaced)).
Proof.
  split; [|split; [|split]].
  - intros name value. unfold runAnnotation.
    destruct (decide (dm_mod dm = deleted)) as [Hd|Hd].
    { rewrite bool_decide_eq_true_2 by done. simpl. repeat split; try done. by left. }
    rewrite bool_decide_eq_false_2 by done. simpl.
    destruct (negb (top dm)); [repeat split; try done; by left|].
    destruct (annotateOrig _ _ _ _) as [[om' [|]]| |]; simpl;
      try (repeat split; try done; by left).
    destruct (manifest.SetOrig (m dm) om') as [m' [e|]]; simpl;
      repeat split; try done; by right.
  - intros rBase dBase. unfold runAnnotationOCIBase, replaceOrig.
    destruct (decide (dm_mod dm = deleted)) as [Hd|Hd].
    { rewrite bool_decide_eq_true_2 by done. simpl. repeat split; try done. by left. }
    rewrite bool_decide_eq_false_2 by done. simpl.
    destruct (negb (top dm)); [repeat split; try done; by left|].
    match goal with
    | |- context [match ?x with Ret _ => _ | Raise _ => _ | Panic => _ end] =>
        destruct x as [[om' [|]]| |]; simpl
    end; try (repeat split; try done; by left).
    destruct (manifest.SetOrig (m dm) om') as [m' [e|]]; simpl;
      repeat split; try done; by right.
  - unfold runLabelToAnnotation.
    destruct (decide (dm_mod dm = deleted)) as [Hd|Hd].
    { rewrite bool_decide_eq_true_2 by done. repeat split; try done. by left. }
    rewrite bool_decide_eq_false_2 by done.
    destruct (manifest.IsList (m dm)); [repeat split; try done; by left|].
    destruct (manifest.OCIManifestFromAny _) as [ociOM| |]; simpl;
      try (repeat split; try done; by left).
    destruct (config dm) as [dc|] eqn:Hdc; try (repeat split; try done; by left).
    destruct (v1.Labels _) as [labels|]; try (repeat split; try done; by left).
    destruct (copyLabels _ _) as [a [|]]; simpl; try (repeat split; try done; by left).
    destruct (manifest.OCIManifestToAny _ _) as [om'| |]; simpl;
      try (repeat split; try done; by left).
    destruct (manifest.SetOrig (m dm) om') as [m' [e|]]; simpl;
      repeat split; try done; (by left) || (by right).
  - unfold runExternalURLsRm.
    destruct (decide (dm_mod dm = deleted)) as [Hd|Hd].
    { rewrite bool_decide_eq_true_2 by done. repeat split; try done. by left. }
    rewrite bool_decide_eq_false_2 by done.
    destruct (manifest.IsList (m dm)); [repeat split; try done; by left|].
    destruct (manifest.OCIManifestFromAny _) as [ociOM| |]; simpl;
      try (repeat split; try done; by left).
    destruct (stripLayers _) as [ls [|]]; simpl; try (repeat split; try done; by left).
    destruct (manifest.OCIManifestToAny _ _) as [om'| |]; simpl;
      try (repeat split; try done; by left).
    destruct (manifest.SetOrig (m dm) om') as [m' [e|]]; simpl;
      repeat split; try done; (by left) || (by right).
Qed.

(** X18. The step of [WithLabelToAnnotation] on an image node that is not
    deleted, whose manifest converts and whose config has labels: when
    every label is among the annotations with its value, the step returns
    no error and leaves the node as it is; otherwise a step that returns
    no error has handed the manifest the labels laid over its
    annotations, set the state to [replaced] and taken the descriptor of
    the manifest anew. *)
Theorem runLabelToAnnotation_effect
  (dm : dagManifest) (ociOM : v1.Manifest) (dc : dagOCIConfig)
  (labels : gmap string string) :
  dm_mod dm <> deleted ->
  manifest.IsList (m dm) = false ->
  manifest.OCIManifestFromAny (manifest.GetOrig (m dm)) = Ret ociOM ->
  config dm = Some dc ->
  v1.Labels (blob.GetConfig (oc dc)) = Some labels ->
  (labels ⊆ go_map (v1.mf_Annotations ociOM) -> runLabelToAnnotation dm = (dm, Ret tt))
  /\ (~ labels ⊆ go_map (v1.mf_Annotations ociOM) ->
      (runLabelToAnnotation dm).2 = Ret tt ->
      exists om' m',
        manifest.OCIManifestToAny
          {| v1.mf_Config := v1.mf_Config ociOM; v1.mf_Layers := v1.mf_Layers ociOM;
             v1.mf_Annotations := Some (labels ∪ go_map (v1.mf_Annotations ociOM)) |}
          (manifest.GetOrig (m dm)) = Ret om'
        /\ manifest.SetOrig (m dm) om' = (m', None)
        /\ (runLabelToAnnotation dm).1
           = {| dm_mod := replaced; top := top dm;
                newDesc := manifest.GetDescriptor m'; m := m';
                config := config dm; layers := layers dm |}).
Proof.
  intros Hd Hl Hf Hdc Hlab. unfold runLabelToAnnotation.
  rewrite bool_decide_eq_false_2, Hl, Hf, Hdc, Hlab by done.
  destruct (copyLabels_spec labels (go_map (v1.mf_Annotations ociOM))) as (Hu & Hc & _).
  destruct (copyLabels labels (go_map (v1.mf_Annotations ociOM))) as [a c]. simpl in *.
  subst a. destruct c; simpl.
  - split; [intros Hs; by destruct (proj1 Hc eq_refl)|].
    intros _.
    destruct (manifest.OCIManifestToAny _ _) as [om'| |]; simpl; [|done|done].
    destruct (manifest.SetOrig (m dm) om') as [m' [e|]] eqn:Hset; simpl; [done|].
    intros _. by exists om', m'.
  - split; [done|]. intros Hn. destruct Hc as [_ Hc]. by specialize (Hc Hn).
Qed.


End Steps.

End ModStepsFacts.

(** * More facts about the rebase step *)
Module RebaseFacts.
Import types Mod ModFacts.

(** The layer nodes the splice puts in front: one per layer of the new
    base, with the diff ID of the same index. *)
Definition newLayers (ls : list Descriptor) (diffIDs : list string) : list dagLayer :=
  zip_with newLayer ls diffIDs.

(** The number of entries of a layer sequence that are not marked
    [added]. *)
Definition prunable (dl : list dagLayer) : nat :=
  length (filter (fun l => ~ isAdded l) dl).

Lemma pruneLoop_short (dl : list dagLayer) (i n : nat) :
  length (filter (fun l => ~ isAdded l) (drop i dl)) < n -> pruneLoop dl i n = Panic.
Proof.
  funelim (pruneLoop dl i n); intros Hn.
  - lia.
  - clear Heqcall.
    pose proof (lookup_lt_Some _ _ _ Hl) as Hi.
    rewrite (drop_S _ _ _ Hl), filter_cons in Hn.
    unfold isAdded in *.
    destruct (decide (l_mod l = added)) as [Ha|Ha].
    + rewrite bool_decide_eq_true_2 by done.
      rewrite decide_False in Hn by tauto. by apply H.
    + rewrite bool_decide_eq_false_2 by done.
      rewrite decide_True in Hn by done. simpl in Hn.
      apply H0. rewrite removeAt_delete by done.
      assert (length (take i dl) = i) as Hlen by (rewrite length_take; lia).
      rewrite drop_app_length' by done. lia.
  - done.
Qed.

Lemma pruneLoop_no_error (dl : list dagLayer) (i n : nat) (e : error) :
  pruneLoop dl i n <> Raise e.
Proof.
  funelim (pruneLoop dl i n); try done.
  clear Heqcall. by destruct (bool_decide (l_mod l = added)).
Qed.

(** X19. The prune loop never returns an error, and it runs out of the
    layer sequence, a run-time panic, exactly when the sequence has
    fewer than [n] entries not marked [added]. *)
Theorem pruneLoop_panics (dl : list dagLayer) (n : nat) :
  (forall e, pruneLoop dl 0 n <> Raise e)
  /\ (pruneLoop dl 0 n = Panic <-> prunable dl < n).
Proof.
  split; [intros e; apply pruneLoop_no_error|].
  unfold prunable. split.
  - intros Hp. destruct (decide (length (filter (fun l => ~ isAdded l) dl) < n)); [done|].
    rewrite pruneLoop_spec in Hp by (rewrite drop_0; lia). done.
  - intros Hn. apply pruneLoop_short. by rewrite drop_0.
Qed.

Section Rebase.
Context {mt : MediaTypes} {pf : platform.Ops} {mo : manifest.Ops}
        {bo : blob.Ops} {rc : regclient.Ops} {ro : ref.Ops} {dg : digest.Ops}.

Lemma layersLoop_complete (imgL : list Descriptor) (i : nat) (rest : list Descriptor) :
  Forall2 (fun l lo => Same l lo = true) (take (length rest) (drop i imgL)) rest ->
  layersLoop imgL i rest = Ret tt.
Proof.
  revert i. induction rest as [|lo rest IH]; intros i H; simpl in *; [done|].
  destruct (imgL !! i) as [l|] eqn:Hl.
  - rewrite (drop_S _ _ _ Hl) in H. simpl in H.
    apply Forall2_cons in H as [Hs H].
    unfold go_at. rewrite Hl. simpl. rewrite Hs. simpl. by apply IH.
  - rewrite drop_ge in H by (by apply lookup_ge_None). by inversion H.
Qed.

Lemma historyLoop_complete (hist : list v1.History) (i : nat) (rest : list v1.History)
      (acc : nat) :
  Forall2 historyMatches (take (length rest) (drop i hist)) rest ->
  historyLoop hist i rest acc = Ret (acc + histLayers rest).
Proof.
  revert i acc. induction rest as [|ho rest IH]; intros i acc H; simpl in *.
  - unfold histLayers. simpl. f_equal. lia.
  - destruct (hist !! i) as [h|] eqn:Hh.
    + rewrite (drop_S _ _ _ Hh) in H. simpl in H.
      apply Forall2_cons in H as [(Ha & Hc & (t & t_o & Ht & Hto & Heq) & Hb & He) H].
      unfold go_at. rewrite Hh. simpl.
      rewrite Ha, Hc, Ht, Hto, Heq, Hb, He, !String.eqb_refl, Bool.eqb_reflx. simpl.
      rewrite IH by done. f_equal. unfold histLayers. rewrite filter_cons.
      destruct (v1.EmptyLayer ho); simpl; lia.
    + rewrite drop_ge in H by (by apply lookup_ge_None). by inversion H.
Qed.

Lemma diffIDsLoop_complete (diffIDs : list string) (i : nat) (rest : list string) :
  take (length rest) (drop i diffIDs) = rest ->
  diffIDsLoop diffIDs i rest = Ret tt.
Proof.
  revert i. induction rest as [|d_o rest IH]; intros i H; simpl in *; [done|].
  destruct (diffIDs !! i) as [d|] eqn:Hd.
  - rewrite (drop_S _ _ _ Hd) in H. simpl in H. injection H as Hhd Htl.
    unfold go_at. rewrite Hd. simpl. rewrite Hhd, String.eqb_refl. simpl.
    by apply IH.
  - rewrite drop_ge in H by (by apply lookup_ge_None). done.
Qed.

Lemma validateOld_accepted (b : bases) : accepted b -> validateOld b = Ret tt.
Proof.
  intros (HlL & HlS & HhL & HhS & Hc & Hd & HdL & HdS). unfold validateOld.
  rewrite (proj2 (Nat.ltb_ge _ _)) by lia.
  rewrite layersLoop_complete by (by rewrite drop_0). simpl.
  rewrite (proj2 (Nat.ltb_ge _ _)) by lia.
  rewrite historyLoop_complete by (by rewrite drop_0). simpl.
  rewrite <- Hc, <- Hd, Nat.eqb_refl. simpl.
  rewrite (proj2 (Nat.ltb_ge _ _)) by lia.
  apply diffIDsLoop_complete. by rewrite drop_0.
Qed.

(** X20. The validation of the old base passes exactly on what
    [accepted] describes: the image has at least the old base's layers,
    history entries and diff IDs; its first layers are [Same] as the old
    base's; its first history entries agree with the old base's in
    author, comment, creation time, command and empty-layer flag; its
    first diff IDs are the old base's; and the old base has as many
    layers as history entries that stand for a layer, and as diff IDs. *)
Theorem validateOld_accepts (b : bases) : validateOld b = Ret tt <-> accepted b.
Proof. split; [apply validateOld_Ret|apply validateOld_accepted]. Qed.

(** X21. The validation of the new base passes exactly when the new
    base has as many layers and as many diff IDs as history entries that
    stand for a layer. It never panics, and the error it returns is of no
    kind of package types: it is not an [ErrMismatch]. *)
Theorem validateNew_spec (b : bases) :
  (validateNew b = Ret tt
   <-> length (layersNew b) = histLayers (v1.Hist (confOCINew b))
       /\ length (v1.DiffIDs (confOCINew b)) = histLayers (v1.Hist (confOCINew b)))
  /\ validateNew b <> Panic
  /\ (forall e s, validateNew b = Raise e -> errors_Is e s = false).
Proof.
  unfold validateNew. rewrite countLayers_spec.
  destruct (Nat.eqb_spec (length (layersNew b)) (histLayers (v1.Hist (confOCINew b))));
    destruct (Nat.eqb_spec (length (v1.DiffIDs (confOCINew b)))
                           (histLayers (v1.Hist (confOCINew b)))); simpl;
    (split; [split; [done || intros [? ?]; done|by intros [? ?] || done]|]);
    (split; [done|]); intros e' s He; by inversion He.
Qed.

Lemma historyLoop_nil_created (hist : list v1.History) (i : nat)
      (pre : list v1.History) (ho : v1.History) (post : list v1.History)
      (h : v1.History) (acc : nat) :
  Forall2 historyMatches (take (length pre) (drop i hist)) pre ->
  hist !! (i + length pre) = Some h ->
  v1.Author h = v1.Author ho ->
  v1.Comment h = v1.Comment ho ->
  v1.Created h = None \/ v1.Created ho = None ->
  historyLoop hist i (pre ++ ho :: post) acc = Panic.
Proof.
  revert i acc. induction pre as [|p pre IH]; intros i acc Hm Hh Ha Hc Hn; simpl in *.
  - rewrite Nat.add_0_r in Hh. unfold go_at. rewrite Hh. simpl.
    rewrite Ha, Hc, !String.eqb_refl. simpl.
    destruct Hn as [->| ->]; [done|]. by destruct (v1.Created h).
  - destruct (hist !! i) as [h0|] eqn:Hh0.
    + rewrite (drop_S _ _ _ Hh0) in Hm. simpl in Hm.
      apply Forall2_cons in Hm as [(Ha0 & Hc0 & (t & t_o & Ht & Hto & Heq) & Hb & He) Hm].
      unfold go_at. rewrite Hh0. simpl.
      rewrite Ha0, Hc0, Ht, Hto, Heq, Hb, He, !String.eqb_refl, Bool.eqb_reflx. simpl.
      apply IH; try done. by replace (S i + length pre) with (i + S (length pre)) by lia.
    + rewrite drop_ge in Hm by (by apply lookup_ge_None). by inversion Hm.
Qed.

(** X22. A history entry without creation time stops the validation
    with a nil pointer dereference: when the layers of the image start
    with the old base's, the history entries before the index [k] agree,
    and at [k] the two entries agree in author and comment but one of
    them has no creation time, the validation of the old base panics. *)
Theorem validateOld_nil_created_panics
  (b : bases) (k : nat) (h ho : v1.History) :
  length (layersOld b) <= length (imgLayers b) ->
  Forall2 (fun l lo => Same l lo = true)
          (take (length (layersOld b)) (imgLayers b)) (layersOld b) ->
  length (v1.Hist (confOCIOld b)) <= length (v1.Hist (confOCI b)) ->
  Forall2 historyMatches (take k (v1.Hist (confOCI b))) (take k (v1.Hist (confOCIOld b))) ->
  v1.Hist (confOCI b) !! k = Some h ->
  v1.Hist (confOCIOld b) !! k = Some ho ->
  v1.Author h = v1.Author ho ->
  v1.Comment h = v1.Comment ho ->
  v1.Created h = None \/ v1.Created ho = None ->
  validateOld b = Panic.
Proof.
  intros HlL HlS HhL HhS Hh Hho Ha Hc Hn. unfold validateOld.
  rewrite (proj2 (Nat.ltb_ge _ _)) by lia.
  rewrite layersLoop_complete by (by rewrite drop_0). simpl.
  rewrite (proj2 (Nat.ltb_ge _ _)) by lia.
  pose proof (lookup_lt_Some _ _ _ Hho) as Hk.
  rewrite <- (take_drop_middle _ _ _ Hho).
  rewrite (historyLoop_nil_created _ 0 _ ho _ h); try done.
  - rewrite drop_0, length_take, Nat.min_l by lia. done.
  - simpl. rewrite length_take, Nat.min_l by lia. done.
Qed.

(** The validation of the old base panics exactly when it comes to
    dereference a creation time that is nil. *)
Lemma validateOld_Panic_iff (b : bases) : validateOld b = Panic <-> reachesUndated b.
Proof.
  split; [apply validateOld_Panic|].
  intros (HlL & HlS & HhL & k & h & ho & HhS & Hh & Hho & Ha & Hc & Hn).
  unfold validateOld.
  rewrite (proj2 (Nat.ltb_ge _ _)) by lia.
  rewrite layersLoop_complete by (by rewrite drop_0). simpl.
  rewrite (proj2 (Nat.ltb_ge _ _)) by lia.
  pose proof (lookup_lt_Some _ _ _ Hho) as Hk.
  rewrite <- (take_drop_middle _ _ _ Hho).
  rewrite (historyLoop_nil_created _ 0 _ ho _ h); try done.
  - rewrite drop_0, length_take, Nat.min_l by lia. done.
  - simpl. rewrite length_take, Nat.min_l by lia. done.
Qed.

Lemma dagAddLoop_zip (diffs : list string) (i : nat) (rest : list Descriptor) :
  i + length rest <= length diffs ->
  dagAddLoop diffs i rest = Ret (newLayers rest (drop i diffs)).
Proof.
  revert i. induction rest as [|l rest IH]; intros i Hlen; simpl in *; [done|].
  destruct (lookup_lt_is_Some_2 diffs i ltac:(lia)) as [d Hd].
  unfold go_at. rewrite Hd. simpl.
  rewrite IH by lia. simpl. by rewrite (drop_S _ _ _ Hd).
Qed.

(** X23. After both validations, the splice cannot run out of a slice
    as long as the layer sequence of the node has at least as many
    entries not marked [added] as the old base has layers: it does not
    panic, it fails only when the manifest refuses the new layers, and
    in either case it leaves as layer sequence of the node one new entry
    per layer of the new base, followed by the former sequence without
    its first entries, as many as the old base has layers, that are not
    marked [added]. *)
Theorem splice_after_validation (b : bases) (dm : dagManifest) :
  validateOld b = Ret tt ->
  validateNew b = Ret tt ->
  length (layersOld b) <= prunable (layers dm) ->
  layers (splice b dm).1
  = newLayers (layersNew b) (v1.DiffIDs (confOCINew b))
    ++ pruneSpec (length (layersOld b)) (layers dm)
  /\ (splice b dm).2 <> Panic
  /\ ((splice b dm).2 = Ret tt
      <-> (manifest.SetLayers (m dm)
             (layersNew b ++ drop (length (layersOld b)) (imgLayers b))).2 = None).
Proof.
  intros Ho Hn Hp.
  apply validateOld_Ret in Ho as (HlL & _ & HhL & _ & _ & _ & HdL & _).
  apply validateNew_Ret in Hn as [HnL HnD].
  unfold splice, go_from, prunable in *.
  rewrite pruneLoop_spec by (by rewrite drop_0).
  rewrite drop_0, take_0. simpl.
  rewrite !(proj2 (Nat.leb_le _ _)) by done. simpl.
  rewrite dagAddLoop_zip by (simpl; lia). simpl. rewrite drop_0.
  destruct (manifest.SetLayers _ _) as [m' [e|]]; simpl; by repeat split.
Qed.

(** X24. What the rebase step leaves alone, whatever it returns: the
    [top] flag and the descriptor of the node. The state of the node is
    as before or [replaced]. A step that does not return nil leaves the
    state and the config node as they were, and when it returns an
    error with the layer sequence changed, the error is the one the
    manifest gave on taking the new layers. A list and a deleted node
    are skipped with the caches untouched. *)
Theorem runRebase_frame
  (rOld rNew : ref.Ref) (cO cN : option manifest.Manifest) (r : ref.Ref)
  (dm : dagManifest) :
  top (runRebase rOld rNew cO cN r dm).1.2 = top dm
  /\ newDesc (runRebase rOld rNew cO cN r dm).1.2 = newDesc dm
  /\ (dm_mod (runRebase rOld rNew cO cN r dm).1.2 = dm_mod dm
      \/ dm_mod (runRebase rOld rNew cO cN r dm).1.2 = replaced)
  /\ ((runRebase rOld rNew cO cN r dm).2 <> Ret tt ->
      dm_mod (runRebase rOld rNew cO cN r dm).1.2 = dm_mod dm
      /\ config (runRebase rOld rNew cO cN r dm).1.2 = config dm)
  /\ (forall e, (runRebase rOld rNew cO cN r dm).2 = Raise e ->
        (runRebase rOld rNew cO cN r dm).1.2 = dm
        \/ exists l, manifest.SetLayers (m dm) l
                     = (m (runRebase rOld rNew cO cN r dm).1.2, Some e))
  /\ (manifest.IsList (m dm) = true \/ dm_mod dm = deleted ->
      runRebase rOld rNew cO cN r dm = (cO, cN, dm, Ret tt)).
Proof.
  unfold runRebase.
  destruct (manifest.IsList (m dm)) eqn:Hl; simpl.
  { repeat split; try done; by left. }
  destruct (decide (dm_mod dm = deleted)) as [Hd|Hd].
  { rewrite bool_decide_eq_true_2 by done. repeat split; try done; by left. }
  rewrite bool_decide_eq_false_2 by done.
  destruct (cached cO rOld) as [mbO| |]; simpl;
    [|repeat split; try done; (by left) || (by intros [?|?])..].
  destruct (cached cN rNew) as [mbN| |]; simpl;
    [|repeat split; try done; (by left) || (by intros [?|?])..].
  destruct (Equal _ _); simpl;
    [repeat split; try done; (by left) || (by intros [?|?])|].
  unfold rebase.
  destruct (loadImages rOld rNew mbO mbN dm) as [b| |]; simpl;
    [|repeat split; try done; (by left) || (by intros [?|?])..].
  destruct (validateOld b) as [[]| |]; simpl;
    [|repeat split; try done; (by left) || (by intros [?|?])..].
  destruct (validateNew b) as [[]| |]; simpl;
    [|repeat split; try done; (by left) || (by intros [?|?])..].
  destruct (copyBlobs rNew r (layersNew b)) as [[]| |]; simpl;
    [|repeat split; try done; (by left) || (by intros [?|?])..].
  unfold splice.
  pose proof (pruneLoop_no_error (layers dm) 0 (length (layersOld b))) as Hne.
  destruct (pruneLoop _ 0 _) as [pruned|e0|]; simpl;
    [|by destruct (Hne e0)|repeat split; try done; (by left) || (by intros [?|?])].
  unfold go_from.
  destruct (Nat.leb _ (length (imgLayers b))); simpl;
    [|repeat split; try done; (by left) || (by intros [?|?])].
  destruct (Nat.leb _ (length (v1.Hist (confOCI b)))); simpl;
    [|repeat split; try done; (by left) || (by intros [?|?])].
  destruct (Nat.leb _ (length (v1.DiffIDs (confOCI b)))); simpl;
    [|repeat split; try done; (by left) || (by intros [?|?])].
  assert (forall i rest e, dagAddLoop (v1.DiffIDs (confOCINew b)) i rest <> Raise e) as Hadd.
  { intros i rest. revert i. induction rest as [|l rest IH]; intros i e; simpl; [done|].
    unfold go_at. destruct (_ !! i); simpl; [|done].
    specialize (IH (S i)).
    destruct (dagAddLoop _ (S i) rest) as [?|e1|]; simpl; try done.
    all: try (intros [= <-]; by destruct (IH e1)). }
  specialize (Hadd 0 (layersNew b)).
  destruct (dagAddLoop _ 0 _) as [dagAdd|e0|]; simpl;
    [|by destruct (Hadd e0)|repeat split; try done; (by left) || (by intros [?|?])].
  destruct (manifest.SetLayers _ _) as [m' [e|]] eqn:Hset; simpl.
  - repeat split; try done; try (by left); try (by intros [?|?]).
    intros e' [= <-]. right. by eexists.
  - repeat split; try done; try (by right); try (by intros [?|?]).
Qed.

(** X25. The two caches of the step: a cache that is filled stays as it
    is, and a cache that the step fills holds what the registry returned
    for the reference of that base, so the registry is asked for a base
    at most until it answers. When the step gets past the skip of lists
    and deleted nodes and both bases resolve, both caches are filled,
    whatever the step returns afterwards. *)
Theorem runRebase_caches
  (rOld rNew : ref.Ref) (cO cN : option manifest.Manifest) (r : ref.Ref)
  (dm : dagManifest) :
  (forall mb, cO = Some mb -> (runRebase rOld rNew cO cN r dm).1.1.1 = Some mb)
  /\ (forall mb, cN = Some mb -> (runRebase rOld rNew cO cN r dm).1.1.2 = Some mb)
  /\ (forall mb, cO = None -> (runRebase rOld rNew cO cN r dm).1.1.1 = Some mb ->
        regclient.ManifestGet rOld = Ret mb)
  /\ (forall mb, cN = None -> (runRebase rOld rNew cO cN r dm).1.1.2 = Some mb ->
        regclient.ManifestGet rNew = Ret mb)
  /\ (forall mbO mbN,
        manifest.IsList (m dm) = false -> dm_mod dm <> deleted ->
        cached cO rOld = Ret mbO -> cached cN rNew = Ret mbN ->
        (runRebase rOld rNew cO cN r dm).1.1 = (Some mbO, Some mbN)).
Proof.
  unfold runRebase.
  destruct (manifest.IsList (m dm)) eqn:Hl; simpl.
  { repeat split; try done; intros; simpl in *; congruence. }
  destruct (decide (dm_mod dm = deleted)) as [Hd|Hd].
  { rewrite bool_decide_eq_true_2 by done.
    repeat split; try done; intros; simpl in *; congruence. }
  rewrite bool_decide_eq_false_2 by done.
  destruct (cached cO rOld) as [mbO| |] eqn:HO; simpl.
  2,3: repeat split; try done; intros; subst; simpl in *; congruence.
  destruct (cached cN rNew) as [mbN| |] eqn:HN; simpl.
  2,3: repeat split; try done; intros; subst; simpl in *; congruence.
  assert ((if Equal (manifest.GetDescriptor mbO) (manifest.GetDescriptor mbN)
           then (Some mbO, Some mbN, dm, Ret tt)
           else let '(dm', e) := rebase rOld rNew mbO mbN r dm in
                (Some mbO, Some mbN, dm', e)).1.1 = (Some mbO, Some mbN)) as ->.
  { destruct (Equal _ _); [done|]. by destruct (rebase rOld rNew mbO mbN r dm). }
  simpl. repeat split; intros; subst; simpl in *; congruence.
Qed.

Lemma copyBlobs_outcome (rNew r : ref.Ref) (lNew : list Descriptor) :
  match copyBlobs rNew r lNew with
  | Ret _ => Forall (fun d => regclient.BlobCopy rNew r d = None) lNew
  | Raise e =>
      exists pre d post err,
        lNew = pre ++ d :: post
        /\ Forall (fun d => regclient.BlobCopy rNew r d = None) pre
        /\ regclient.BlobCopy rNew r d = Some err
        /\ e = Wrap "failed copying blobs for rebase: %w" err
  | Panic => False
  end.
Proof.
  induction lNew as [|d rest IH]; simpl; [done|].
  destruct (regclient.BlobCopy rNew r d) as [err|] eqn:Hc.
  - by exists [], d, rest, err.
  - destruct (copyBlobs rNew r rest) as [[]|e|]; [by constructor| |done].
    destruct IH as (pre & d' & post & err & -> & Hpre & Hd' & ->).
    exists (d :: pre), d', post, err. repeat split; try done. by constructor.
Qed.

(** X26. Copying the layers of the new base: the loop never panics; it
    returns nil exactly when every copy succeeds; and its error wraps
    the error of the first copy that failed, so it is of the kinds that
    error is. *)
Theorem copyBlobs_spec (rNew r : ref.Ref) (lNew : list Descriptor) :
  copyBlobs rNew r lNew <> Panic
  /\ (copyBlobs rNew r lNew = Ret tt
      <-> Forall (fun d => regclient.BlobCopy rNew r d = None) lNew)
  /\ (forall e, copyBlobs rNew r lNew = Raise e ->
        exists pre d post err,
          lNew = pre ++ d :: post
          /\ Forall (fun d => regclient.BlobCopy rNew r d = None) pre
          /\ regclient.BlobCopy rNew r d = Some err
          /\ e = Wrap "failed copying blobs for rebase: %w" err
          /\ forall s, errors_Is e s = errors_Is err s).
Proof.
  pose proof (copyBlobs_outcome rNew r lNew) as H.
  destruct (copyBlobs rNew r lNew) as [[]|e|]; [| |done].
  - repeat split; try done.
  - destruct H as (pre & d & post & err & -> & Hpre & Hd & ->).
    split; [done|]. split.
    + split; [done|]. intros Hall. apply Forall_app in Hall as [_ Hall].
      apply Forall_cons in Hall as [Hall _]. congruence.
    + intros e' [= <-]. by exists pre, d, post, err.
Qed.

(** X27. [WithRebase] registers nothing when it fails: the steps are
    as before unless it returns nil, and then exactly one step was
    appended, a rebase step with both caches empty, after the steps
    that were registered. A manifest that does not support annotations
    is refused with an error of no kind of package types. *)
Theorem WithRebase_atomic (dc : dagConfig) (dm : dagManifest) :
  ((WithRebase dc dm).2 <> Ret tt -> (WithRebase dc dm).1 = dc)
  /\ ((WithRebase dc dm).2 = Ret tt ->
      exists rOld rNew,
        stepsManifest (WithRebase dc dm).1
        = stepsManifest dc ++ [rebaseStep rOld rNew None None])
  /\ (manifest.isAnnotator (m dm) = false ->
      exists e, WithRebase dc dm = (dc, Raise e) /\ forall s, errors_Is e s = false).
Proof.
  unfold WithRebase.
  destruct (manifest.isAnnotator (m dm)); simpl.
  2:{ repeat split; try done. intros _. by eexists. }
  destruct (manifest.GetAnnotations (m dm)) as [annot| |]; simpl;
    [|by repeat split..].
  destruct (go_map annot !! AnnotationBaseImageName) as [baseName|]; [|by repeat split].
  destruct (go_map annot !! AnnotationBaseImageDigest) as [baseDigest|]; [|by repeat split].
  destruct (ref.New baseName) as [rNew| |]; simpl; [|by repeat split..].
  destruct (digest.Parse baseDigest) as [dig| |]; simpl; [|by repeat split..].
  repeat split; try done. intros _. by eexists _, _.
Qed.

End Rebase.

End RebaseFacts.

(** * The added facts on concrete inputs *)
Module MoreExamples.
Import types descriptor Mod ModSteps ModFacts examples.
Import typesFacts descriptorFacts ModStepsFacts RebaseFacts.

#[local] Existing Instance registryMediaTypes.
#[local] Existing Instance registryLayerMediaTypes.
#[local] Existing Instance platform.tripleOps.
#[local] Existing Instance sort.insertionOps.
#[local] Existing Instance tManifestOps.
#[local] Existing Instance tBlobOps.
#[local] Existing Instance registry.
#[local] Existing Instance tRefOps.
#[local] Existing Instance tDigestOps.

Lemma registryLayerMediaTypes_OK : LayerMediaTypesOK registryLayerMediaTypes.
Proof. split. apply (bool_decide_unpack _). vm_compute. exact I. Qed.

Definition dockerLayer : string := "application/vnd.docker.image.rootfs.diff.tar.gzip".
Definition dockerForeignLayer : string :=
  "application/vnd.docker.image.rootfs.foreign.diff.tar.gzip".

Definition linux (arch : string) : platform.Platform := {|
  platform.OS := "linux"; platform.Architecture := arch; platform.Variant := "";
  platform.OSVersion := ""; platform.OSFeatures := []; platform.Features := []
|}.

(** An entry of an index, for a platform. *)
Definition platformEntry (dig arch : string) : Descriptor := {|
  MediaType := ociManifest; Digest := dig; Size := 7; URLs := None;
  Annotations := None; Data := None; Platform := Some (linux arch); ArtifactType := ""
|}.

Definition forPlatform (arch : string) : MatchOpt := {|
  opt_Platform := Some (linux arch); opt_ArtifactType := ""; opt_Annotations := None;
  SortAnnotation := ""; SortDesc := false
|}.

(** A layer kept outside the registry. *)
Definition foreignLayer (dig : string) : Descriptor := {|
  MediaType := dockerForeignLayer; Digest := dig; Size := 1024;
  URLs := Some ["https://example.com/layer.tar.gz"];
  Annotations := None; Data := None; Platform := None; ArtifactType := ""
|}.

(** An image on a foreign layer, with labels in its config. *)
Definition cfgForeign : tConfig := {|
  t_image := {| v1.OS := "windows"; v1.Architecture := "amd64"; v1.Variant := "";
                v1.OSVersion := ""; v1.OSFeatures := [];
                v1.Labels := Some {[ "org.example.team" := "core";
                                     "org.example.tier" := "base" ]};
                v1.Hist := [entry "ADD rootfs" false; entry "COPY app" false];
                v1.DiffIDs := ["sha256:uf"; "sha256:u9"] |};
  t_cdesc := {| MediaType := ociConfig; Digest := "sha256:cf"; Size := 100; URLs := None;
                Annotations := None; Data := None; Platform := None; ArtifactType := "" |}
|}.

Definition foreignApp : tManifest :=
  imageManifest ociManifest cfgForeign
    [foreignLayer "sha256:lf"; layer ociLayer "sha256:l9"]
    (Some {[ "org.example.tier" := "app" ]}).

Definition foreignNode : @dagManifest (@tManifestOps platform.tripleOps) tBlobOps := {|
  dm_mod := unchanged; top := true; newDesc := zeroDescriptor;
  m := (foreignApp : @manifest.Manifest (@tManifestOps platform.tripleOps));
  config := Some {| modified := false; c_newDesc := zeroDescriptor;
                    oc := (cfgForeign : @blob.OCIConfig tBlobOps) |};
  layers := [dagLayerOf (foreignLayer "sha256:lf") "sha256:uf";
             dagLayerOf (layer ociLayer "sha256:l9") "sha256:u9"]
|}.

Definition foreignOCI : v1.Manifest := {|
  v1.mf_Config := t_config foreignApp; v1.mf_Layers := t_layers foreignApp;
  v1.mf_Annotations := t_annotations foreignApp
|}.

(** A history entry without creation time. *)
Definition undated (by_ : string) : v1.History := {|
  v1.Created := None; v1.CreatedBy := by_; v1.Author := ""; v1.Comment := "";
  v1.EmptyLayer := false
|}.

(** The bases of the image, with an image history whose second entry has
    no creation time, and an old base that has that entry too. *)
Definition basesUndated : @bases tBlobOps := {|
  layersOld := t_layers app; confOCIOld := image [entry "ADD rootfs" false;
                                                   entry "COPY app" false]
                                                  ["sha256:u1"; "sha256:u9"];
  layersNew := t_layers base2; confOCINew := t_image cfgBase2;
  imgLayers := t_layers app; conf := (cfgApp : @blob.OCIConfig tBlobOps);
  confOCI := image [entry "ADD rootfs" false; undated "COPY app"]
                   ["sha256:u1"; "sha256:u9"]
|}.

Lemma Same_equivalence_witness :
  Same (layer ociLayer "sha256:1f") (layer dockerLayer "sha256:1f") = true.
Proof.
  apply (proj1 (proj2 (Same_equivalence registryMediaTypes_OK))
           (layer dockerLayer "sha256:1f") (layer ociLayer "sha256:1f")).
  vm_compute. reflexivity.
Defined.

Lemma Equal_guarantees_witness :
  Same (annotated "k" "v") (annotated "k" "v") = true
  /\ Annotations (annotated "k" "v") = Annotations (annotated "k" "v").
Proof.
  assert (Equal (annotated "k" "v") (annotated "k" "v") = true) as H
    by (vm_compute; reflexivity).
  pose proof (Equal_guarantees _ _ H) as G.
  split; [exact (proj1 G)|].
  apply G. intros k v Hk. unfold annotated, go_map in Hk. simpl in Hk.
  apply lookup_singleton_Some in Hk as [_ <-]. discriminate.
Defined.

Lemma Equal_reflexive_witness :
  Equal (platformEntry "sha256:m1" "amd64") (platformEntry "sha256:m1" "amd64") = true.
Proof.
  apply (Equal_reflexive (platformEntry "sha256:m1" "amd64")).
  intros p [= <-]. vm_compute. reflexivity.
Defined.

Lemma DescriptorListFilter_matching_witness :
  Permutation
    (DescriptorListFilter
       [bare "sha256:0"; annotated "v" "1"; annotated "v" "2"; annotated "w" "3"]
       (sortBy "v" true))
    (filter (fun d => Match d (sortBy "v" true) = true)
       [bare "sha256:0"; annotated "v" "1"; annotated "v" "2"; annotated "w" "3"]).
Proof.
  exact (proj1 (DescriptorListFilter_matching sortFacts.insertionOps_OK
                  [bare "sha256:0"; annotated "v" "1"; annotated "v" "2"; annotated "w" "3"]
                  (sortBy "v" true))).
Defined.

Lemma DescriptorListFilter_identity_witness :
  DescriptorListFilter [annotated "v" "2"; bare "sha256:0"; annotated "v" "1"]
    (sortBy "" true)
  = [annotated "v" "2"; bare "sha256:0"; annotated "v" "1"].
Proof.
  apply (DescriptorListFilter_identity
           [annotated "v" "2"; bare "sha256:0"; annotated "v" "1"] (sortBy "" true));
    reflexivity.
Defined.

Lemma DescriptorListFilter_ordered_witness :
  String.compare (sortKey (sortBy "v" false) (annotated "v" "2"))
                 (sortKey (sortBy "v" false) (annotated "v" "1")) <> Lt.
Proof.
  apply (DescriptorListFilter_ordered sortFacts.insertionOps_OK
           [bare "sha256:0"; annotated "v" "2"; annotated "w" "3"; annotated "v" "1"]
           (sortBy "v" false) 0 1 (annotated "v" "1") (annotated "v" "2"));
    try (vm_compute; reflexivity); try discriminate; try lia.
Defined.

Lemma DescriptorListSearch_spec_witness :
  DescriptorListSearch
    [platformEntry "sha256:m1" "arm64"; platformEntry "sha256:m2" "amd64"]
    (forPlatform "amd64")
  <> Panic.
Proof.
  exact (proj1 (DescriptorListSearch_spec sortFacts.insertionOps_OK
                  [platformEntry "sha256:m1" "arm64"; platformEntry "sha256:m2" "amd64"]
                  (forPlatform "amd64"))).
Defined.

Lemma stripLayer_effect_witness :
  stripLayer (foreignLayer "sha256:lf")
  = ({| MediaType := stripMediaType dockerForeignLayer; Digest := "sha256:lf";
        Size := 1024; URLs := Some []; Annotations := None; Data := None;
        Platform := None; ArtifactType := "" |}, true)
  /\ stripMediaType dockerForeignLayer = dockerLayer.
Proof.
  pose proof (stripLayer_effect registryLayerMediaTypes_OK (foreignLayer "sha256:lf")) as G.
  split.
  - apply G. discriminate.
  - exact (proj1 (proj1 (proj2 (proj2 G)))).
Defined.

Lemma runExternalURLsRm_effect_witness :
  layers (runExternalURLsRm foreignNode).1 = map stripDagLayer (layers foreignNode)
  /\ dm_mod (runExternalURLsRm foreignNode).1 = replaced
  /\ manifest.GetLayers (m (runExternalURLsRm foreignNode).1)
     = Ret [withURLs (layer dockerLayer "sha256:lf") (Some []); layer ociLayer "sha256:l9"].
Proof.
  assert (dm_mod foreignNode <> deleted) as H1 by discriminate.
  pose proof (runExternalURLsRm_effect foreignNode foreignOCI H1 eq_refl eq_refl) as G.
  split; [exact (proj1 G)|].
  assert (~ Forall noURLs (v1.mf_Layers foreignOCI)) as H2.
  { intros Hall. apply Forall_cons in Hall as [Hno _]. discriminate Hno. }
  assert ((runExternalURLsRm foreignNode).2 = Ret tt) as H3 by (vm_compute; reflexivity).
  destruct (proj2 (proj2 (proj2 (proj2 G))) H2 H3) as (om' & m' & Hto & Hset & Hmod & Hm & _).
  split; [exact Hmod|]. vm_compute. reflexivity.
Defined.

Lemma runLabelToAnnotation_effect_witness :
  exists om' m',
    manifest.OCIManifestToAny
      {| v1.mf_Config := v1.mf_Config foreignOCI; v1.mf_Layers := v1.mf_Layers foreignOCI;
         v1.mf_Annotations :=
           Some ({[ "org.example.team" := "core"; "org.example.tier" := "base" ]}
                 ∪ go_map (v1.mf_Annotations foreignOCI)) |}
      (manifest.GetOrig (m foreignNode)) = Ret om'
    /\ manifest.SetOrig (m foreignNode) om' = (m', None)
    /\ (runLabelToAnnotation foreignNode).1
       = {| dm_mod := replaced; top := top foreignNode;
            newDesc := manifest.GetDescriptor m'; m := m';
            config := config foreignNode; layers := layers foreignNode |}.
Proof.
  assert (dm_mod foreignNode <> deleted) as H1 by discriminate.
  apply (proj2 (runLabelToAnnotation_effect foreignNode foreignOCI _ _
                  H1 eq_refl eq_refl eq_refl eq_refl)).
  - intros Hsub.
    assert (({[ "org.example.team" := "core"; "org.example.tier" := "base" ]}
               : gmap string string) !! "org.example.team" = Some "core") as Hl0
      by (vm_compute; reflexivity).
    pose proof (lookup_weaken _ _ _ _ Hl0 Hsub) as Hl.
    vm_compute in Hl. discriminate Hl.
  - vm_compute. reflexivity.
Defined.

Lemma validateOld_nil_created_panics_witness : validateOld basesUndated = Panic.
Proof.
  apply (validateOld_nil_created_panics basesUndated 1
           (undated "COPY app") (entry "COPY app" false));
    try (vm_compute; reflexivity); try (simpl; lia).
  - repeat constructor.
  - repeat constructor. by eexists _, _.
  - by left.
Defined.

Lemma splice_after_validation_witness :
  layers (splice bases12 (appNode unchanged)).1
  = newLayers (layersNew bases12) (v1.DiffIDs (confOCINew bases12))
    ++ pruneSpec (length (layersOld bases12)) (layers (appNode unchanged))
  /\ (splice bases12 (appNode unchanged)).2 <> Panic.
Proof.
  pose proof (splice_after_validation bases12 (appNode unchanged)) as G.
  destruct G as (G1 & G2 & _);
    [vm_compute; reflexivity|vm_compute; reflexivity|vm_compute; lia|].
  by split.
Defined.

End MoreExamples.
